(** * SmartByte: note store, reminder scheduler and AI response parsers

    A shallow embedding of [modules/storage.py], [modules/reminders.py] and
    the response parsers of [ai_utils.py], with the properties of the
    specification that concern them; and of the code around them: the save
    paths and the text chunks of [main.py], [modules/quizgen.py] and
    [utils/sync_stats.py], with further properties of the code.

    Conventions of the embedding:
    - a Python [int] is a [Z]; a [str] is a [string] of ASCII characters;
    - the data directory is a pair of optional files; [None] is an absent
      file;
    - [notes.csv] is the list of rows of the data frame that [pd.read_csv]
      yields, in file order; a cell that pandas reads as NaN is [None],
      and so is, once written, a string among the missing-value words of
      pandas ([NA_VALUES]: the empty string, [NA], [null], ...);
    - pandas gives a column the type of its cells: the properties that
      depend on it are stated on tables that are [legible], with ids and
      [xp] within 64 bits, ISO timestamps and text cells that are NaN or
      hold a letter and are no missing value, infinity or truth value;
    - an assignment of a string to a column that holds no string raises
      [TypeError], as pandas does from its version 3;
    - [int] and [str] refuse a numeral of more than 4300 digits, the
      default limit of Python;
    - [stats.json] is the record of its three keys, each present or not;
    - a Python exception is the outcome [Raises]; the file system state
      written before the exception stays written;
    - [pd.Timestamp.now()] is an argument of the operations that read the
      clock; so are the answer of the Gemini model, what NLTK returns and
      the order that [random.shuffle] leaves;
    - the job table of the scheduler changes by the calls only: the
      thread that fires the jobs is not modelled. *)

From Stdlib Require Import ZArith List String Ascii Bool Lia Sorted Permutation.
From Stdlib Require Import OrderedTypeEx.
From stdpp Require Import gmap strings.

Import ListNotations.
Local Open Scope string_scope.
Local Open Scope Z_scope.

(** ** Python values and builtins *)

Module Py.

(** A finite IEEE double is [m * 2^e]; the other floats are the two
    infinities and NaN. *)
Inductive pyfloat : Type :=
| Finite (m e : Z)
| Inf (negative : bool)
| NaN.

Inductive pyval : Type :=
| PyInt (z : Z)
| PyFloat (f : pyfloat)
| PyStr (s : string)
| PyNone.

Inductive exn : Type :=
| KeyError
| TypeError
| ValueError
| OverflowError
| FileNotFoundError
| JobLookupError.

(** [str.isspace] on the ASCII range: TAB, LF, VT, FF, CR, the four
    separators FS GS RS US, and the space. *)
Definition isspace (c : ascii) : bool :=
  let n := N_of_ascii c in
  ((9 <=? n) && (n <=? 13) || (28 <=? n) && (n <=? 31) || (n =? 32))%N.

Fixpoint lstrip (s : string) : string :=
  match s with
  | String c s' => if isspace c then lstrip s' else s
  | EmptyString => EmptyString
  end.

(** [rstrip] keeps a character when it is not a space or when something
    is kept after it. *)
Fixpoint rstrip (s : string) : string :=
  match s with
  | String c s' =>
      match rstrip s' with
      | EmptyString => if isspace c then EmptyString else String c EmptyString
      | r => String c r
      end
  | EmptyString => EmptyString
  end.

(** [s.strip()] *)
Definition strip (s : string) : string := rstrip (lstrip s).

(** [s.startswith(p)] *)
Definition startswith (p s : string) : bool := String.prefix p s.

(** [s[n:]] for [0 <= n] *)
Fixpoint drop (n : nat) (s : string) : string :=
  match n, s with
  | O, _ => s
  | S n', String _ s' => drop n' s'
  | S _, EmptyString => EmptyString
  end.

(** [c in s] *)
Fixpoint contains (c : ascii) (s : string) : bool :=
  match s with
  | String d s' => if Ascii.eqb c d then true else contains c s'
  | EmptyString => false
  end.

(** [s.split(sep)] for a one-character separator: never the empty list;
    the accumulator [cur] is the current field. *)
Fixpoint split_aux (sep : ascii) (s : string) : string * list string :=
  match s with
  | EmptyString => (EmptyString, [])
  | String c s' =>
      let '(cur, rest) := split_aux sep s' in
      if Ascii.eqb c sep then (EmptyString, cur :: rest)
      else (String c cur, rest)
  end.

Definition split (sep : ascii) (s : string) : list string :=
  let '(cur, rest) := split_aux sep s in cur :: rest.

(** [s.split(sep, 1)[1]]: what follows the first [sep]; [None] when
    there is no [sep] (an IndexError in Python). *)
Fixpoint after_first (sep : ascii) (s : string) : option string :=
  match s with
  | String c s' => if Ascii.eqb c sep then Some s' else after_first sep s'
  | EmptyString => None
  end.

(** Truth value of a [str] *)
Definition truthy (s : string) : bool :=
  match s with EmptyString => false | _ => true end.

Definition is_digit (c : ascii) : bool :=
  let n := N_of_ascii c in ((48 <=? n) && (n <=? 57))%N.

Definition digit_val (c : ascii) : Z := Z.of_N (N_of_ascii c) - 48.

(** Digits of a decimal literal after its sign: at least one digit, and
    single underscores only between digits.  [acc] is the value so far,
    [prev_digit] tells whether the previous character was a digit. *)
Fixpoint digits_value (acc : Z) (prev_digit : bool) (s : string) : option Z :=
  match s with
  | EmptyString => if prev_digit then Some acc else None
  | String c s' =>
      if is_digit c then digits_value (10 * acc + digit_val c) true s'
      else if Ascii.eqb c "_" then
             if prev_digit then digits_value acc false s' else None
           else None
  end.

(** The whitespace that [int()] skips at both ends of an ASCII string:
    TAB, LF, VT, FF, CR and the space.  The separators FS, GS, RS and US,
    which [str.strip] removes, are not among them. *)
Definition is_c_space (c : ascii) : bool :=
  let n := N_of_ascii c in ((9 <=? n) && (n <=? 13) || (n =? 32))%N.

Fixpoint int_lstrip (s : string) : string :=
  match s with
  | String c s' => if is_c_space c then int_lstrip s' else s
  | EmptyString => EmptyString
  end.

Fixpoint int_rstrip (s : string) : string :=
  match s with
  | String c s' =>
      match int_rstrip s' with
      | EmptyString => if is_c_space c then EmptyString else String c EmptyString
      | r => String c r
      end
  | EmptyString => EmptyString
  end.

(** [sys.get_int_max_str_digits()], at its default *)
Definition MAX_STR_DIGITS : Z := 4300.

(** The number of digits of a literal; the underscores do not count. *)
Fixpoint digit_count (s : string) : Z :=
  match s with
  | String c s' => (if is_digit c then 1 else 0) + digit_count s'
  | EmptyString => 0
  end.

(** The value of the digits of a literal, refused when there are more
    than [MAX_STR_DIGITS] of them. *)
Definition digits_checked (d : string) : option Z :=
  if MAX_STR_DIGITS <? digit_count d then None else digits_value 0 false d.

(** [int(s)] for a [str], base 10: surrounding whitespace is ignored, one
    sign is allowed; [None] is a [ValueError]. *)
Definition int_of_str (s : string) : option Z :=
  match int_rstrip (int_lstrip s) with
  | String "-" d => option_map Z.opp (digits_checked d)
  | String "+" d => digits_checked d
  | d => digits_checked d
  end.

(** [int(f)] for a float truncates toward zero; the infinities and NaN
    raise. *)
Definition int_of_float (f : pyfloat) : option Z :=
  match f with
  | Finite m e => Some (if 0 <=? e then m * 2 ^ e else Z.quot m (2 ^ (- e)))
  | Inf _ => None
  | NaN => None
  end.

(** [int(v)]; [None] when Python raises. *)
Definition int (v : pyval) : option Z :=
  match v with
  | PyInt z => Some z
  | PyFloat f => int_of_float f
  | PyStr s => int_of_str s
  | PyNone => None
  end.

(** Outcome of a call: a returned value or a raised exception. *)
Inductive outcome (A : Type) : Type :=
| Returns (a : A)
| Raises (e : exn).
Arguments Returns {A} a.
Arguments Raises {A} e.

(** [len(s)] *)
Definition len (s : string) : Z := Z.of_nat (String.length s).

Fixpoint all_chars (p : ascii -> bool) (s : string) : bool :=
  match s with
  | String c s' => p c && all_chars p s'
  | EmptyString => true
  end.

(** [s.isdigit()] on ASCII: at least one character, all of them digits. *)
Definition isdigit (s : string) : bool := truthy s && all_chars is_digit s.

(** [v[-1]] of a list that [split] returned, which is never empty. *)
Definition last_field (v : list string) : string := List.last v EmptyString.

(** The decimal digits of [n], least significant first onto [acc]; [fuel]
    bounds their number. *)
Fixpoint digits_of (fuel : nat) (n : N) (acc : string) : string :=
  match fuel with
  | O => acc
  | S fuel' =>
      let acc' := String (ascii_of_N (48 + n mod 10)) acc in
      if (n / 10 =? 0)%N then acc' else digits_of fuel' (n / 10)%N acc'
  end.

Definition str_N (n : N) : string :=
  digits_of (S (N.to_nat (N.log2 n))) n EmptyString.

(** The decimal numeral of [z], whatever its length. *)
Definition numeral (z : Z) : string :=
  match z with
  | Z0 => "0"
  | Zpos q => str_N (Npos q)
  | Zneg q => String "-" (str_N (Npos q))
  end.

(** [str(z)] for an [int]; [None] is the [ValueError] of an integer of
    more than [MAX_STR_DIGITS] digits. *)
Definition str (z : Z) : option string :=
  if MAX_STR_DIGITS <? digit_count (numeral z) then None
  else Some (numeral z).

End Py.

(** ** [pd.Timestamp] and its ISO-8601 rendering *)

Module Timestamp.

Record t : Type := mk {
  year : N; month : N; day : N;
  hour : N; minute : N; second : N;
  microsecond : N
}.

(** Field ranges of a calendar timestamp with four-digit years. *)
Definition valid (ts : t) : Prop :=
  (1 <= year ts <= 9999 /\ 1 <= month ts <= 12 /\ 1 <= day ts <= 31 /\
   hour ts < 24 /\ minute ts < 60 /\ second ts < 60 /\
   microsecond ts < 1000000)%N.

Definition digit (d : N) : ascii := ascii_of_N (48 + d).

(** The [w] low decimal digits of [n], most significant first. *)
Fixpoint zpad (w : nat) (n : N) : string :=
  match w with
  | O => EmptyString
  | S w' => String (digit ((n / 10 ^ N.of_nat w') mod 10)) (zpad w' n)
  end.

(** [ts.isoformat()]: [YYYY-MM-DDTHH:MM:SS], followed by [.ffffff] when
    the microsecond is not zero. *)
Definition isoformat (ts : t) : string :=
  zpad 4 (year ts) ++ "-" ++ zpad 2 (month ts) ++ "-" ++ zpad 2 (day ts)
  ++ "T" ++ zpad 2 (hour ts) ++ ":" ++ zpad 2 (minute ts) ++ ":"
  ++ zpad 2 (second ts)
  ++ (if (microsecond ts =? 0)%N then EmptyString
      else "." ++ zpad 6 (microsecond ts)).




(** *** A reader of ISO-8601 timestamps

    Not part of the program: it gives a meaning to "parseable". *)

Definition digit_of (c : ascii) : option N :=
  let n := N_of_ascii c in
  if ((48 <=? n) && (n <=? 57))%N then Some (n - 48)%N else None.

(** Reads exactly [w] decimal digits. *)
Fixpoint read_digits (w : nat) (acc : N) (s : string) : option (N * string) :=
  match w with
  | O => Some (acc, s)
  | S w' =>
      match s with
      | String c s' =>
          match digit_of c with
          | Some d => read_digits w' (10 * acc + d)%N s'
          | None => None
          end
      | EmptyString => None
      end
  end.

(** Reads the one character [c]. *)
Definition expect (c : ascii) (s : string) : option string :=
  match s with
  | String d s' => if Ascii.eqb c d then Some s' else None
  | EmptyString => None
  end.

Definition in_range (lo hi n : N) : bool := ((lo <=? n) && (n <=? hi))%N.

Definition parse_iso8601 (s : string) : option t :=
  '(y, s) ← read_digits 4 0%N s;
  s ← expect "-" s;
  '(mo, s) ← read_digits 2 0%N s;
  s ← expect "-" s;
  '(d, s) ← read_digits 2 0%N s;
  s ← expect "T" s;
  '(h, s) ← read_digits 2 0%N s;
  s ← expect ":" s;
  '(mi, s) ← read_digits 2 0%N s;
  s ← expect ":" s;
  '(se, s) ← read_digits 2 0%N s;
  '(us, s) ← match s with
             | EmptyString => Some (0%N, s)
             | _ => s ← expect "." s; read_digits 6 0%N s
             end;
  if in_range 1 9999 y && in_range 1 12 mo && in_range 1 31 d
     && in_range 0 23 h && in_range 0 59 mi && in_range 0 59 se
     && match s with EmptyString => true | _ => false end
  then Some (mk y mo d h mi se us) else None.

End Timestamp.

(** ** [modules/storage.py] *)

Module Storage.
Import Py.

(** A string cell of the data frame; [None] is NaN. *)
Definition cell : Type := option string.

(** One row of [notes.csv], columns [id, datetime, title, text, tags, xp].
    The [id] and [xp] columns are 64-bit integers in pandas and the text
    columns hold strings or NaN; a frame where pandas reads a column
    otherwise (an id past [2^63], a missing [xp], a title that is a
    numeral) has no counterpart here, and the properties that depend on
    the cells exclude it ([Ops.legible], [Ops.id_room]). *)
Record Note : Type := mkNote {
  id : Z;
  datetime : string;
  title : cell;
  text : cell;
  tags : cell;
  xp : option Z
}.

(** The object of [stats.json]: the integers under ["total_xp"] and
    ["notes_created"] and the list under ["badges"]; [None] is an absent
    key. *)
Record Stats : Type := mkStats {
  total_xp : option Z;
  notes_created : option Z;
  badges : option (list string)
}.

Inductive key : Type := TotalXp | NotesCreated.

(** [stats.get(k)] *)
Definition get (k : key) (stats : Stats) : option Z :=
  match k with
  | TotalXp => total_xp stats
  | NotesCreated => notes_created stats
  end.

(** [stats[k] = v] *)
Definition set (k : key) (v : Z) (stats : Stats) : Stats :=
  match k with
  | TotalXp => mkStats (Some v) (notes_created stats) (badges stats)
  | NotesCreated => mkStats (total_xp stats) (Some v) (badges stats)
  end.

(** The data directory: [NOTES_CSV] and [STATS_JSON]. *)
Record Files : Type := mkFiles {
  notes_csv : option (list Note);
  stats_json : option Stats
}.

(** *** File operations, with state and exceptions *)

Definition M (A : Type) : Type := Files -> outcome A * Files.

Definition ret {A} (a : A) : M A := fun fs => (Returns a, fs).

Definition raise {A} (e : exn) : M A := fun fs => (Raises e, fs).

Definition bind {A B} (m : M A) (k : A -> M B) : M B :=
  fun fs =>
    match m fs with
    | (Returns a, fs') => k a fs'
    | (Raises e, fs') => (Raises e, fs')
    end.

Notation "x <- m ;; k" := (bind m (fun x => k))
  (at level 100, m at next level, right associativity).
Notation "m ;; k" := (bind m (fun _ => k))
  (at level 100, right associativity).

(** [pd.read_csv(NOTES_CSV)] *)
Definition read_csv : M (list Note) :=
  fun fs =>
    match notes_csv fs with
    | Some df => (Returns df, fs)
    | None => (Raises FileNotFoundError, fs)
    end.

(** The fields that [pd.read_csv] reads as NaN, the default
    [na_values] of pandas. *)
Definition NA_VALUES : list string :=
  [EmptyString; "#N/A"; "#N/A N/A"; "#NA"; "-1.#IND"; "-1.#QNAN"; "-NaN";
   "-nan"; "1.#IND"; "1.#QNAN"; "<NA>"; "N/A"; "NA"; "NULL"; "NaN"; "None";
   "n/a"; "nan"; "null"].

Definition is_na (s : string) : bool := existsb (String.eqb s) NA_VALUES.

(** A cell as it is read back from the file it was written to. *)
Definition reread_cell (c : cell) : cell :=
  match c with
  | Some s => if is_na s then None else Some s
  | None => None
  end.

Definition reread (r : Note) : Note :=
  mkNote (id r) (datetime r) (reread_cell (title r)) (reread_cell (text r))
    (reread_cell (tags r)) (xp r).

(** [df.to_csv(NOTES_CSV, index=False)]: the file holds the frame as the
    next [pd.read_csv] yields it, so a string that is one of [NA_VALUES]
    is from then on a NaN.  What pandas makes of a column whose strings
    are all numerals or truth values is not modelled. *)
Definition to_csv (df : list Note) : M unit :=
  fun fs => (Returns tt, mkFiles (Some (map reread df)) (stats_json fs)).

Definition write_stats (obj : Stats) : M unit :=
  fun fs => (Returns tt, mkFiles (notes_csv fs) (Some obj)).

Definition ensure_files : M unit :=
  fun fs =>
    let notes :=
      match notes_csv fs with
      | None => Some []
      | Some df => Some df
      end in
    let stats :=
      match stats_json fs with
      | None => Some (mkStats (Some 0) (Some 0) None)
      | Some obj => Some obj
      end in
    (Returns tt, mkFiles notes stats).

Definition load_stats : M Stats :=
  fun fs =>
    match stats_json fs with
    | Some obj => (Returns obj, fs)
    | None => (Raises FileNotFoundError, fs)
    end.

Definition save_stats (obj : Stats) : M unit :=
  ensure_files ;; write_stats obj.

(** *** Data frame helpers *)

(** [df.empty] *)
Definition empty (df : list Note) : bool :=
  match df with [] => true | _ => false end.

(** [df["id"].max()]; the code asks for it on frames with a row only. *)
Fixpoint max_id (df : list Note) : Z :=
  match df with
  | [] => 0
  | [r] => id r
  | r :: rs => Z.max (id r) (max_id rs)
  end.

(** [n in df["id"].values] *)
Definition isin (n : Z) (df : list Note) : bool :=
  existsb (fun r => id r =? n) df.

(** [df.loc[df["id"] == n, col] = v], with [set] the write of column
    [col]. *)
Definition loc_set (n : Z) (write : Note -> Note) (df : list Note)
  : list Note :=
  map (fun r => if id r =? n then write r else r) df.

Definition set_title (v : string) (r : Note) : Note :=
  mkNote (id r) (datetime r) (Some v) (text r) (tags r) (xp r).
Definition set_text (v : string) (r : Note) : Note :=
  mkNote (id r) (datetime r) (title r) (Some v) (tags r) (xp r).
Definition set_tags (v : string) (r : Note) : Note :=
  mkNote (id r) (datetime r) (title r) (text r) (Some v) (xp r).
Definition set_datetime (v : string) (r : Note) : Note :=
  mkNote (id r) v (title r) (text r) (tags r) (xp r).

(** [df[col] = df[col].fillna(...)] with the empty string *)
Definition fillna (c : cell) : cell :=
  match c with None => Some EmptyString | Some s => Some s end.

Definition fillna_tags (r : Note) : Note :=
  mkNote (id r) (datetime r) (title r) (text r) (fillna (tags r)) (xp r).
Definition fillna_title (r : Note) : Note :=
  mkNote (id r) (datetime r) (fillna (title r)) (text r) (tags r) (xp r).
Definition fillna_text (r : Note) : Note :=
  mkNote (id r) (datetime r) (title r) (fillna (text r)) (tags r) (xp r).

(** [df.sort_values("datetime", ascending=False)]: strings compare by
    code point; the order of rows of equal [datetime], which pandas leaves
    to its sorting algorithm, is here the order of the file. *)
Fixpoint insert_desc (r : Note) (l : list Note) : list Note :=
  match l with
  | [] => [r]
  | y :: l' =>
      if String.leb (datetime y) (datetime r) then r :: l
      else y :: insert_desc r l'
  end.

Definition sort_values_desc (df : list Note) : list Note :=
  fold_right insert_desc [] df.

(** [df.head(n)]: the first [n] rows, all but the last [-n] when [n] is
    negative. *)
Definition head (n : Z) (df : list Note) : list Note :=
  if 0 <=? n then firstn (Z.to_nat n) df
  else firstn (length df - Z.to_nat (- n)) df.

(** [stats[k] += v] *)
Definition iadd (k : key) (v : Z) (stats : Stats) : M Stats :=
  match get k stats with
  | Some z => ret (set k (z + v) stats)
  | None => raise KeyError
  end.

(** [stats[k] = max(0, stats.get(k, 0) - v)] *)
Definition floor_sub (k : key) (v : Z) (stats : Stats) : Stats :=
  set k (Z.max 0 (default 0 (get k stats) - v)) stats.

(** *** The operations *)

(** [save_note(title, text, tags, xp)]: the row is written before the
    counters are read, so a [KeyError] on a counter leaves the row in the
    file. *)
Definition save_note (now : Timestamp.t) (title text tags : string) (xp : Z)
  : M Z :=
  ensure_files ;;
  df <- read_csv ;;
  let nid := if empty df then 1 else max_id df + 1 in
  let new := mkNote nid (Timestamp.isoformat now)
               (Some title) (Some text) (Some tags) (Some xp) in
  let df := (df ++ [new])%list in
  to_csv df ;;
  stats <- load_stats ;;
  stats <- iadd TotalXp xp stats ;;
  stats <- iadd NotesCreated 1 stats ;;
  save_stats stats ;;
  ret nid.

(** A column of a frame with a row holds strings when one of its cells
    does; a column of NaN only is a column of floats. *)
Definition holds_str (col : Note -> cell) (df : list Note) : bool :=
  existsb (fun r => match col r with Some _ => true | None => false end) df.

(** [df.loc[df["id"] == n, col] = v] for a string [v]: pandas refuses to
    set a string in a column of floats. *)
Definition loc_set_str (n : Z) (col : Note -> cell) (write : Note -> Note)
    (df : list Note) : M (list Note) :=
  if holds_str col df then ret (loc_set n write df) else raise TypeError.

(** [update_note(note_id, title, text, tags, xp)], with the integer
    [note_id] that the callers pass.  The argument [xp] is not used: an
    edit keeps the row's [xp].  Nothing is written when an assignment
    raises. *)
Definition update_note (now : Timestamp.t) (note_id : Z)
    (title text tags : string) (xp : Z) : M bool :=
  ensure_files ;;
  df <- read_csv ;;
  if empty df || negb (isin note_id df) then ret false
  else
    df <- loc_set_str note_id Storage.title (set_title title) df ;;
    df <- loc_set_str note_id Storage.text (set_text text) df ;;
    df <- loc_set_str note_id Storage.tags (set_tags tags) df ;;
    let df := loc_set note_id (set_datetime (Timestamp.isoformat now)) df in
    to_csv df ;;
    ret true.

(** [list_notes(limit)]: the frame always has the columns [tags],
    [title] and [text], so the three [fillna] are done; the rows of the
    result are the records of [to_dict]. *)
Definition list_notes (limit : Z) : M (list Note) :=
  ensure_files ;;
  df <- read_csv ;;
  if empty df then ret []
  else
    let df := map fillna_tags df in
    let df := map fillna_text (map fillna_title df) in
    let df := head limit (sort_values_desc df) in
    ret df.

(** [int(row.get("xp", 0) or 0)] on the first row whose id is [nid], and
    [0] when that raises (no such row, or a NaN cell). *)
Definition row_xp (nid : Z) (df : list Note) : Z :=
  match List.filter (fun r => id r =? nid) df with
  | r :: _ => default 0 (xp r)
  | [] => 0
  end.

(** [delete_note(note_id)]: pandas is loaded with the module, so the
    guarded import does not fail; the rows are written before the counters
    are floored. *)
Definition delete_note (note_id : pyval) : M bool :=
  ensure_files ;;
  df <- read_csv ;;
  if empty df then ret false
  else
    match int note_id with
    | None => ret false
    | Some nid =>
        if negb (isin nid df) then ret false
        else
          let xp := row_xp nid df in
          let df := List.filter (fun r => negb (id r =? nid)) df in
          to_csv df ;;
          stats <- load_stats ;;
          let stats := floor_sub TotalXp xp stats in
          let stats := floor_sub NotesCreated 1 stats in
          save_stats stats ;;
          ret true
    end.

(** *** Sequences of calls *)

Inductive call : Type :=
| Create (now : Timestamp.t) (title text tags : string) (xp : Z)
| Delete (note_id : pyval).

Inductive result : Type :=
| Created (nid : Z)
| Deleted (ok : bool)
| Failed (e : exn).

Definition step (c : call) (fs : Files) : result * Files :=
  match c with
  | Create now title text tags xp =>
      match save_note now title text tags xp fs with
      | (Returns nid, fs') => (Created nid, fs')
      | (Raises e, fs') => (Failed e, fs')
      end
  | Delete v =>
      match delete_note v fs with
      | (Returns b, fs') => (Deleted b, fs')
      | (Raises e, fs') => (Failed e, fs')
      end
  end.



(** The empty data directory after [ensure_files]. *)
Definition initial : Files := snd (ensure_files (mkFiles None None)).

(** The rows and the statistics as a reader sees them after
    [ensure_files]. *)
Definition rows (fs : Files) : list Note :=
  match notes_csv fs with Some df => df | None => [] end.

Definition stats (fs : Files) : Stats :=
  match stats_json fs with
  | Some obj => obj
  | None => mkStats (Some 0) (Some 0) None
  end.

(** Recomputation of the aggregates from the rows, as
    [utils/sync_stats.py] does. *)
Definition sum_xp (df : list Note) : Z :=
  fold_right (fun r acc => default 0 (xp r) + acc) 0 df.

End Storage.

(** ** [modules/reminders.py] *)

Module Reminders.
Import Py.

(** A one-shot job of the scheduler: its fire time and the message that
    [notify] receives. *)
Record Job : Type := mkJob {
  run_date : Z;
  msg : string
}.

(** The job table of the [BackgroundScheduler] holds the pending jobs by
    id, as it is at the time of the call: a job that has fired is no
    longer in it.  [scheduler.remove_job(jid)] raises when [jid] is not
    in it. *)
Definition scheduler_remove_job (jid : string) (jobs : gmap string Job)
  : outcome unit * gmap string Job :=
  match jobs !! jid with
  | Some _ => (Returns tt, delete jid jobs)
  | None => (Raises JobLookupError, jobs)
  end.

(** [remove_job(jid)]: [True], or [False] when the scheduler raised. *)
Definition remove_job (jid : string) (jobs : gmap string Job)
  : bool * gmap string Job :=
  match scheduler_remove_job jid jobs with
  | (Returns _, jobs') => (true, jobs')
  | (Raises _, jobs') => (false, jobs')
  end.

End Reminders.

(** ** The response parsers of [ai_utils.py] *)

Module AiUtils.
Import Py.

(** [{"question": ..., "answer": ...}] *)
Record card : Type := mkCard {
  question : string;
  answer : string
}.

Definition LF : ascii := ascii_of_N 10.

(** Truth value of a variable that holds [None] or a [str]. *)
Definition is_set (v : option string) : bool :=
  match v with Some s => truthy s | None => false end.

(** [v[:n]] *)
Definition slice_to {A} (n : Z) (v : list A) : list A :=
  if 0 <=? n then firstn (Z.to_nat n) v
  else firstn (length v - Z.to_nat (- n)) v.

(** *** [generate_flashcards] *)

(** One turn of the loop over the lines; the state is [current_q] and
    [flashcards]. *)
Definition flashcard_line (st : option string * list card) (line : string)
  : option string * list card :=
  let '(current_q, flashcards) := st in
  let line := strip line in
  if startswith "Q:" line then
    (Some (strip (drop 2 line)), flashcards)
  else if startswith "A:" line && is_set current_q then
    match current_q with
    | Some q => (None, (flashcards ++ [mkCard q (strip (drop 2 line))])%list)
    | None => st
    end
  else st.

Definition parse_flashcards (response_text : string) : list card :=
  let lines := split LF (strip response_text) in
  snd (fold_left flashcard_line lines (None, [])).

(** [response] is the text of [model.generate_content(prompt)], [None]
    when there is no model, no response or no text, or when the call
    raises. *)
Definition generate_flashcards (GENAI_AVAILABLE : bool)
    (response : option string) (text : string) (num_cards : Z) : list card :=
  if negb (truthy text) || negb (truthy (strip text)) then []
  else if negb GENAI_AVAILABLE then []
  else match response with
       | Some response_text => parse_flashcards response_text
       | None => []
       end.

(** *** [generate_quiz_questions] *)

Record quiz_state : Type := mkQuiz {
  current_question : option string;
  current_answer : option string;
  questions : list card
}.

(** The [if current_question and current_answer: questions.append(...)]
    of the loop and of its exit. *)
Definition flush (st : quiz_state) : list card :=
  match current_question st, current_answer st with
  | Some q, Some a =>
      if truthy q && truthy a then (questions st ++ [mkCard q a])%list
      else questions st
  | _, _ => questions st
  end.

(** [line.split(':', 1)[1].strip()] *)
Definition after_colon (line : string) : option string :=
  strip <$> after_first ":" line.

Definition quiz_line (st : quiz_state) (line : string) : quiz_state :=
  let line := strip line in
  if negb (truthy line) then st
  else if startswith "Q" line && contains ":" line then
    mkQuiz (after_colon line) None (flush st)
  else if startswith "A" line && contains ":" line then
    mkQuiz (current_question st) (after_colon line) (questions st)
  else st.

Definition parse_quiz (response_text : string) (num_questions : Z)
  : list card :=
  let response_text := strip response_text in
  let lines := split LF response_text in
  let st := fold_left quiz_line lines (mkQuiz None None []) in
  slice_to num_questions (flush st).

Definition generate_quiz_questions (GENAI_AVAILABLE : bool)
    (response : option string) (text : string) (num_questions : Z)
  : list card :=
  if negb (truthy text) || negb (truthy (strip text)) then []
  else if negb GENAI_AVAILABLE then []
  else match response with
       | Some response_text =>
           if truthy response_text then parse_quiz response_text num_questions
           else []
       | None => []
       end.

(** *** [extract_keywords] *)

Definition COMMA : ascii := ascii_of_N 44.

(** [response] as for [generate_flashcards]; every failure gives the empty
    list. *)
Definition extract_keywords (GENAI_AVAILABLE : bool)
    (response : option string) (text : string) (max_keywords : Z)
  : list string :=
  if negb (truthy text) || negb (truthy (strip text)) then []
  else if negb GENAI_AVAILABLE then []
  else match response with
       | Some response_text =>
           if truthy response_text then
             let keywords_text := strip response_text in
             let keywords := map strip (split COMMA keywords_text) in
             slice_to max_keywords keywords
           else []
       | None => []
       end.

(** *** [assess_difficulty] *)

(** What the call of the model gives: no model, an exception with its
    message, or a response with its text, if any. *)
Inductive gemini : Type :=
| NoModel
| Raised (message : string)
| Responded (text : option string).

(** [{"level": ..., "explanation": ...}] *)
Record assessment : Type := mkAssessment {
  level : string;
  explanation : string
}.

(** One turn of the loop over the lines, which are not stripped; the state
    is [level] and [explanation]. *)
Definition difficulty_line (st : string * string) (line : string)
  : string * string :=
  let '(level, explanation) := st in
  if startswith "Level:" line then
    match after_colon line with
    | Some v => (v, explanation)
    | None => st
    end
  else if startswith "Explanation:" line then
    match after_colon line with
    | Some v => (level, v)
    | None => st
    end
  else st.

Definition assess_difficulty (GENAI_AVAILABLE : bool) (reply : gemini)
    (text : string) : assessment :=
  if negb (truthy text) || negb (truthy (strip text)) then
    mkAssessment "Unknown" "No text provided"
  else if negb GENAI_AVAILABLE then
    mkAssessment "Unknown" "API not available"
  else match reply with
       | NoModel => mkAssessment "Unknown" "Model not available"
       | Raised message => mkAssessment "Unknown" message
       | Responded (Some response_text) =>
           if truthy response_text then
             let result_text := strip response_text in
             let '(level, explanation) :=
               fold_left difficulty_line (split LF result_text)
                 ("Medium", EmptyString) in
             mkAssessment level explanation
           else mkAssessment "Unknown" "Could not assess"
       | Responded None => mkAssessment "Unknown" "Could not assess"
       end.

End AiUtils.

(** ** [utils/sync_stats.py] *)

Module SyncStats.
Import Py Storage.


End SyncStats.

(** ** The save paths of [main.py] *)

Module App.
Import Py Storage.

(** The state of the note editor that the save paths read and write:
    what [entry_title.get()], [txt_content.get("1.0", tk.END)] and
    [entry_tags.get()] return, and the two attributes of the window. *)
Record editor : Type := mkEditor {
  entry_title : string;
  txt_content : string;
  entry_tags : string;
  current_note_id : option Z;
  is_modified : bool
}.

Definition HASH : ascii := ascii_of_N 35.

(** The number of a note that is named [Untitled note #<digits>]; the
    title [t] is [n.get("title") or ""], a string on the tables where
    pandas reads the column as strings.  [None] is the [ValueError] of
    [int] on a field of more than [MAX_STR_DIGITS] digits. *)
Definition untitled_num (n : Note) : option (list Z) :=
  let t := default EmptyString (title n) in
  if startswith "Untitled note #" t then
    let parts := last_field (split HASH t) in
    if isdigit parts then
      match int (PyStr parts) with
      | Some v => Some [v]
      | None => None
      end
    else Some []
  else Some [].

(** The loop that fills [untitled_nums]. *)
Fixpoint untitled_nums (notes_list : list Note) : option (list Z) :=
  match notes_list with
  | [] => Some []
  | n :: notes_list' =>
      match untitled_num n with
      | Some v =>
          match untitled_nums notes_list' with
          | Some w => Some (v ++ w)%list
          | None => None
          end
      | None => None
      end
  end.

(** [max(v)] of a list with the first element [x] *)
Definition max_of (x : Z) (v : list Z) : Z := fold_left Z.max v x.

(** [max(untitled_nums) + 1 if untitled_nums else 1] *)
Definition next_idx (untitled_nums : list Z) : Z :=
  match untitled_nums with
  | x :: v => max_of x v + 1
  | [] => 1
  end.

(** The title made from the listed notes; [None] is a [ValueError], of
    [int] in the loop or of the formatting of [next_idx]. *)
Definition next_title (notes_list : list Note) : option string :=
  match untitled_nums notes_list with
  | Some nums =>
      match str (next_idx nums) with
      | Some d => Some ("Untitled note #" ++ d)%string
      | None => None
      end
  | None => None
  end.

(** The title of a note saved without one. *)
Definition auto_title : M string :=
  notes_list <- list_notes 9999 ;;
  match next_title notes_list with
  | Some title => ret title
  | None => raise ValueError
  end.

(** [5 + min(50, len(text) // 20)] *)
Definition xp_for (text : string) : Z := 5 + Z.min 50 (len text / 20).

(** The update of the loaded note, or the create of a new one when none
    is loaded or the loaded one is gone; the editor then holds the id of
    the note it shows. *)
Definition update_or_create (ed : editor) (now : Timestamp.t)
    (title text tags : string) (xp : Z) : M editor :=
  match current_note_id ed with
  | Some cid =>
      success <- update_note now cid title text tags xp ;;
      if success then ret ed
      else
        nid <- Storage.save_note now title text tags xp ;;
        ret (mkEditor (entry_title ed) (txt_content ed) (entry_tags ed)
               (Some nid) (is_modified ed))
  | None =>
      nid <- Storage.save_note now title text tags xp ;;
      ret (mkEditor (entry_title ed) (txt_content ed) (entry_tags ed)
             (Some nid) (is_modified ed))
  end.

Definition saved (ed : editor) : editor :=
  mkEditor (entry_title ed) (txt_content ed) (entry_tags ed)
    (current_note_id ed) false.

(** [App.save_note]: the warning on an empty text ends the call; after
    the save, [refresh_notes] and [refresh_dashboard] read the store. *)
Definition save_note (ed : editor) (now : Timestamp.t) : M editor :=
  let title := strip (entry_title ed) in
  title <- (if negb (truthy title) then auto_title else ret title) ;;
  let text := strip (txt_content ed) in
  let tags := strip (entry_tags ed) in
  if negb (truthy text) then ret ed
  else
    let xp := xp_for text in
    ed <- update_or_create ed now title text tags xp ;;
    list_notes 200 ;;
    list_notes 8 ;;
    ret (saved ed).

(** [try: ... except Exception: ...]: the exception is logged and the
    call returns with the editor as it was. *)
Definition swallow (ed : editor) (m : M editor) : M editor :=
  fun fs =>
    match m fs with
    | (Returns ed', fs') => (Returns ed', fs')
    | (Raises _, fs') => (Returns ed, fs')
    end.

(** [App.save_note_silent], the autosave. *)
Definition save_note_silent (ed : editor) (now : Timestamp.t) : M editor :=
  swallow ed
    (let title := strip (entry_title ed) in
     let text := strip (txt_content ed) in
     if negb (truthy text) || (len text <? 3) then ret ed
     else if negb (truthy title) && negb (truthy text) then ret ed
     else
       title <- (if negb (truthy title) then auto_title else ret title) ;;
       let tags := strip (entry_tags ed) in
       let xp := xp_for text in
       ed <- update_or_create ed now title text tags xp ;;
       ret (saved ed)).

(** The separator of paragraphs, a blank line. *)
Definition BLANK : string := String AiUtils.LF (String AiUtils.LF EmptyString).

(** [text.split(BLANK)]: the separators are found from the left and do
    not overlap; [cur] is the current field. *)
Fixpoint split_blank_aux (s : string) : string * list string :=
  match s with
  | EmptyString => (EmptyString, [])
  | String c s' =>
      match s' with
      | String d s'' =>
          if Ascii.eqb c AiUtils.LF && Ascii.eqb d AiUtils.LF then
            let '(cur, rest) := split_blank_aux s'' in
            (EmptyString, cur :: rest)
          else
            let '(cur, rest) := split_blank_aux s' in (String c cur, rest)
      | EmptyString => (String c EmptyString, [])
      end
  end.

Definition split_blank (s : string) : list string :=
  let '(cur, rest) := split_blank_aux s in cur :: rest.

(** [[p for p in text.split(BLANK) if p.strip()]] *)
Definition paras (text : string) : list string :=
  List.filter (fun p => truthy (strip p)) (split_blank text).

(** One turn of the loop of [_chunk_text] on the paragraph [p], with the
    chunks that are closed and the chunk [cur] that is open. *)
Definition chunk_step (max_chars : Z) (st : list string * string)
    (p : string) : list string * string :=
  let '(chunks, cur) := st in
  if len cur + len p + 2 <? max_chars then
    (chunks, if truthy cur then (cur ++ BLANK ++ p)%string else p)
  else
    ((if truthy cur then (chunks ++ [cur])%list else chunks), p).

Definition _chunk_text (text : string) (max_chars : Z) : list string :=
  let '(chunks, cur) :=
    fold_left (chunk_step max_chars) (paras text) ([], EmptyString) in
  if truthy cur then (chunks ++ [cur])%list else chunks.

End App.

(** * modules/quizgen.py *)

Module QuizGen.
Import Py Storage.

(** What the module finds of NLTK when it is loaded: the tokenizer and
    the list of English stop words, each of which can raise ([None]). *)
Record nltk : Type := mkNltk {
  word_tokenize : string -> option (list string);
  stopwords_english : option (list string)
}.

Definition FALLBACK_STOP : list string :=
  ["the"; "and"; "is"; "in"; "it"; "of"; "to"; "a"; "an"; "that"; "this";
   "for"; "on"; "with"; "as"; "are"; "was"; "were"].

Definition is_upper (c : ascii) : bool :=
  let n := N_of_ascii c in ((65 <=? n) && (n <=? 90))%N.

Definition is_lower (c : ascii) : bool :=
  let n := N_of_ascii c in ((97 <=? n) && (n <=? 122))%N.

(** [s.isalpha()] on the ASCII range *)
Definition isalpha (s : string) : bool :=
  truthy s && all_chars (fun c => is_upper c || is_lower c) s.

(** [s.lower()] on the ASCII range *)
Fixpoint lower (s : string) : string :=
  match s with
  | String c s' =>
      String (if is_upper c then ascii_of_N (N_of_ascii c + 32) else c)
        (lower s')
  | EmptyString => EmptyString
  end.

(** [s.split()]: the fields between runs of whitespace, none of them
    empty; [cur] is the current field. *)
Fixpoint split_ws_aux (s : string) : string * list string :=
  match s with
  | EmptyString => (EmptyString, [])
  | String c s' =>
      let '(cur, rest) := split_ws_aux s' in
      if isspace c then (EmptyString, if truthy cur then cur :: rest else rest)
      else (String c cur, rest)
  end.

Definition split_ws (s : string) : list string :=
  let '(cur, rest) := split_ws_aux s in
  if truthy cur then cur :: rest else rest.

Definition _tokenize_words (lib : option nltk) (text : string)
  : list string :=
  let fallback := map lower (List.filter isalpha (split_ws text)) in
  match lib with
  | Some l =>
      match word_tokenize l text with
      | Some ws => map lower (List.filter isalpha ws)
      | None => fallback
      end
  | None => fallback
  end.

(** The stop words in use. *)
Definition stop_words (lib : option nltk) : list string :=
  match lib with
  | Some l =>
      match stopwords_english l with
      | Some ws => ws
      | None => FALLBACK_STOP
      end
  | None => FALLBACK_STOP
  end.

(** [w in stop] *)
Definition mem (w : string) (stop : list string) : bool :=
  existsb (String.eqb w) stop.

(** A [dict] from words to counts, in the order of insertion. *)
Definition dict : Type := list (string * Z).

(** [freq.get(k)] *)
Fixpoint dict_get (k : string) (freq : dict) : option Z :=
  match freq with
  | [] => None
  | (k', c) :: f => if String.eqb k' k then Some c else dict_get k f
  end.

(** [freq[k] = v] *)
Fixpoint dict_set (k : string) (v : Z) (freq : dict) : dict :=
  match freq with
  | [] => [(k, v)]
  | (k', c) :: f =>
      if String.eqb k' k then (k', v) :: f else (k', c) :: dict_set k v f
  end.

(** The loop that counts the words that are no stop words. *)
Definition count_word (stop : list string) (freq : dict) (w : string)
  : dict :=
  if mem w stop then freq
  else dict_set w (default 0 (dict_get w freq) + 1) freq.

(** The order of [sorted] on the keys [(-count, word)]. *)
Definition key_lt (a b : string * Z) : bool :=
  (- snd a <? - snd b) || ((- snd a =? - snd b) && String.ltb (fst a) (fst b)).

(** [sorted(items, key=...)], which keeps the order of items of equal
    keys. *)
Fixpoint insert_item (x : string * Z) (l : list (string * Z))
  : list (string * Z) :=
  match l with
  | [] => [x]
  | y :: l' => if key_lt y x then y :: insert_item x l' else x :: l
  end.

Definition sorted (items : list (string * Z)) : list (string * Z) :=
  fold_right insert_item [] items.

Definition extract_keywords (lib : option nltk) (text : string) (n : Z)
  : list string :=
  let words := _tokenize_words lib (lower text) in
  let stop := stop_words lib in
  let freq := fold_left (count_word stop) words [] in
  let items := sorted freq in
  AiUtils.slice_to n (map fst items).

(** [prefix] is the start of [s], letters compared without their case. *)
Fixpoint match_here (pattern s : string) : bool :=
  match pattern, s with
  | EmptyString, _ => true
  | String c p', String d s' =>
      Ascii.eqb (if is_upper c then ascii_of_N (N_of_ascii c + 32) else c)
                (if is_upper d then ascii_of_N (N_of_ascii d + 32) else d)
      && match_here p' s'
  | String _ _, EmptyString => false
  end.

(** [pattern.sub(repl, s, count=1)] for the pattern of a word that is
    not empty, with [re.IGNORECASE]: the leftmost match is replaced. *)
Fixpoint sub_first (keyword repl s : string) : string :=
  if match_here keyword s then (repl ++ drop (String.length keyword) s)%string
  else
    match s with
    | String c s' => String c (sub_first keyword repl s')
    | EmptyString => EmptyString
    end.

Definition _make_question_from_text (note_text keyword : string)
  : option string :=
  if negb (truthy keyword) then None
  else Some (sub_first keyword "_____" note_text).

Record item : Type := mkItem { question : string; answer : string }.

(** The loop of [generate_quiz] over the shuffled notes; it ends at the
    [break]. *)
Fixpoint questions_of (lib : option nltk) (max_q : Z) (notes : list Note)
    (questions : list item) : list item :=
  match notes with
  | [] => questions
  | note :: notes' =>
      let text := default EmptyString (Storage.text note) in
      if len (strip text) <? 10 then questions_of lib max_q notes' questions
      else
        match extract_keywords lib text 2 with
        | [] => questions_of lib max_q notes' questions
        | keyword :: _ =>
            match _make_question_from_text text keyword with
            | Some (String c q) =>
                let questions :=
                  (questions
                   ++ [mkItem (strip (String c q)) (strip keyword)])%list in
                if Z.of_nat (length questions) >=? max_q then questions
                else questions_of lib max_q notes' questions
            | _ => questions_of lib max_q notes' questions
            end
        end
  end.

(** [generate_quiz]; [shuffle] is what [random.shuffle] makes of the
    list this time.  The [text] of a note is a string, as it is on the
    tables where pandas reads the column as strings. *)
Definition generate_quiz (lib : option nltk)
    (shuffle : list Note -> list Note) (max_q : Z) : M (list item) :=
  notes <- list_notes 200 ;;
  match notes with
  | [] => ret []
  | _ => ret (questions_of lib max_q (shuffle notes) [])
  end.

End QuizGen.

(** * Vocabulary of the properties *)

Module Spec.
Import Py Storage AiUtils.

(** ** The note store *)

(** The four column writes of [update_note] amount to one row rewrite. *)
Definition edited (now : Timestamp.t) (title text tags : string) (r : Note)
  : Note :=
  mkNote (id r) (Timestamp.isoformat now) (Some title) (Some text) (Some tags)
    (xp r).

(** The statistics after a delete that takes [amount] off [total_xp]. *)
Definition decremented (amount : Z) (st : Stats) : Stats :=
  floor_sub NotesCreated 1 (floor_sub TotalXp amount st).


(** The id that [save_note] gives to the next note. *)
Definition next_id (df : list Note) : Z :=
  if empty df then 1 else max_id df + 1.

(** The row that [save_note] appends. *)
Definition new_note (now : Timestamp.t) (title text tags : string) (xp0 : Z)
    (df : list Note) : Note :=
  mkNote (next_id df) (Timestamp.isoformat now)
    (Some title) (Some text) (Some tags) (Some xp0).


(** A run of creates holds no delete. *)
Definition is_create (c : call) : Prop :=
  match c with Create _ _ _ _ _ => True | Delete _ => False end.

(** What the runs from the initial store preserve: ids are unique, every
    [xp] is a non-negative number, and the counters are the recomputed
    ones. *)
Definition in_sync (fs : Files) : Prop :=
  List.NoDup (map id (rows fs))
  /\ Forall (fun r => exists x, xp r = Some x /\ 0 <= x) (rows fs)
  /\ total_xp (stats fs) = Some (sum_xp (rows fs))
  /\ notes_created (stats fs) = Some (Z.of_nat (length (rows fs))).

(** The creates of a run carry no negative [xp]. *)
Definition nonneg_xp (c : call) : Prop :=
  match c with Create _ _ _ _ xp0 => 0 <= xp0 | Delete _ => True end.

(** [a] is at least as new as [b]: the [datetime] strings compare as
    [sort_values] compares them. *)
Definition newer_or_equal (a b : Note) : Prop :=
  String.leb (datetime b) (datetime a) = true.

(** A row whose missing title, text and tags are the empty string. *)
Definition normalized (r : Note) : Note :=
  mkNote (id r) (datetime r)
    (Some (default EmptyString (title r))) (Some (default EmptyString (text r)))
    (Some (default EmptyString (tags r))) (xp r).

(** The row that the [i]-th create of a run from the initial store
    appends. *)
Definition created (i : Z) (now : Timestamp.t) (title text tags : string)
    (xp0 : Z) : Note :=
  mkNote i (Timestamp.isoformat now) (Some title) (Some text) (Some tags)
    (Some xp0).

(** ** The response parsers *)

(** No whitespace at either end. *)
Definition trimmed (s : string) : Prop :=
  (forall c r, s = String c r -> isspace c = false)
  /\ (forall r c, s = (r ++ String c EmptyString)%string -> isspace c = false).

(** [c] is made of a question line and of an answer line that follows it
    with no question line in between; [text_of] reads the text of a
    line. *)
Definition paired (is_q is_a : string -> bool)
    (text_of : string -> option string) (lines : list string) (c : card)
  : Prop :=
  exists l1 lq l2 la l3,
    lines = (l1 ++ lq :: l2 ++ la :: l3)%list
    /\ is_q lq = true /\ text_of lq = Some (question c)
    /\ Forall (fun l => is_q l = false) l2
    /\ is_a la = true /\ text_of la = Some (answer c).

(** The lines of the flashcard format: [Q: ...] and [A: ...]. *)
Definition fc_q (line : string) : bool := startswith "Q:" (strip line).

Definition fc_a (line : string) : bool := startswith "A:" (strip line).

(** The text of a flashcard line follows its two-character mark. *)
Definition fc_text (line : string) : option string :=
  Some (strip (drop 2 (strip line))).

(** The lines of the quiz format: [Qn: ...] and [An: ...]. *)
Definition qz_q (line : string) : bool :=
  startswith "Q" (strip line) && contains ":" (strip line).

Definition qz_a (line : string) : bool :=
  startswith "A" (strip line) && contains ":" (strip line).

(** The text of a quiz line follows its first colon. *)
Definition qz_text (line : string) : option string :=
  after_colon (strip line).

(** The number of lines that [p] accepts. *)
Definition count (p : string -> bool) (lines : list string) : nat :=
  length (List.filter p lines).

(** A question line that waits for its answer. *)
Definition pending (is_q : string -> bool) (text_of : string -> option string)
    (lines : list string) (q : string) (tail : list string) : Prop :=
  exists l1 lq,
    lines = (l1 ++ lq :: tail)%list
    /\ is_q lq = true /\ text_of lq = Some q
    /\ Forall (fun l => is_q l = false) tail.

(** What the flashcard loop keeps true of the lines read and of its
    state. *)
Definition fc_inv (lines : list string) (st : option string * list card)
  : Prop :=
  (forall c, In c (snd st) ->
     paired fc_q fc_a fc_text lines c
     /\ trimmed (question c) /\ trimmed (answer c)
     /\ question c <> EmptyString)
  /\ (forall q, fst st = Some q ->
        exists tail, pending fc_q fc_text lines q tail)
  /\ (length (snd st) + match fst st with Some _ => 1 | None => 0 end
      <= count fc_q lines)%nat
  /\ (length (snd st) <= count fc_a lines)%nat.

(** A card of the quiz: paired lines, trimmed and non-empty texts. *)
Definition complete (lines : list string) (c : card) : Prop :=
  paired qz_q qz_a qz_text lines c
  /\ trimmed (question c) /\ trimmed (answer c)
  /\ question c <> EmptyString /\ answer c <> EmptyString.

(** What the quiz loop keeps true: the pending answer, if any, comes
    from an answer line in the tail of the pending question. *)
Definition qz_inv (lines : list string) (st : quiz_state) : Prop :=
  (forall c, In c (questions st) -> complete lines c)
  /\ (forall q, current_question st = Some q ->
        trimmed q
        /\ exists tail,
             pending qz_q qz_text lines q tail
             /\ forall a, current_answer st = Some a ->
                  trimmed a
                  /\ exists t1 la t2,
                       tail = (t1 ++ la :: t2)%list
                       /\ qz_a la = true /\ qz_text la = Some a)
  /\ (length (questions st)
       + match current_question st with Some _ => 1 | None => 0 end
      <= count qz_q lines)%nat
  /\ (length (questions st)
       + match current_answer st with Some _ => 1 | None => 0 end
      <= count qz_a lines)%nat.

(** ** Sample data *)

Definition morning : Timestamp.t := Timestamp.mk 2024 1 15 9 30 0 0.
Definition noon : Timestamp.t := Timestamp.mk 2024 1 15 12 0 0 250000.
Definition evening : Timestamp.t := Timestamp.mk 2024 1 15 20 45 10 0.

(** A store of two notes, the first with no text. *)
Definition two_notes : Files :=
  mkFiles
    (Some [mkNote 1 "2024-01-15T09:30:00" (Some "intro") None (Some "a,b")
             (Some 5);
           mkNote 5 "2024-01-15T12:00:00.250000" (Some "plan") (Some "body")
             None (Some 7)])
    (Some (mkStats (Some 12) (Some 2) (Some ["first_note"]))).





Definition one_job : gmap string Reminders.Job :=
  {[ "1705312800.0" := Reminders.mkJob 1705312800 "ping" ]}.

(** Two full cards and a question with no answer. *)
Definition sample_response : string :=
  "Q1: one" ++ String LF ("A1:  uno  " ++ String LF
  ("Q2: two" ++ String LF ("Q3: three" ++ String LF "A3: tres"))).

End Spec.

(** * Vocabulary of the further properties *)

Module Ops.
Import Py Storage Spec.

(** ** Tables that are read as they were written

    [pd.read_csv] gives a column the type of its cells: integers for the
    [id] and [xp] columns within 64 bits, strings for a column with a cell
    that is no number, no truth value and no missing value.  The
    properties are stated on tables where that is so. *)

(** The range of a column of integers. *)
Definition int64 (z : Z) : bool := (- 2 ^ 63 <=? z) && (z <? 2 ^ 63).

(** The characters that a field keeps through the file: the printable
    ones, TAB and LF. *)
Definition clean_char (c : ascii) : bool :=
  let n := N_of_ascii c in
  ((32 <=? n) && (n <=? 126) || (n =? 9) || (n =? 10))%N.

(** A letter that no numeral holds: any but the [e] of an exponent. *)
Definition word_letter (c : ascii) : bool :=
  (QuizGen.is_upper c || QuizGen.is_lower c)
  && negb (Ascii.eqb c "e") && negb (Ascii.eqb c "E").

Fixpoint any_char (p : ascii -> bool) (s : string) : bool :=
  match s with
  | String c s' => p c || any_char p s'
  | EmptyString => false
  end.

(** The words with a letter that pandas reads as a missing value, an
    infinity or a truth value, in lower case. *)
Definition RESERVED : list string :=
  ["#n/a"; "#n/a n/a"; "#na"; "-1.#ind"; "-1.#qnan"; "-nan"; "1.#ind";
   "1.#qnan"; "<na>"; "n/a"; "na"; "null"; "nan"; "none"; "nat";
   "inf"; "+inf"; "-inf"; "infinity"; "+infinity"; "-infinity";
   "true"; "false"].

(** A string that is read back from the file as the string it is, and
    that makes its column a column of strings. *)
Definition plain (s : string) : bool :=
  all_chars clean_char s && any_char word_letter s
  && negb (QuizGen.mem (QuizGen.lower (strip s)) RESERVED).

Definition plain_cell (c : cell) : bool :=
  match c with Some s => plain s | None => true end.

(** The [datetime] of a row reads as an ISO-8601 timestamp. *)
Definition iso (s : string) : bool :=
  match Timestamp.parse_iso8601 s with Some _ => true | None => false end.

Definition legible_row (r : Note) : bool :=
  int64 (id r) && iso (datetime r)
  && plain_cell (title r) && plain_cell (text r) && plain_cell (tags r)
  && match xp r with Some x => int64 x | None => false end.

(** A table whose rows are read as they were written. *)
Definition legible (df : list Note) : Prop := forallb legible_row df = true.

(** The [title], [text] and [tags] columns hold strings. *)
Definition texted (df : list Note) : Prop :=
  holds_str title df = true /\ holds_str text df = true
  /\ holds_str tags df = true.

(** The ids of the table are within 64 bits and leave room for [n] more
    below [2^63]; so does the first id, 1, of an empty table. *)
Definition id_room (n : nat) (df : list Note) : Prop :=
  (Z.of_nat n <? 2 ^ 63)
  && forallb (fun r => (- 2 ^ 63 <=? id r) && (id r + Z.of_nat n <? 2 ^ 63)) df
  = true.

(** The cell that holds [s] after the file is read: a NaN for the empty
    string. *)
Definition written (s : string) : cell := if truthy s then Some s else None.

(** A string that the callers can write: a plain one, or the empty
    string. *)
Definition plain_or_blank (s : string) : bool := plain s || negb (truthy s).

(** What a caller hands to [save_note] and reads back as it is: a clock
    at a calendar time, a plain title and text, plain or empty tags and an
    [xp] within 64 bits. *)
Definition savable (now : Timestamp.t) (title text tags : string) (xp : Z)
  : Prop :=
  Timestamp.valid now /\ plain title = true /\ plain text = true
  /\ plain_or_blank tags = true /\ int64 xp = true.

(** The row that [save_note] writes under the id [nid], as it is read
    back. *)
Definition saved_row (nid : Z) (now : Timestamp.t) (title text tags : string)
    (xp : Z) : Note :=
  mkNote nid (Timestamp.isoformat now) (Some title) (Some text)
    (written tags) (Some xp).


(** ** Runs with deletes *)






(** One row per id. *)
Definition unique_ids (fs : Files) : Prop := List.NoDup (map id (rows fs)).

(** A row as the save paths of the application write it: a title and a
    text that are not empty, and an [xp] from 5 to 55. *)
Definition well_formed (r : Note) : Prop :=
  exists t x q,
    title r = Some t /\ t <> EmptyString
    /\ text r = Some x /\ x <> EmptyString
    /\ xp r = Some q /\ 5 <= q <= 55.

Definition healthy (fs : Files) : Prop :=
  in_sync fs /\ Forall well_formed (rows fs).

(** The row [r] after [update_note] has edited it, as it is read back. *)
Definition edited_row (now : Timestamp.t) (title text tags : string)
    (r : Note) : Note :=
  mkNote (id r) (Timestamp.isoformat now) (Some title) (Some text)
    (written tags) (xp r).

(** The store is in good order, is read as it was written and has room
    for [k] more ids. *)
Definition steady (k : nat) (fs : Files) : Prop :=
  healthy fs /\ legible (rows fs) /\ id_room k (rows fs).

(** What the user does to the store: a save or an autosave, with the
    editor as it is then, or the confirmed delete of a note. *)
Inductive event : Type :=
| Manual (ed : App.editor) (now : Timestamp.t)
| Autosave (ed : App.editor) (now : Timestamp.t)
| Erase (nid : Z).

Definition react (e : event) (fs : Files) : Files :=
  match e with
  | Manual ed now => snd (App.save_note ed now fs)
  | Autosave ed now => snd (App.save_note_silent ed now fs)
  | Erase nid => snd (delete_note (PyInt nid) fs)
  end.

Definition react_all (es : list event) (fs : Files) : Files :=
  fold_left (fun fs e => react e fs) es fs.

(** The notes that [auto_title] lists. *)
Definition listed (fs : Files) : list Note :=
  head 9999 (sort_values_desc (map normalized (rows fs))).

(** The title under which a save files the note: the stripped title of
    the editor, or the generated one when that is empty; [None] when the
    generation raises. *)
Definition filed_title (ed : App.editor) (fs : Files) : option string :=
  if truthy (strip (App.entry_title ed)) then Some (strip (App.entry_title ed))
  else App.next_title (listed fs).

(** The row of the store that the editor shows after a save. *)
Definition shown (ed : App.editor) (title text tags : string) (fs : Files)
  : Prop :=
  exists cid r,
    App.current_note_id ed = Some cid
    /\ In r (rows fs) /\ id r = cid
    /\ Storage.title r = Some title
    /\ Storage.text r = Some text
    /\ Storage.tags r = written tags.

(** The fields of the editor, stripped, are plain or empty. *)
Definition tidy (ed : App.editor) : Prop :=
  plain_or_blank (strip (App.entry_title ed)) = true
  /\ plain_or_blank (strip (App.txt_content ed)) = true
  /\ plain_or_blank (strip (App.entry_tags ed)) = true.

(** The note that the editor holds can be updated: when its id is in the
    table, the [tags] column holds a string. *)
Definition updatable (ed : App.editor) (df : list Note) : Prop :=
  forall cid,
    App.current_note_id ed = Some cid -> isin cid df = true ->
    holds_str tags df = true.

(** An event at a calendar time with a tidy editor. *)
Definition tidy_event (e : event) : Prop :=
  match e with
  | Manual ed now => Timestamp.valid now /\ tidy ed
  | Autosave ed now => Timestamp.valid now /\ tidy ed
  | Erase _ => True
  end.

(** Every title of the table has fewer than [MAX_STR_DIGITS] characters,
    so that [int] reads the number of each. *)
Definition short_titles (df : list Note) : Prop :=
  Forall (fun r => len (default EmptyString (title r)) < MAX_STR_DIGITS) df.

(** [m] is the number of the note [r]: its title starts with
    [Untitled note #] and what follows its last [#] are digits that read
    as [m]. *)
Definition numbered (r : Note) (m : Z) : Prop :=
  exists pre d,
    default EmptyString (title r) = (pre ++ String App.HASH d)%string
    /\ startswith "Untitled note #" (default EmptyString (title r)) = true
    /\ isdigit d = true
    /\ int (PyStr d) = Some m.

(** [m] is a number in use in the table. *)
Definition in_use (df : list Note) (m : Z) : Prop :=
  exists r, In r df /\ numbered r m.

(** The store after the autosave has run at each of the clock values,
    with the editor [ed] at every run. *)
Definition ticks (ed : App.editor) (nows : list Timestamp.t) (fs : Files)
  : Files :=
  fold_left (fun fs now => snd (App.save_note_silent ed now fs)) nows fs.

(** The number of occurrences of [c] in [s]. *)
Fixpoint occurrences (c : ascii) (s : string) : nat :=
  match s with
  | String d s' => (if Ascii.eqb d c then 1 else 0) + occurrences c s'
  | EmptyString => 0
  end.

(** [sep.join(v)] *)
Fixpoint join (sep : string) (v : list string) : string :=
  match v with
  | [] => EmptyString
  | [x] => x
  | x :: v' => (x ++ sep ++ join sep v')%string
  end.

(** What the loop of [_chunk_text] keeps true, with [ps] the paragraphs
    of the text and [read] the ones the loop has taken: a closed chunk is
    not empty, and is one of the paragraphs or shorter than [max_chars];
    so is the open chunk once a paragraph is taken, and the chunks joined
    by blank lines are then the paragraphs taken. *)
Definition chunk_ok (max_chars : Z) (ps : list string) (c : string) : Prop :=
  truthy c = true /\ (In c ps \/ len c < max_chars).

Definition chunk_inv (max_chars : Z) (ps read : list string)
    (st : list string * string) : Prop :=
  Forall (chunk_ok max_chars ps) (fst st)
  /\ ((read = [] /\ fst st = [] /\ snd st = EmptyString)
      \/ (read <> [] /\ chunk_ok max_chars ps (snd st)
          /\ join App.BLANK (fst st ++ [snd st]) = join App.BLANK read)).

(** The number of times that [w] is in [words]. *)
Definition times (w : string) (words : list string) : Z :=
  Z.of_nat (count_occ string_dec words w).

(** The words that the count of [extract_keywords] does not skip. *)
Definition kept (stop words : list string) : list string :=
  List.filter (fun w => negb (QuizGen.mem w stop)) words.

(** What the counting loop keeps true, with [read] the words taken: one
    entry per word, and the entry of a word is the number of times it was
    taken, the stop words apart. *)
Definition counted (stop read : list string) (freq : QuizGen.dict) : Prop :=
  List.NoDup (map fst freq)
  /\ forall k,
      QuizGen.dict_get k freq
      = if 0 <? times k (kept stop read)
        then Some (times k (kept stop read)) else None.

(** ** Sample data *)


(** The store after a first note without tags. *)
Definition first_note : Files :=
  snd (save_note morning "a" "x" EmptyString 5 initial).

(** A response whose answer line is empty. *)
Definition empty_answer : string := "Q: x" ++ String AiUtils.LF "A:".

(** An editor with a text and no title, which has saved nothing yet. *)
Definition draft : App.editor :=
  App.mkEditor EmptyString " some text " "tag" None true.

(** The draft under a title. *)
Definition named_draft : App.editor :=
  App.mkEditor " My note " " some text " EmptyString None true.

(** A save of the draft, an autosave of the named draft, the delete of
    the first note and one more save. *)
Definition session : list event :=
  [Manual draft morning; Autosave named_draft noon; Erase 1;
   Manual draft evening].

(** A store with a note that a save has numbered. *)
Definition untitled_store : Files :=
  mkFiles
    (Some [mkNote 1 "2024-01-15T09:30:00" (Some "Untitled note #3")
             (Some "first body") None (Some 5);
           mkNote 2 "2024-01-15T12:00:00.250000" (Some "plan") (Some "body")
             None (Some 5)])
    (Some (mkStats (Some 10) (Some 2) None)).

(** A directory whose [stats.json] lacks [total_xp]. *)
Definition no_total_xp : Files :=
  mkFiles (Some []) (Some (mkStats None (Some 0) None)).

Definition quiz_store : Files :=
  mkFiles
    (Some [mkNote 1 "2024-01-15T09:30:00" (Some "cats")
             (Some "The cat sat; a Cat is a cat") (Some "pets") (Some 6);
           mkNote 2 "2024-01-15T12:00:00.250000" (Some "short") (Some "tiny")
             None (Some 5)])
    (Some (mkStats (Some 11) (Some 2) None)).

Definition two_paragraphs : string :=
  ("first part" ++ App.BLANK ++ "   " ++ App.BLANK ++ "second part")%string.

Definition sample_assessment : string :=
  ("Level: Hard" ++ String AiUtils.LF "Level: Easy"
   ++ String AiUtils.LF "Explanation: short words")%string.

End Ops.

(** * Properties of the note store *)

Section NoteStore.
Import Py Storage Spec Ops.

(** ** The store after [ensure_files] *)

(** [ensure_files] materialises what a reader sees. *)
Lemma ensure_files_eq (fs : Files) :
  ensure_files fs = (Returns tt, mkFiles (Some (rows fs)) (Some (stats fs))).
Proof.
  unfold ensure_files, rows, stats.
  destruct fs as [[df|] [obj|]]; reflexivity.
Qed.

Lemma rows_ensure_files (fs : Files) : rows (snd (ensure_files fs)) = rows fs.
Proof. rewrite ensure_files_eq. reflexivity. Qed.

Lemma stats_ensure_files (fs : Files) : stats (snd (ensure_files fs)) = stats fs.
Proof. rewrite ensure_files_eq. reflexivity. Qed.

Lemma ensure_files_present (fs : Files) df obj :
  notes_csv fs = Some df -> stats_json fs = Some obj ->
  snd (ensure_files fs) = fs.
Proof.
  destruct fs as [n s]; simpl; intros -> ->. reflexivity.
Qed.

(** Every operation opens with [ensure_files] and [pd.read_csv]. *)
Lemma open_store {A} (k : list Note -> M A) (fs : Files) :
  bind ensure_files (fun _ => bind read_csv k) fs
  = k (rows fs) (mkFiles (Some (rows fs)) (Some (stats fs))).
Proof.
  unfold bind at 1. rewrite ensure_files_eq.
  unfold bind, read_csv. simpl. destruct (k (rows fs) _) as [[a|e] fs']; reflexivity.
Qed.

(** [isin] against membership of the id column. *)
Lemma isin_In (n : Z) (df : list Note) :
  isin n df = true <-> In n (map id df).
Proof.
  unfold isin. rewrite existsb_exists, in_map_iff.
  split; intros (r & H1 & H2).
  - exists r. split; [lia | assumption].
  - exists r. split; [assumption | lia].
Qed.

Lemma isin_nil_false (n : Z) (df : list Note) :
  empty df = true -> isin n df = false.
Proof. destruct df; [reflexivity | discriminate]. Qed.

(** ** What the file gives back *)

Lemma id_reread (r : Note) : id (reread r) = id r.
Proof. reflexivity. Qed.

Lemma map_id_reread (df : list Note) : map id (map reread df) = map id df.
Proof. rewrite map_map. apply map_ext. intros r. reflexivity. Qed.

Lemma empty_map {A} (f : A -> Note) (l : list A) :
  empty (map f l) = match l with [] => true | _ => false end.
Proof. destruct l; reflexivity. Qed.


Lemma isin_reread (n : Z) (df : list Note) :
  isin n (map reread df) = isin n df.
Proof.
  unfold isin. induction df as [|r df IH]; [reflexivity|].
  cbn [map existsb]. rewrite IH. reflexivity.
Qed.


Lemma sum_xp_reread (df : list Note) : sum_xp (map reread df) = sum_xp df.
Proof.
  induction df as [|r df IH]; [reflexivity|]. cbn [map sum_xp fold_right].
  fold (sum_xp (map reread df)). fold (sum_xp df). rewrite IH. reflexivity.
Qed.

Lemma plain_not_na (s : string) : plain s = true -> is_na s = false.
Proof.
  intros H. destruct (is_na s) eqn:E; [|reflexivity]. exfalso.
  unfold is_na, NA_VALUES in E. cbn [existsb] in E.
  repeat (apply orb_prop in E; destruct E as [E|E]);
    try discriminate E;
    apply String.eqb_eq in E; subst s; vm_compute in H; discriminate H.
Qed.

Lemma plain_truthy (s : string) : plain s = true -> truthy s = true.
Proof. destruct s; [vm_compute; discriminate|reflexivity]. Qed.

Lemma reread_plain_cell (c : cell) : plain_cell c = true -> reread_cell c = c.
Proof.
  destruct c as [s|]; [|reflexivity]. cbn [plain_cell reread_cell].
  intros H. rewrite (plain_not_na _ H). reflexivity.
Qed.

Lemma legible_row_cells (r : Note) :
  legible_row r = true ->
  plain_cell (title r) = true /\ plain_cell (text r) = true
  /\ plain_cell (tags r) = true.
Proof.
  unfold legible_row. rewrite !andb_true_iff. tauto.
Qed.

Lemma reread_legible_row (r : Note) : legible_row r = true -> reread r = r.
Proof.
  intros H. destruct (legible_row_cells r H) as (Ht & Hx & Hg).
  destruct r as [i d t x g p]. unfold reread. cbn in *.
  rewrite (reread_plain_cell _ Ht), (reread_plain_cell _ Hx),
    (reread_plain_cell _ Hg). reflexivity.
Qed.

Lemma legible_In (df : list Note) (r : Note) :
  legible df -> In r df -> legible_row r = true.
Proof.
  unfold legible. rewrite forallb_forall. auto.
Qed.

Lemma reread_legible (df : list Note) : legible df -> map reread df = df.
Proof.
  intros H. rewrite <- (map_id df) at 2. apply map_ext_in.
  intros r Hr. apply reread_legible_row. exact (legible_In _ _ H Hr).
Qed.

Lemma legible_filter (p : Note -> bool) (df : list Note) :
  legible df -> legible (List.filter p df).
Proof.
  unfold legible. rewrite !forallb_forall. intros H r Hr.
  apply List.filter_In in Hr. apply H, Hr.
Qed.

Lemma reread_written (s : string) :
  plain_or_blank s = true -> reread_cell (Some s) = written s.
Proof.
  unfold plain_or_blank, written. cbn [reread_cell]. intros H.
  apply orb_true_iff in H. destruct H as [H|H].
  - rewrite (plain_not_na _ H), (plain_truthy _ H). reflexivity.
  - destruct s; [reflexivity|discriminate H].
Qed.

(** ** [update_note] *)

Lemma loc_set_four now n title text tags df :
  loc_set n (set_datetime (Timestamp.isoformat now))
    (loc_set n (set_tags tags)
       (loc_set n (set_text text) (loc_set n (set_title title) df)))
  = map (fun r => if id r =? n then edited now title text tags r else r) df.
Proof.
  unfold loc_set. rewrite !map_map. apply map_ext. intros r.
  unfold set_datetime, set_tags, set_text, set_title, edited.
  destruct (id r =? n) eqn:E; cbn; rewrite ?E; cbn; rewrite ?E; cbn;
    rewrite ?E; reflexivity.
Qed.

(** A write of one column leaves the type of the others. *)
Lemma holds_str_loc_set (col : Note -> cell) (n : Z) (write : Note -> Note)
    (df : list Note) :
  (forall r, col (write r) = col r) ->
  holds_str col (loc_set n write df) = holds_str col df.
Proof.
  intros H. unfold holds_str, loc_set.
  induction df as [|r df IH]; [reflexivity|]. cbn [map existsb].
  rewrite IH. destruct (id r =? n); [rewrite H|]; reflexivity.
Qed.

Lemma update_note_eq now n title text tags xp0 fs :
  update_note now n title text tags xp0 fs =
  if isin n (rows fs)
  then
    if holds_str Storage.title (rows fs) && holds_str Storage.text (rows fs)
       && holds_str Storage.tags (rows fs)
    then (Returns true,
          mkFiles
            (Some (map reread
                     (map (fun r => if id r =? n
                                    then edited now title text tags r else r)
                        (rows fs))))
            (Some (stats fs)))
    else (Raises TypeError, mkFiles (Some (rows fs)) (Some (stats fs)))
  else (Returns false, mkFiles (Some (rows fs)) (Some (stats fs))).
Proof.
  unfold update_note. rewrite open_store.
  destruct (empty (rows fs)) eqn:Ee.
  - rewrite (isin_nil_false _ _ Ee). reflexivity.
  - cbn [orb]. destruct (isin n (rows fs)); cbn [negb]; [|reflexivity].
    unfold bind at 1. unfold loc_set_str at 1.
    destruct (holds_str Storage.title (rows fs)); cbn [andb];
      [|reflexivity].
    cbn [ret]. unfold bind at 1. unfold loc_set_str at 1.
    rewrite holds_str_loc_set by reflexivity.
    destruct (holds_str Storage.text (rows fs)); cbn [andb]; [|reflexivity].
    cbn [ret]. unfold bind at 1. unfold loc_set_str at 1.
    rewrite !holds_str_loc_set by reflexivity.
    destruct (holds_str Storage.tags (rows fs)); [|reflexivity].
    cbn [ret]. rewrite loc_set_four. reflexivity.
Qed.

(** C3 (as amended): on a table that is read as it was written and whose
    title, text and tags columns hold strings, [update_note] on an id of
    the table, with a plain title and text and with plain or empty tags,
    returns [True]; the rows with that id get the new title, text, tags
    (a NaN for the empty string) and timestamp and keep their [xp]; the
    other rows, the number of rows and the statistics are as before. *)
Theorem update_note_existing :
  forall (fs : Files) (now : Timestamp.t) (note_id : Z)
         (title text tags : string) (xp0 : Z),
    In note_id (map id (rows fs)) ->
    legible (rows fs) ->
    texted (rows fs) ->
    plain title = true -> plain text = true -> plain_or_blank tags = true ->
    exists fs',
      update_note now note_id title text tags xp0 fs = (Returns true, fs')
      /\ length (rows fs') = length (rows fs)
      /\ (forall (i : nat) (r : Note),
             rows fs !! i = Some r ->
             exists r',
               rows fs' !! i = Some r'
               /\ id r' = id r
               /\ xp r' = xp r
               /\ (id r = note_id ->
                   Storage.title r' = Some title
                   /\ Storage.text r' = Some text
                   /\ Storage.tags r' = written tags
                   /\ datetime r' = Timestamp.isoformat now)
               /\ (id r <> note_id -> r' = r))
      /\ stats fs' = stats fs.
Proof.
  intros fs now n title text tags xp0 Hin Hleg (Ht & Hx & Hg) Hpt Hpx Hpg.
  apply isin_In in Hin.
  rewrite update_note_eq, Hin, Ht, Hx, Hg. cbn [andb].
  eexists. split; [reflexivity|].
  split; [unfold rows at 1; cbn [notes_csv]; rewrite !length_map; reflexivity|].
  split; [|reflexivity].
  intros i r Hi.
  unfold rows at 1; cbn [notes_csv]. rewrite map_map.
  change (map ?f ?l) with (f <$> l). rewrite list_lookup_fmap, Hi. simpl.
  eexists. split; [reflexivity|].
  destruct (Z.eqb_spec (id r) n) as [E|E].
  - unfold reread, edited. cbn [id xp Storage.title Storage.text Storage.tags
                                 datetime reread_cell].
    rewrite (plain_not_na _ Hpt), (plain_not_na _ Hpx).
    split; [reflexivity|]. split; [reflexivity|].
    split; [|intros; contradiction].
    intros _. split; [reflexivity|]. split; [reflexivity|].
    split; [|reflexivity]. exact (reread_written _ Hpg).
  - split; [reflexivity|]. split; [reflexivity|].
    split; [intros; contradiction|]. intros _.
    apply reread_legible_row.
    apply (legible_In _ _ Hleg). apply list_elem_of_In.
    exact (list_elem_of_lookup_2 _ _ _ Hi).
Qed.

(** C4: on an id that is not in the table, [update_note] returns [False];
    the rows and the statistics are as before, and a data directory that
    holds both files is left as it was. *)
Theorem update_note_absent :
  forall (fs : Files) (now : Timestamp.t) (note_id : Z)
         (title text tags : string) (xp0 : Z),
    ~ In note_id (map id (rows fs)) ->
    update_note now note_id title text tags xp0 fs
      = (Returns false, snd (ensure_files fs))
    /\ rows (snd (ensure_files fs)) = rows fs
    /\ stats (snd (ensure_files fs)) = stats fs
    /\ (notes_csv fs <> None -> stats_json fs <> None ->
        snd (ensure_files fs) = fs).
Proof.
  intros fs now n title text tags xp0 Hin.
  rewrite update_note_eq.
  destruct (isin n (rows fs)) eqn:E.
  - apply isin_In in E. contradiction.
  - rewrite ensure_files_eq. simpl. repeat split.
    destruct fs as [[df|] [obj|]]; unfold rows, stats; simpl; intros;
      congruence.
Qed.

(** ** [delete_note] *)

Lemma delete_note_eq (v : pyval) (fs : Files) :
  delete_note v fs =
  match int v with
  | Some nid =>
      if isin nid (rows fs)
      then (Returns true,
            mkFiles
              (Some (map reread
                       (List.filter (fun r => negb (id r =? nid)) (rows fs))))
              (Some (decremented (row_xp nid (rows fs)) (stats fs))))
      else (Returns false, mkFiles (Some (rows fs)) (Some (stats fs)))
  | None => (Returns false, mkFiles (Some (rows fs)) (Some (stats fs)))
  end.
Proof.
  unfold delete_note. rewrite open_store.
  destruct (empty (rows fs)) eqn:Ee.
  - destruct (int v) as [nid|]; [|reflexivity].
    rewrite (isin_nil_false _ _ Ee). reflexivity.
  - destruct (int v) as [nid|]; [|reflexivity].
    destruct (isin nid (rows fs)); reflexivity.
Qed.




(** [int] on a string skips the C whitespace only, and refuses a literal
    of more than [MAX_STR_DIGITS] digits. *)
Lemma int_rejects_separators :
  int (PyStr (String (ascii_of_N 28) "5")) = None
  /\ int (PyStr (String (ascii_of_N 31) "5")) = None
  /\ int (PyStr (String (ascii_of_N 12) "5 ")) = Some 5
  /\ (forall d : string, MAX_STR_DIGITS < digit_count d -> int (PyStr d) = None).
Proof.
  split; [reflexivity|]. split; [reflexivity|]. split; [reflexivity|].
  intros d Hd. cbn [int]. unfold int_of_str.
  assert (Hc : forall s, MAX_STR_DIGITS < digit_count s ->
                         digits_checked s = None).
  { intros s Hs. unfold digits_checked. apply Z.ltb_lt in Hs. rewrite Hs.
    reflexivity. }
  assert (Hl : forall s, digit_count (int_lstrip s) = digit_count s).
  { induction s as [|c s IH]; [reflexivity|]. cbn [int_lstrip].
    destruct (is_c_space c) eqn:Ec; [|reflexivity].
    rewrite IH. cbn [digit_count].
    assert (Hnd : is_digit c = false).
    { unfold is_c_space, is_digit in *. cbv zeta in *.
      apply andb_false_iff.
      apply orb_true_iff in Ec. destruct Ec as [Ec|Ec].
      - apply andb_true_iff in Ec. destruct Ec as [_ Ec].
        apply N.leb_le in Ec. left. apply N.leb_gt. lia.
      - apply N.eqb_eq in Ec. left. apply N.leb_gt. lia. }
    rewrite Hnd. reflexivity. }
  assert (Hr : forall s, digit_count (int_rstrip s) = digit_count s).
  { induction s as [|c s IH]; [reflexivity|]. cbn [int_rstrip digit_count].
    rewrite <- IH. destruct (int_rstrip s) as [|c' r] eqn:E.
    - destruct (is_c_space c) eqn:Ec; [|reflexivity].
      assert (Hnd : is_digit c = false).
      { unfold is_c_space, is_digit in *. cbv zeta in *.
        apply andb_false_iff.
        apply orb_true_iff in Ec. destruct Ec as [Ec|Ec].
        - apply andb_true_iff in Ec. destruct Ec as [_ Ec].
          apply N.leb_le in Ec. left. apply N.leb_gt. lia.
        - apply N.eqb_eq in Ec. left. apply N.leb_gt. lia. }
      rewrite Hnd. reflexivity.
    - reflexivity. }
  rewrite <- Hl, <- Hr in Hd.
  destruct (int_rstrip (int_lstrip d)) as [|c r] eqn:E.
  - apply Hc. exact Hd.
  - assert (Hrest : MAX_STR_DIGITS < digit_count r
                    \/ is_digit c = true).
    { cbn [digit_count] in Hd. destruct (is_digit c); [right; reflexivity|].
      left. lia. }
    destruct Hrest as [Hrest|Hdig].
    + destruct c as [[] [] [] [] [] [] [] []];
        try (apply Hc; exact Hd);
        rewrite (Hc r Hrest); reflexivity.
    + destruct c as [[] [] [] [] [] [] [] []]; try discriminate Hdig;
        apply Hc; exact Hd.
Qed.


(** ** [save_note] *)

Lemma save_note_eq now title text tags xp0 fs :
  save_note now title text tags xp0 fs =
  let df :=
    map reread (rows fs ++ [new_note now title text tags xp0 (rows fs)]) in
  match total_xp (stats fs), notes_created (stats fs) with
  | Some a, Some b =>
      (Returns (next_id (rows fs)),
       mkFiles (Some df)
         (Some (mkStats (Some (a + xp0)) (Some (b + 1)) (badges (stats fs)))))
  | _, _ => (Raises KeyError, mkFiles (Some df) (Some (stats fs)))
  end.
Proof.
  unfold save_note. rewrite open_store.
  unfold bind, to_csv, load_stats, iadd, save_stats, ret, raise; cbn.
  destruct (total_xp (stats fs)) as [a|]; cbn; [|reflexivity].
  destruct (notes_created (stats fs)) as [b|]; cbn; reflexivity.
Qed.

Lemma max_id_upper (df : list Note) (r : Note) :
  In r df -> id r <= max_id df.
Proof.
  induction df as [|a df IH]; [contradiction|].
  intros [->|Hin].
  - destruct df; simpl; lia.
  - specialize (IH Hin). destruct df as [|b df]; [contradiction|].
    change (max_id (a :: b :: df)) with (Z.max (id a) (max_id (b :: df))).
    lia.
Qed.


(** The next id is above every id of the table. *)
Lemma next_id_above (df : list Note) (r : Note) :
  In r df -> id r < next_id df.
Proof.
  intros Hin. pose proof (max_id_upper _ _ Hin) as Hle.
  unfold next_id. destruct df as [|a df]; [contradiction|].
  change (empty (a :: df)) with false. cbv iota. lia.
Qed.





Lemma max_id_In (df : list Note) :
  df <> [] -> exists r, In r df /\ id r = max_id df.
Proof.
  induction df as [|a df IH]; [congruence|]. intros _.
  destruct df as [|b df]; [exists a; split; [left|]; reflexivity|].
  change (max_id (a :: b :: df)) with (Z.max (id a) (max_id (b :: df))).
  destruct (IH ltac:(discriminate)) as (r' & Hr' & E).
  destruct (Z.max_spec (id a) (max_id (b :: df))) as [[_ ->]|[_ ->]].
  - exists r'. split; [right; exact Hr'|exact E].
  - exists a. split; [left|]; reflexivity.
Qed.







(** ** The aggregates *)

Lemma sum_xp_app (l1 l2 : list Note) :
  sum_xp (l1 ++ l2) = sum_xp l1 + sum_xp l2.
Proof. induction l1 as [|r l1 IH]; simpl; [reflexivity|]. rewrite IH. lia. Qed.

Lemma sum_xp_nonneg (df : list Note) :
  Forall (fun r => exists x, xp r = Some x /\ 0 <= x) df -> 0 <= sum_xp df.
Proof.
  induction 1 as [|r df (x & Hx & H0) _ IH]; simpl; [lia|].
  rewrite Hx. simpl. lia.
Qed.

Lemma filter_absent (n : Z) (df : list Note) :
  ~ In n (map id df) ->
  List.filter (fun r => negb (id r =? n)) df = df.
Proof.
  induction df as [|r df IH]; simpl; [reflexivity|]. intros Hn.
  destruct (Z.eqb_spec (id r) n) as [E|E]; simpl.
  - exfalso. auto.
  - rewrite IH; auto.
Qed.

(** On a table of unique ids the delete removes one row, the one whose
    [xp] it takes off. *)
Lemma filter_unique (n : Z) (df : list Note) :
  List.NoDup (map id df) -> In n (map id df) ->
  sum_xp (List.filter (fun r => negb (id r =? n)) df)
    = sum_xp df - row_xp n df
  /\ S (length (List.filter (fun r => negb (id r =? n)) df)) = length df.
Proof.
  induction df as [|r df IH]; simpl; [contradiction|].
  intros Hnd Hin. inversion Hnd as [|? ? Hnotin Hnd']; subst.
  unfold row_xp. simpl.
  destruct (Z.eqb_spec (id r) n) as [E|E]; simpl.
  - subst n. rewrite filter_absent by assumption. split; [lia|reflexivity].
  - destruct Hin as [Hin|Hin]; [contradiction|].
    destruct (IH Hnd' Hin) as [IH1 IH2].
    unfold row_xp in IH1. rewrite IH1, IH2. split; [lia|reflexivity].
Qed.

Lemma in_sync_initial : in_sync initial.
Proof. repeat split; simpl; constructor. Qed.

Lemma in_sync_step (c : call) (fs : Files) :
  in_sync fs -> nonneg_xp c ->
  in_sync (snd (step c fs)) /\ (forall e, fst (step c fs) <> Failed e).
Proof.
  intros (Hnd & Hxp & Ht & Hn) Hc.
  destruct c as [now title text tags xp0|v]; cbn [step].
  - rewrite save_note_eq, Ht, Hn. cbn [fst snd]. split; [|discriminate].
    unfold in_sync, rows, stats; cbn [notes_csv stats_json total_xp notes_created].
    fold (rows fs). split; [|split; [|split]].
    + rewrite map_id_reread, map_app. cbn [map new_note id].
      apply List.NoDup_app; [assumption| |].
      * constructor; [intros []|constructor].
      * intros z Hz [<-|[]]. apply in_map_iff in Hz.
        destruct Hz as (r & Hr & Hz). apply next_id_above in Hz. lia.
    + apply Forall_map. apply List.Forall_app. split.
      * eapply List.Forall_impl; [|exact Hxp]. intros r Hr. exact Hr.
      * constructor; [|constructor]. exists xp0.
        split; [reflexivity|exact Hc].
    + rewrite sum_xp_reread, sum_xp_app. simpl. f_equal. lia.
    + rewrite length_map, length_app. simpl. f_equal. lia.
  - rewrite delete_note_eq.
    assert (Hsame : in_sync (mkFiles (Some (rows fs)) (Some (stats fs))))
      by (repeat split; assumption).
    destruct (int v) as [nid|]; [|split; [exact Hsame|discriminate]].
    destruct (isin nid (rows fs)) eqn:Ein;
      [|split; [exact Hsame|discriminate]].
    apply isin_In in Ein. cbn [fst snd]. split; [|discriminate].
    destruct (filter_unique _ _ Hnd Ein) as [Hsum Hlen].
    pose proof (sum_xp_nonneg _ Hxp) as Hpos.
    assert (Hxp' : Forall (fun r => exists x, xp r = Some x /\ 0 <= x)
                     (List.filter (fun r => negb (id r =? nid)) (rows fs))).
    { apply List.Forall_forall. intros r Hr. apply filter_In in Hr.
      rewrite List.Forall_forall in Hxp. apply Hxp, Hr. }
    pose proof (sum_xp_nonneg _ Hxp') as Hpos'.
    unfold in_sync, rows, stats, decremented, floor_sub;
      cbn [notes_csv stats_json total_xp notes_created get set].
    fold (rows fs). fold (stats fs). rewrite Ht, Hn. cbn [default].
    rewrite map_id_reread, sum_xp_reread, length_map.
    split; [|split; [|split]].
    + clear -Hnd. induction (rows fs) as [|r df IH]; simpl; [constructor|].
      inversion Hnd as [|? ? Hnotin Hnd']; subst.
      destruct (negb (id r =? nid)); simpl; auto.
      constructor; auto. intros Hin. apply Hnotin.
      apply in_map_iff in Hin. destruct Hin as (r' & Hr' & Hin).
      apply filter_In in Hin. apply in_map_iff. exists r'. tauto.
    + apply Forall_map. eapply List.Forall_impl; [|exact Hxp'].
      intros r Hr. exact Hr.
    + unfold Datatypes.id. f_equal. lia.
    + unfold Datatypes.id. f_equal. lia.
Qed.


(** ** [list_notes] *)

Lemma fillna_all (r : Note) :
  fillna_text (fillna_title (fillna_tags r)) = normalized r.
Proof.
  unfold fillna_text, fillna_title, fillna_tags, normalized, fillna.
  destruct r as [i d [t|] [x|] [g|] p]; reflexivity.
Qed.

Lemma leb_refl (a : string) : String.leb a a = true.
Proof. destruct (String.leb_total a a); assumption. Qed.

Lemma leb_trans (a b c : string) :
  String.leb a b = true -> String.leb b c = true -> String.leb a c = true.
Proof.
  unfold String.leb. intros Hab Hbc.
  destruct (String.compare a b) eqn:Eab; try discriminate.
  - apply String.compare_eq_iff in Eab. subst b. exact Hbc.
  - destruct (String.compare b c) eqn:Ebc; try discriminate.
    + apply String.compare_eq_iff in Ebc. subst c. rewrite Eab. reflexivity.
    + apply String_as_OT.cmp_lt in Eab, Ebc.
      pose proof (String_as_OT.lt_trans _ _ _ Eab Ebc) as Hac.
      apply String_as_OT.cmp_lt in Hac. unfold String_as_OT.cmp in Hac.
      rewrite Hac. reflexivity.
Qed.

Lemma ltb_leb_false (a b : string) :
  String.ltb a b = true -> String.leb b a = false.
Proof.
  unfold String.ltb, String.leb. rewrite (String.compare_antisym b a).
  destruct (String.compare a b); simpl; congruence.
Qed.

Lemma leb_false_leb (a b : string) :
  String.leb a b = false -> String.leb b a = true.
Proof.
  intros H. destruct (String.leb_total a b) as [H'|H']; congruence.
Qed.

Lemma insert_desc_perm (r : Note) (l : list Note) :
  Permutation (insert_desc r l) (r :: l).
Proof.
  induction l as [|y l IH]; simpl; [reflexivity|].
  destruct (String.leb (datetime y) (datetime r)); [reflexivity|].
  rewrite IH. apply perm_swap.
Qed.

Lemma sort_values_desc_perm (df : list Note) :
  Permutation (sort_values_desc df) df.
Proof.
  induction df as [|r df IH]; simpl; [reflexivity|].
  rewrite insert_desc_perm. constructor. exact IH.
Qed.

Lemma insert_desc_sorted (r : Note) (l : list Note) :
  StronglySorted newer_or_equal l ->
  StronglySorted newer_or_equal (insert_desc r l).
Proof.
  induction 1 as [|y l Hs IH Hall]; simpl.
  - repeat constructor.
  - destruct (String.leb (datetime y) (datetime r)) eqn:E.
    + constructor; [constructor; assumption|].
      constructor; [exact E|].
      eapply List.Forall_impl; [|exact Hall].
      intros b Hb. unfold newer_or_equal in *. eapply leb_trans; eassumption.
    + constructor; [exact IH|].
      apply List.Forall_forall. intros b Hb.
      apply (Permutation_in _ (insert_desc_perm r l)) in Hb.
      destruct Hb as [<-|Hb]; [apply leb_false_leb; exact E|].
      rewrite List.Forall_forall in Hall. apply Hall. exact Hb.
Qed.

Lemma sort_values_desc_sorted (df : list Note) :
  StronglySorted newer_or_equal (sort_values_desc df).
Proof.
  induction df as [|r df IH]; simpl; [constructor|].
  apply insert_desc_sorted. exact IH.
Qed.


Lemma list_notes_eq (limit : Z) (fs : Files) :
  list_notes limit fs =
  (Returns (head limit (sort_values_desc (map normalized (rows fs)))),
   mkFiles (Some (rows fs)) (Some (stats fs))).
Proof.
  unfold list_notes. rewrite open_store.
  destruct (rows fs) as [|r df] eqn:E.
  - simpl. unfold head. destruct (0 <=? limit); rewrite ?firstn_nil; reflexivity.
  - unfold empty. rewrite !map_map.
    rewrite (map_ext _ normalized) by (intros; apply fillna_all).
    reflexivity.
Qed.

End NoteStore.

(** * Timestamps *)

Section Timestamps.
Import Timestamp.
Local Open Scope N_scope.

Lemma digit_of_digit (d : N) : d < 10 -> digit_of (digit d) = Some d.
Proof.
  intros Hd. unfold digit_of, digit.
  rewrite N_ascii_embedding by lia.
  replace ((48 <=? 48 + d) && (48 + d <=? 57)) with true.
  - f_equal. lia.
  - symmetry. apply andb_true_iff. split; apply N.leb_le; lia.
Qed.

Lemma mod_pow10_succ (n : N) (w : nat) :
  n mod 10 ^ N.of_nat (S w)
  = (n / 10 ^ N.of_nat w) mod 10 * 10 ^ N.of_nat w + n mod 10 ^ N.of_nat w.
Proof.
  rewrite Nat2N.inj_succ, N.pow_succ_r by lia.
  rewrite (N.mul_comm 10), N.Div0.mod_mul_r. lia.
Qed.

Lemma append_cons (c : ascii) (s r : string) :
  (String c s ++ r = String c (s ++ r))%string.
Proof. reflexivity. Qed.

Lemma append_nil_l (r : string) : (EmptyString ++ r = r)%string.
Proof. reflexivity. Qed.

Lemma append_nil_r (s : string) : (s ++ EmptyString = s)%string.
Proof.
  induction s as [|c s IH]; [reflexivity|].
  rewrite append_cons, IH. reflexivity.
Qed.

(** Reading back [w] digits gives the number they print. *)
Lemma read_digits_zpad (w : nat) (n acc : N) (rest : string) :
  read_digits w acc (zpad w n ++ rest)
  = Some (acc * 10 ^ N.of_nat w + n mod 10 ^ N.of_nat w, rest).
Proof.
  revert acc. induction w as [|w IH]; intros acc.
  - simpl. rewrite N.mod_1_r. f_equal. f_equal. lia.
  - cbn [zpad]. rewrite append_cons. cbn [read_digits].
    rewrite digit_of_digit by (apply N.mod_lt; lia).
    rewrite IH, mod_pow10_succ.
    rewrite Nat2N.inj_succ, N.pow_succ_r by lia. f_equal. f_equal. lia.
Qed.

Lemma read_field (w : nat) (n : N) (rest : string) :
  n < 10 ^ N.of_nat w ->
  read_digits w 0 (zpad w n ++ rest) = Some (n, rest).
Proof.
  intros Hn. rewrite read_digits_zpad, N.mod_small by exact Hn. reflexivity.
Qed.


Local Arguments zpad : simpl never.
Local Arguments read_digits : simpl never.

(** [isoformat] prints what [parse_iso8601] reads back. *)
Lemma parse_isoformat (ts : t) :
  valid ts -> parse_iso8601 (isoformat ts) = Some ts.
Proof.
  destruct ts as [y mo d h mi se us].
  unfold valid, isoformat, parse_iso8601. cbn [year month day hour minute second microsecond].
  intros (Hy & Hmo & Hd & Hh & Hmi & Hse & Hus).
  do 6 (rewrite read_field by (simpl; lia);
        rewrite ?append_cons, ?append_nil_l; simpl).
  assert (Hr : in_range 1 9999 y && in_range 1 12 mo && in_range 1 31 d
               && in_range 0 23 h && in_range 0 59 mi && in_range 0 59 se
               = true).
  { unfold in_range. repeat (apply andb_true_iff; split); apply N.leb_le; lia. }
  destruct (N.eqb_spec us 0) as [->|Hne]; simpl.
  - rewrite Hr. reflexivity.
  - rewrite <- (append_nil_r (zpad 6 us)) at 1.
    rewrite read_field by (simpl; lia). simpl.
    rewrite Hr. reflexivity.
Qed.

(** *** The order of the rendered timestamps *)








End Timestamps.

(** * Listing the notes *)

Section Listing.
Import Py Storage Spec Ops.

Local Arguments Timestamp.isoformat : simpl never.

Lemma head_nonneg (limit : Z) (df : list Note) :
  0 <= limit -> head limit df = firstn (Z.to_nat limit) df.
Proof.
  intros H. unfold head. apply Z.leb_le in H. rewrite H. reflexivity.
Qed.





(** C7: from the initial store, a create of ("T", "X", "a,b", 7) returns
    id 1, and [list_notes(1)] then returns one note, with that title,
    text, tags and xp, whose [datetime] reads back as the timestamp of
    the create. *)
Theorem save_then_list :
  forall now : Timestamp.t,
    Timestamp.valid now ->
    exists (fs1 : Files) (r : Note),
      save_note now "T" "X" "a,b" 7 initial = (Returns 1, fs1)
      /\ list_notes 1 fs1 = (Returns [r], fs1)
      /\ title r = Some "T"
      /\ text r = Some "X"
      /\ tags r = Some "a,b"
      /\ xp r = Some 7
      /\ Timestamp.parse_iso8601 (datetime r) = Some now.
Proof.
  intros now Hv.
  exists (mkFiles (Some [created 1 now "T" "X" "a,b" 7])
            (Some (mkStats (Some 7) (Some 1) None))),
         (created 1 now "T" "X" "a,b" 7).
  split; [rewrite save_note_eq; reflexivity|].
  split; [rewrite list_notes_eq; reflexivity|].
  repeat (split; [reflexivity|]).
  apply parse_isoformat. exact Hv.
Qed.

End Listing.

(** * Properties of the reminder scheduler *)

Section Scheduler.
Import Py Reminders.

Lemma remove_job_eq (jid : string) (jobs : gmap string Job) :
  remove_job jid jobs = (bool_decide (is_Some (jobs !! jid)), delete jid jobs).
Proof.
  unfold remove_job, scheduler_remove_job.
  destruct (jobs !! jid) as [j|] eqn:E.
  - rewrite bool_decide_eq_true_2 by eauto. reflexivity.
  - rewrite bool_decide_eq_false_2 by (intros [? ?]; discriminate).
    rewrite delete_id by exact E. reflexivity.
Qed.

(** C8: [remove_job(jid)] returns [True] exactly when the table holds a
    job [jid]; afterwards the table holds no job [jid] and the other jobs
    are as before; it never raises, and a second call on the same id
    returns [False] and leaves the table as the first call left it. *)
Theorem remove_job_twice :
  forall (jobs : gmap string Job) (jid : string),
    let '(first, jobs1) := remove_job jid jobs in
    let '(second, jobs2) := remove_job jid jobs1 in
    (first = true <-> is_Some (jobs !! jid))
    /\ jobs1 !! jid = None
    /\ (forall other, other <> jid -> jobs1 !! other = jobs !! other)
    /\ (jobs !! jid = None -> jobs1 = jobs)
    /\ second = false
    /\ jobs2 = jobs1.
Proof.
  intros jobs jid. rewrite !remove_job_eq.
  rewrite lookup_delete_eq.
  split; [apply bool_decide_eq_true|].
  split; [reflexivity|].
  split; [intros other Hne; apply lookup_delete_ne; congruence|].
  split; [intros E; apply delete_id; exact E|].
  split.
  - apply bool_decide_eq_false. intros [? ?]. discriminate.
  - apply delete_id. apply lookup_delete_eq.
Qed.

End Scheduler.

(** * Properties of the response parsers *)

Section Parsers.
Import Py AiUtils Spec.

(** ** [strip] *)

Lemma lstrip_first (s : string) (c : ascii) (r : string) :
  lstrip s = String c r -> isspace c = false.
Proof.
  induction s as [|a s IH]; simpl; [discriminate|].
  destruct (isspace a) eqn:E; [exact IH|].
  intros [= <- _]. exact E.
Qed.

Lemma rstrip_first (s : string) (c : ascii) (r : string) :
  rstrip s = String c r -> exists r0, s = String c r0.
Proof.
  destruct s as [|a s]; simpl; [discriminate|].
  destruct (rstrip s); [destruct (isspace a); [discriminate|]|];
    intros [= <- _]; eauto.
Qed.

Lemma snoc_not_empty (r : string) (c : ascii) :
  (r ++ String c EmptyString)%string <> EmptyString.
Proof. destruct r; discriminate. Qed.

Lemma rstrip_last (s : string) :
  forall (r : string) (c : ascii),
    rstrip s = (r ++ String c EmptyString)%string -> isspace c = false.
Proof.
  induction s as [|a s IH]; intros r c; simpl.
  - intros H. symmetry in H. apply snoc_not_empty in H. contradiction.
  - destruct (rstrip s) as [|d r'] eqn:E.
    + destruct (isspace a) eqn:Ea.
      * intros H. symmetry in H. apply snoc_not_empty in H. contradiction.
      * destruct r as [|b r2].
        -- intros [= <-]. exact Ea.
        -- intros [= _ H]. symmetry in H. apply snoc_not_empty in H.
           contradiction.
    + destruct r as [|b r2].
      * intros H. discriminate H.
      * intros [= _ H]. apply (IH r2 c). exact H.
Qed.

Lemma strip_trimmed (s : string) : trimmed (strip s).
Proof.
  unfold strip. split.
  - intros c r H. apply rstrip_first in H. destruct H as [r0 H].
    apply lstrip_first in H. exact H.
  - intros r c H. apply rstrip_last in H. exact H.
Qed.

(** ** Lines read so far *)

Section Lines.
Variables is_q is_a : string -> bool.
Variable text_of : string -> option string.

Lemma paired_snoc lines x c :
  paired is_q is_a text_of lines c ->
  paired is_q is_a text_of (lines ++ [x]) c.
Proof.
  intros (l1 & lq & l2 & la & l3 & -> & H).
  exists l1, lq, l2, la, (l3 ++ [x])%list. split; [|exact H].
  rewrite <- !app_assoc. cbn [app]. rewrite <- !app_assoc. reflexivity.
Qed.

Lemma pending_snoc lines x q tail :
  pending is_q text_of lines q tail -> is_q x = false ->
  pending is_q text_of (lines ++ [x]) q (tail ++ [x]).
Proof.
  intros (l1 & lq & -> & Hq & Ht & Hno) Hx.
  exists l1, lq. rewrite <- app_assoc. cbn [app].
  repeat split; try assumption.
  apply List.Forall_app. split; [exact Hno|]. constructor; [exact Hx|constructor].
Qed.

Lemma pending_new lines x q :
  is_q x = true -> text_of x = Some q ->
  pending is_q text_of (lines ++ [x]) q [].
Proof.
  intros Hx Ht. exists lines, x. repeat split; try assumption. constructor.
Qed.

(** An answer line in the tail of a pending question pairs with it. *)
Lemma pending_paired lines q a t1 la t2 :
  pending is_q text_of lines q (t1 ++ la :: t2) ->
  is_a la = true -> text_of la = Some a ->
  paired is_q is_a text_of lines (mkCard q a).
Proof.
  intros (l1 & lq & -> & Hq & Ht & Hno) Ha Hta.
  exists l1, lq, t1, la, t2. cbn [question answer].
  repeat split; try assumption.
  apply List.Forall_app in Hno. apply Hno.
Qed.

Lemma count_snoc (p : string -> bool) lines x :
  count p (lines ++ [x]) = (count p lines + (if p x then 1 else 0))%nat.
Proof.
  unfold count. rewrite List.filter_app, length_app. cbn [List.filter].
  destruct (p x); reflexivity.
Qed.
End Lines.

Lemma truthy_not_empty (s : string) : truthy s = true -> s <> EmptyString.
Proof. destruct s; [discriminate|]. intros _. discriminate. Qed.

(** ** The flashcard loop *)

Lemma fc_inv_step (lines : list string) (st : option string * list card)
    (x : string) :
  fc_inv lines st -> fc_inv (lines ++ [x]) (flashcard_line st x).
Proof.
  destruct st as [cq cards]. intros (Hc & Hp & Hnq & Hna).
  cbn [fst snd] in *.
  assert (Hc' : forall c, In c cards ->
            paired fc_q fc_a fc_text (lines ++ [x]) c
            /\ trimmed (question c) /\ trimmed (answer c)
            /\ question c <> EmptyString).
  { intros c Hin. destruct (Hc c Hin) as (H1 & H2). split; [|exact H2].
    apply paired_snoc. exact H1. }
  unfold flashcard_line. fold (fc_q x). fold (fc_a x).
  unfold fc_inv. rewrite !count_snoc.
  destruct (fc_q x) eqn:Eq.
  - cbn [fst snd]. split; [exact Hc'|]. split.
    + intros q [= <-]. exists []. apply pending_new; [exact Eq|reflexivity].
    + destruct cq; lia.
  - destruct (fc_a x) eqn:Ea; cbn [andb].
    + destruct cq as [q|]; cbn [is_set].
      * destruct (truthy q) eqn:Et; cbn [fst snd].
        -- split; [|split; [intros ? [=]|rewrite length_app; cbn [length]; lia]].
           intros c Hin. apply in_app_or in Hin.
           destruct Hin as [Hin|[<-|[]]]; [apply Hc'; exact Hin|].
           cbn [question answer].
           destruct (Hp q eq_refl) as [tail Hpend].
           split; [|split; [|split]].
           ++ apply (pending_paired _ _ _ _ _ _ tail x []).
              ** apply pending_snoc; assumption.
              ** exact Ea.
              ** reflexivity.
           ++ destruct Hpend as (l1 & lq & _ & _ & [= <-] & _).
              apply strip_trimmed.
           ++ apply strip_trimmed.
           ++ apply truthy_not_empty. exact Et.
        -- split; [exact Hc'|]. split; [|lia].
           intros q' [= <-]. destruct (Hp q eq_refl) as [tail Hpend].
           exists (tail ++ [x])%list. apply pending_snoc; assumption.
      * cbn [fst snd]. split; [exact Hc'|]. split; [intros ? [=]|lia].
    + cbn [fst snd]. split; [exact Hc'|]. split; [|destruct cq; lia].
      intros q ->. destruct (Hp q eq_refl) as [tail Hpend].
      exists (tail ++ [x])%list. apply pending_snoc; assumption.
Qed.

Lemma fc_inv_fold (lines : list string) :
  fc_inv lines (fold_left flashcard_line lines (None, [])).
Proof.
  induction lines as [|x lines IH] using rev_ind.
  - repeat split; cbn; try lia; intros; try contradiction; discriminate.
  - rewrite fold_left_app. cbn [fold_left]. apply fc_inv_step. exact IH.
Qed.

(** ** The quiz loop *)

Lemma complete_snoc lines x c : complete lines c -> complete (lines ++ [x]) c.
Proof.
  intros (H1 & H2). split; [apply paired_snoc; exact H1|exact H2].
Qed.

Lemma after_colon_trimmed (l q : string) : after_colon l = Some q -> trimmed q.
Proof.
  unfold after_colon. destruct (after_first ":" l); [|discriminate].
  intros [= <-]. apply strip_trimmed.
Qed.

(** What the loop appends at a question line and at its exit. *)
Lemma flush_inv (lines : list string) (st : quiz_state) :
  qz_inv lines st ->
  (forall c, In c (flush st) -> complete lines c)
  /\ (length (flush st) <= count qz_q lines)%nat
  /\ (length (flush st) <= count qz_a lines)%nat.
Proof.
  intros (Hc & Hp & Hnq & Hna). unfold flush.
  assert (Hq0 : (length (questions st) <= count qz_q lines)%nat)
    by (destruct (current_question st); lia).
  assert (Ha0 : (length (questions st) <= count qz_a lines)%nat)
    by (destruct (current_answer st); lia).
  destruct (current_question st) as [q|] eqn:Eq;
    [|split; [exact Hc|lia]].
  destruct (current_answer st) as [a|] eqn:Ea;
    [|split; [exact Hc|lia]].
  destruct (truthy q) eqn:Tq; cbn [andb]; [|split; [exact Hc|lia]].
  destruct (truthy a) eqn:Ta; [|split; [exact Hc|lia]].
  rewrite length_app. cbn [length]. split; [|lia].
  intros c Hin. apply in_app_or in Hin.
  destruct Hin as [Hin|[<-|[]]]; [apply Hc; exact Hin|].
  destruct (Hp q eq_refl) as (Htq & tail & Hpend & Hans).
  destruct (Hans a eq_refl) as (Hta & t1 & la & t2 & -> & Hla & Htext).
  split; [|cbn [question answer];
           auto using truthy_not_empty].
  eapply pending_paired; eassumption.
Qed.

Lemma qz_q_blank (x : string) : truthy (strip x) = false -> qz_q x = false.
Proof.
  unfold qz_q. destruct (strip x); [reflexivity|discriminate].
Qed.

Lemma qz_inv_step (lines : list string) (st : quiz_state) (x : string) :
  qz_inv lines st -> qz_inv (lines ++ [x]) (quiz_line st x).
Proof.
  intros Hinv. pose proof Hinv as (Hc & Hp & Hnq & Hna).
  assert (Hc' : forall c, In c (questions st) -> complete (lines ++ [x]) c)
    by (intros c Hin; apply complete_snoc, Hc, Hin).
  (* a line that is not a question line leaves the pending question *)
  assert (Hkeep : qz_q x = false ->
    forall q, current_question st = Some q ->
      trimmed q
      /\ exists tail,
           pending qz_q qz_text (lines ++ [x]) q tail
           /\ forall a, current_answer st = Some a ->
                trimmed a
                /\ exists t1 la t2,
                     tail = (t1 ++ la :: t2)%list
                     /\ qz_a la = true /\ qz_text la = Some a).
  { intros Hx q Hq. destruct (Hp q Hq) as (Htq & tail & Hpend & Hans).
    split; [exact Htq|]. exists (tail ++ [x])%list.
    split; [apply pending_snoc; assumption|].
    intros a Ha. destruct (Hans a Ha) as (Hta & t1 & la & t2 & -> & H).
    split; [exact Hta|]. exists t1, la, (t2 ++ [x])%list.
    split; [|exact H]. rewrite <- app_assoc. reflexivity. }
  unfold quiz_line.
  destruct (truthy (strip x)) eqn:Tx; cbn [negb].
  2:{ unfold qz_inv. rewrite !count_snoc.
      split; [exact Hc'|]. split; [apply Hkeep, qz_q_blank, Tx|]. lia. }
  fold (qz_q x). fold (qz_a x). fold (qz_text x).
  destruct (qz_q x) eqn:Eq.
  - destruct (flush_inv _ _ Hinv) as (Hf & Hfq & Hfa).
    unfold qz_inv. rewrite !count_snoc, Eq.
    cbn [questions current_question current_answer].
    split; [intros c Hin; apply complete_snoc, Hf, Hin|].
    split; [|destruct (qz_text x); lia].
    intros q Hq. split; [eapply after_colon_trimmed; exact Hq|].
    exists []. split; [apply pending_new; assumption|]. intros ? [=].
  - destruct (qz_a x) eqn:Ea.
    + unfold qz_inv. rewrite !count_snoc, Eq, Ea.
      cbn [questions current_question current_answer].
      split; [exact Hc'|].
      split; [|destruct (qz_text x), (current_answer st),
                 (current_question st); lia].
      intros q Hq. destruct (Hp q Hq) as (Htq & tail & Hpend & _).
      split; [exact Htq|]. exists (tail ++ [x])%list.
      split; [apply pending_snoc; assumption|].
      intros a Ha. split; [eapply after_colon_trimmed; exact Ha|].
      exists tail, x, []. repeat split; assumption.
    + unfold qz_inv. rewrite !count_snoc, Eq, Ea.
      split; [exact Hc'|]. split; [exact (Hkeep eq_refl)|]. lia.
Qed.

Lemma qz_inv_fold (lines : list string) :
  qz_inv lines (fold_left quiz_line lines (mkQuiz None None [])).
Proof.
  induction lines as [|x lines IH] using rev_ind.
  - repeat split; cbn; try lia; intros; try contradiction; discriminate.
  - rewrite fold_left_app. cbn [fold_left]. apply qz_inv_step. exact IH.
Qed.

Lemma slice_to_incl {A} (n : Z) (v : list A) (a : A) :
  In a (slice_to n v) -> In a v.
Proof.
  assert (Hk : forall k, In a (firstn k v) -> In a v).
  { intros k H. rewrite <- (firstn_skipn k v). apply in_or_app. left.
    exact H. }
  unfold slice_to. destruct (0 <=? n); apply Hk.
Qed.

Lemma slice_to_length {A} (n : Z) (v : list A) :
  (length (slice_to n v) <= length v)%nat
  /\ (0 <= n -> Z.of_nat (length (slice_to n v)) <= n).
Proof.
  unfold slice_to. destruct (Z.leb_spec 0 n); rewrite length_firstn; lia.
Qed.

(** The loops of both parsers on the lines of a response. *)
Lemma parse_pairs_lines (response_text : string) (num_questions : Z) :
  0 <= num_questions ->
  let lines := split LF (strip response_text) in
  let flashcards := parse_flashcards response_text in
  let questions := parse_quiz response_text num_questions in
  (forall c, In c flashcards ->
     paired fc_q fc_a fc_text lines c
     /\ trimmed (question c) /\ trimmed (answer c)
     /\ question c <> EmptyString)
  /\ (length flashcards <= count fc_q lines)%nat
  /\ (length flashcards <= count fc_a lines)%nat
  /\ (forall c, In c questions -> complete lines c)
  /\ (length questions <= count qz_q lines)%nat
  /\ (length questions <= count qz_a lines)%nat
  /\ Z.of_nat (length questions) <= num_questions.
Proof.
  intros Hn lines flashcards questions.
  destruct (fc_inv_fold lines) as (Hfc & _ & Hfq & Hfa).
  destruct (flush_inv _ _ (qz_inv_fold lines)) as (Hqc & Hqq & Hqa).
  destruct (slice_to_length num_questions
              (flush (fold_left quiz_line lines (mkQuiz None None []))))
    as [Hlen Hmax].
  split; [exact Hfc|]. split.
  { unfold flashcards, parse_flashcards. fold lines.
    destruct (fst (fold_left flashcard_line lines (None, []))); lia. }
  split; [exact Hfa|]. split.
  { intros c Hin. apply slice_to_incl in Hin. apply Hqc. exact Hin. }
  unfold questions, parse_quiz. fold lines.
  split; [lia|]. split; [lia|]. apply Hmax. exact Hn.
Qed.

(** What the two parsers share: whatever the text of the response, the
    cards that [generate_flashcards] and [generate_quiz_questions] return
    are made of a question line of the response and of an answer line
    that follows it before any other question line; their texts carry no
    whitespace at either end, and the question is not empty (nor is the
    answer of a quiz card).  Neither returns more cards than the response
    has question lines or answer lines, and the quiz returns at most
    [num_questions] of them. *)
Theorem parsers_pair_lines :
  forall (GENAI_AVAILABLE : bool) (response_text text : string)
         (num_cards num_questions : Z),
    0 <= num_questions ->
    let lines := split LF (strip response_text) in
    let flashcards :=
      generate_flashcards GENAI_AVAILABLE (Some response_text) text num_cards in
    let questions :=
      generate_quiz_questions GENAI_AVAILABLE (Some response_text) text
        num_questions in
    (forall c, In c flashcards ->
       paired fc_q fc_a fc_text lines c
       /\ trimmed (question c) /\ trimmed (answer c)
       /\ question c <> EmptyString)
    /\ (length flashcards <= count fc_q lines)%nat
    /\ (length flashcards <= count fc_a lines)%nat
    /\ (forall c, In c questions ->
          paired qz_q qz_a qz_text lines c
          /\ trimmed (question c) /\ trimmed (answer c)
          /\ question c <> EmptyString /\ answer c <> EmptyString)
    /\ (length questions <= count qz_q lines)%nat
    /\ (length questions <= count qz_a lines)%nat
    /\ Z.of_nat (length questions) <= num_questions.
Proof.
  intros avail response_text text num_cards n Hn lines flashcards questions.
  destruct (parse_pairs_lines response_text n Hn)
    as (H1 & H2 & H3 & H4 & H5 & H6 & H7).
  fold lines in H1, H2, H3, H4, H5, H6.
  assert (Hf : flashcards = [] \/ flashcards = parse_flashcards response_text).
  { unfold flashcards, generate_flashcards.
    destruct (negb (truthy text) || negb (truthy (strip text))); [left; reflexivity|].
    destruct (negb avail); [left; reflexivity|right; reflexivity]. }
  assert (Hq : questions = [] \/ questions = parse_quiz response_text n).
  { unfold questions, generate_quiz_questions.
    destruct (negb (truthy text) || negb (truthy (strip text))); [left; reflexivity|].
    destruct (negb avail); [left; reflexivity|].
    destruct (truthy response_text); [right; reflexivity|left; reflexivity]. }
  split; [|split; [|split; [|split; [|split; [|split]]]]].
  - destruct Hf as [-> | ->]; [intros c []|exact H1].
  - destruct Hf as [-> | ->]; [cbn [length]; lia|exact H2].
  - destruct Hf as [-> | ->]; [cbn [length]; lia|exact H3].
  - destruct Hq as [-> | ->]; [intros c []|exact H4].
  - destruct Hq as [-> | ->]; [cbn [length]; lia|exact H5].
  - destruct Hq as [-> | ->]; [cbn [length]; lia|exact H6].
  - destruct Hq as [-> | ->]; [cbn [length]; lia|exact H7].
Qed.

End Parsers.

(** * The properties at sample inputs, and where two claims fail *)

Section Samples.
Import Py Storage AiUtils Spec Ops.





(** C3, as the claim states it, fails: a title that pandas reads as a
    missing value is not the title of the note after the update; the
    note has no title then, and [list_notes] gives the empty string. *)
Lemma update_note_loses_na_title :
  In 5 (map id (rows two_notes))
  /\ exists fs',
       update_note evening 5 "NA" "X" "g" 0 two_notes = (Returns true, fs')
       /\ (forall r, In r (rows fs') -> id r = 5 -> title r = None)
       /\ ~ (exists r, In r (rows fs') /\ id r = 5 /\ title r = Some "NA")
       /\ (exists r rest,
             fst (list_notes 1 fs') = Returns (r :: rest)
             /\ id r = 5 /\ title r = Some EmptyString).
Proof.
  split; [simpl; lia|].
  eexists. split; [vm_compute; reflexivity|].
  split; [|split].
  - intros r [<-|[<-|[]]]; vm_compute; [discriminate|reflexivity].
  - intros (r & [<-|[<-|[]]] & Hid & Ht); vm_compute in Hid, Ht;
      discriminate.
  - eexists _, _. split; [vm_compute; reflexivity|].
    split; reflexivity.
Qed.

(** Where a column holds no string: after a first note without tags the
    [tags] column is a column of floats, and an update raises on it and
    writes nothing. *)
Lemma update_note_raises_on_nan_column :
  In 1 (map id (rows first_note))
  /\ update_note evening 1 "b" "y" "t" 0 first_note
     = (Raises TypeError, first_note).
Proof.
  split; [vm_compute; left; reflexivity|]. vm_compute. reflexivity.
Qed.

(** C3 (as amended) on the store [two_notes] and its note 5. *)
Lemma update_note_existing_witness :
  In 5 (map id (rows two_notes))
  /\ legible (rows two_notes)
  /\ texted (rows two_notes)
  /\ plain "T" = true /\ plain "X" = true /\ plain_or_blank EmptyString = true
  /\ exists fs',
       update_note evening 5 "T" "X" EmptyString 0 two_notes
       = (Returns true, fs')
       /\ length (rows fs') = length (rows two_notes)
       /\ (forall (i : nat) (r : Note),
              rows two_notes !! i = Some r ->
              exists r',
                rows fs' !! i = Some r'
                /\ id r' = id r
                /\ xp r' = xp r
                /\ (id r = 5 ->
                    title r' = Some "T"
                    /\ text r' = Some "X"
                    /\ tags r' = written EmptyString
                    /\ datetime r' = Timestamp.isoformat evening)
                /\ (id r <> 5 -> r' = r))
       /\ stats fs' = stats two_notes.
Proof.
  assert (Hin : In 5 (map id (rows two_notes))) by (simpl; lia).
  assert (Hleg : legible (rows two_notes)) by (vm_compute; reflexivity).
  assert (Htx : texted (rows two_notes)) by (repeat split).
  assert (Ht : plain "T" = true) by (vm_compute; reflexivity).
  assert (Hx : plain "X" = true) by (vm_compute; reflexivity).
  assert (Hg : plain_or_blank EmptyString = true) by reflexivity.
  split; [exact Hin|]. split; [exact Hleg|]. split; [exact Htx|].
  split; [exact Ht|]. split; [exact Hx|]. split; [exact Hg|].
  exact (update_note_existing two_notes evening 5 "T" "X" EmptyString 0
           Hin Hleg Htx Ht Hx Hg).
Defined.

(** C4 on the store [two_notes] and the id 9. *)
Lemma update_note_absent_witness :
  ~ In 9 (map id (rows two_notes))
  /\ update_note evening 9 "T" "X" "g" 0 two_notes
     = (Returns false, snd (ensure_files two_notes))
  /\ snd (ensure_files two_notes) = two_notes.
Proof.
  assert (Hin : ~ In 9 (map id (rows two_notes))) by (simpl; lia).
  destruct (update_note_absent two_notes evening 9 "T" "X" "g" 0 Hin)
    as (H1 & _ & _ & H4).
  split; [exact Hin|]. split; [exact H1|].
  apply H4; simpl; discriminate.
Defined.




(** C7 with the clock at [noon]. *)
Lemma save_then_list_witness :
  Timestamp.valid noon
  /\ exists (fs1 : Files) (r : Note),
       save_note noon "T" "X" "a,b" 7 initial = (Returns 1, fs1)
       /\ list_notes 1 fs1 = (Returns [r], fs1)
       /\ Timestamp.parse_iso8601 (datetime r) = Some noon.
Proof.
  assert (Hv : Timestamp.valid noon) by (unfold Timestamp.valid; simpl; lia).
  destruct (save_then_list noon Hv) as (fs1 & r & H1 & H2 & _ & _ & _ & _ & H7).
  split; [exact Hv|]. exists fs1, r. repeat split; assumption.
Defined.

(** C8 on a table of one job. *)
Lemma remove_job_twice_witness :
  is_Some (one_job !! "1705312800.0")
  /\ fst (Reminders.remove_job "1705312800.0" one_job) = true
  /\ fst (Reminders.remove_job "1705312800.0"
            (snd (Reminders.remove_job "1705312800.0" one_job))) = false.
Proof.
  assert (Hs : is_Some (one_job !! "1705312800.0"))
    by (eexists; vm_compute; reflexivity).
  pose proof (remove_job_twice one_job "1705312800.0") as H.
  destruct (Reminders.remove_job "1705312800.0" one_job) as [b1 j1].
  cbn [fst snd].
  destruct (Reminders.remove_job "1705312800.0" j1) as [b2 j2].
  destruct H as (H1 & _ & _ & _ & H5 & _).
  split; [exact Hs|]. split; [apply H1; exact Hs|exact H5].
Defined.

(** C9: on the response of a question line and an empty answer line,
    [generate_flashcards] returns a card with an empty answer, where the
    property asks for complete pairs only; [generate_quiz_questions],
    which tests the answer too, drops the pair. *)
Theorem flashcards_keep_empty_answer :
  generate_flashcards true (Some empty_answer) "notes" 5
  = [mkCard "x" EmptyString]
  /\ generate_quiz_questions true
       (Some ("Q1: x" ++ String LF "A1:")%string) "notes" 5 = [].
Proof. split; vm_compute; reflexivity. Qed.

(** The bounds on [sample_response]: no flashcard, since no line starts
    with [Q:], and two quiz cards. *)
Lemma parsers_pair_lines_witness :
  0 <= 5
  /\ (length (generate_flashcards true (Some sample_response) "notes" 5)
      <= 0)%nat
  /\ (length (generate_quiz_questions true (Some sample_response) "notes" 5)
      <= 2)%nat
  /\ Z.of_nat
       (length (generate_quiz_questions true (Some sample_response) "notes" 5))
     <= 5.
Proof.
  assert (H0 : 0 <= 5) by lia.
  destruct (parsers_pair_lines true sample_response "notes" 5 5 H0)
    as (_ & H2 & _ & _ & _ & H6 & H7).
  split; [exact H0|]. split; [exact H2|]. split; [exact H6|exact H7].
Defined.

End Samples.

(** * Further properties of the note store *)

Section StoreMore.
Import Py Storage Spec Ops.

(** X1: [ensure_files] leaves both files in place, keeps the content of
    a file that exists, starts an absent table empty and absent counters at
    0, and a second call changes nothing. *)
Theorem ensure_files_heals :
  forall fs : Files,
    let fs' := snd (ensure_files fs) in
    fst (ensure_files fs) = Returns tt
    /\ notes_csv fs' = Some (match notes_csv fs with Some df => df | None => [] end)
    /\ stats_json fs'
       = Some (match stats_json fs with
               | Some obj => obj
               | None => mkStats (Some 0) (Some 0) None
               end)
    /\ ensure_files fs' = (Returns tt, fs').
Proof.
  intros fs. destruct fs as [[df|] [obj|]]; repeat split.
Qed.


Lemma iso_isoformat (now : Timestamp.t) :
  Timestamp.valid now -> iso (Timestamp.isoformat now) = true.
Proof.
  intros Hv. unfold iso. rewrite (parse_isoformat now Hv). reflexivity.
Qed.

Lemma id_room_spec (n : nat) (df : list Note) :
  id_room n df
  <-> Z.of_nat n < 2 ^ 63
      /\ (forall r, In r df -> - 2 ^ 63 <= id r /\ id r + Z.of_nat n < 2 ^ 63).
Proof.
  unfold id_room. rewrite andb_true_iff, forallb_forall, Z.ltb_lt.
  split; intros [Hn H]; (split; [exact Hn|]); intros r Hr;
    specialize (H r Hr).
  - apply andb_true_iff in H. destruct H as [H1 H2].
    apply Z.leb_le in H1. apply Z.ltb_lt in H2. split; assumption.
  - apply andb_true_iff. split; [apply Z.leb_le|apply Z.ltb_lt]; apply H.
Qed.

Lemma int64_next_id (df : list Note) :
  id_room 1 df -> int64 (next_id df) = true.
Proof.
  rewrite id_room_spec. intros [_ H]. unfold next_id.
  destruct df as [|a df]; [reflexivity|].
  change (empty (a :: df)) with false. cbv iota.
  destruct (max_id_In (a :: df) ltac:(discriminate)) as (r & Hr & <-).
  specialize (H r Hr).
  unfold int64. apply andb_true_iff. split; [apply Z.leb_le|apply Z.ltb_lt];
    lia.
Qed.

(** The row that [save_note] appends, read back, on a legible table. *)
Lemma save_note_legible now title text tags xp0 (df : list Note) :
  legible df -> id_room 1 df -> savable now title text tags xp0 ->
  map reread (df ++ [new_note now title text tags xp0 df])
  = (df ++ [saved_row (next_id df) now title text tags xp0])%list
  /\ legible (df ++ [saved_row (next_id df) now title text tags xp0]).
Proof.
  intros Hleg Hroom (Hv & Ht & Hx & Hg & Hp).
  assert (Hrow : reread (new_note now title text tags xp0 df)
                 = saved_row (next_id df) now title text tags xp0).
  { unfold reread, new_note, saved_row.
    cbn [id datetime Storage.title Storage.text Storage.tags xp].
    rewrite (reread_plain_cell (Some title) Ht),
      (reread_plain_cell (Some text) Hx), (reread_written _ Hg).
    reflexivity. }
  split.
  - rewrite map_app, (reread_legible _ Hleg). cbn [map]. rewrite Hrow.
    reflexivity.
  - unfold legible in *. rewrite forallb_app, Hleg. cbn [forallb andb].
    rewrite andb_true_r. unfold legible_row, saved_row.
    cbn [id datetime Storage.title Storage.text Storage.tags xp plain_cell].
    rewrite (int64_next_id _ Hroom), (iso_isoformat _ Hv), Ht, Hx, Hp.
    cbn [andb]. rewrite andb_true_r.
    unfold plain_or_blank, written in *.
    destruct (truthy tags); cbn [plain_cell]; [|reflexivity].
    rewrite orb_false_r in Hg. exact Hg.
Qed.


Lemma save_note_raises :
  forall (fs : Files) (now : Timestamp.t) (title text tags : string) (xp0 : Z),
    legible (rows fs) -> id_room 1 (rows fs) ->
    savable now title text tags xp0 ->
    total_xp (stats fs) = None \/ notes_created (stats fs) = None ->
    exists fs',
      save_note now title text tags xp0 fs = (Raises KeyError, fs')
      /\ rows fs'
         = (rows fs
            ++ [saved_row (next_id (rows fs)) now title text tags xp0])%list
      /\ stats fs' = stats fs
      /\ legible (rows fs').
Proof.
  intros fs now title text tags xp0 Hleg Hroom Hsav Hmiss.
  destruct (save_note_legible now title text tags xp0 _ Hleg Hroom Hsav)
    as [E Hleg'].
  rewrite save_note_eq. cbv zeta. rewrite E.
  assert (Hst : match total_xp (stats fs), notes_created (stats fs) with
                | Some _, Some _ => False
                | _, _ => True
                end).
  { destruct Hmiss as [-> | ->]; [exact I|].
    destruct (total_xp (stats fs)); exact I. }
  destruct (total_xp (stats fs)); [destruct (notes_created (stats fs))|];
    [contradiction| |];
    (eexists; split; [reflexivity|];
     split; [reflexivity|split; [reflexivity|exact Hleg']]).
Qed.

(** X4: when a counter is missing from [stats.json], [save_note] raises
    a [KeyError] after the row is written: on a legible table with room
    for one more id and for arguments as in X3, the table has the new row
    and the statistics are as before. *)
Theorem save_note_key_error :
  forall (fs : Files) (now : Timestamp.t) (title text tags : string) (xp0 : Z),
    legible (rows fs) -> id_room 1 (rows fs) ->
    savable now title text tags xp0 ->
    total_xp (stats fs) = None \/ notes_created (stats fs) = None ->
    exists fs',
      save_note now title text tags xp0 fs = (Raises KeyError, fs')
      /\ rows fs'
         = (rows fs
            ++ [saved_row (next_id (rows fs)) now title text tags xp0])%list
      /\ stats fs' = stats fs
      /\ legible (rows fs').
Proof.
  intros fs now title text tags xp0 Hleg Hroom Hsav Hmiss.
  exact (save_note_raises fs now title text tags xp0 Hleg Hroom Hsav Hmiss).
Qed.

Lemma rows_mk (df : list Note) (st : option Stats) :
  rows (mkFiles (Some df) st) = df.
Proof. reflexivity. Qed.

Lemma stats_mk (df : option (list Note)) (st : Stats) :
  stats (mkFiles df (Some st)) = st.
Proof. reflexivity. Qed.




Lemma id_room_less (n : nat) (df : list Note) :
  id_room (S n) df -> id_room n df /\ id_room 1 df.
Proof.
  rewrite !id_room_spec. intros [Hn H].
  split; (split; [lia|]); intros r Hr; specialize (H r Hr); lia.
Qed.

Lemma id_room_filter (n : nat) (p : Note -> bool) (df : list Note) :
  id_room n df -> id_room n (List.filter p df).
Proof.
  rewrite !id_room_spec. intros [Hn H]. split; [exact Hn|]. intros r Hr.
  apply List.filter_In in Hr. apply H, Hr.
Qed.

Lemma id_room_ids (n : nat) (df df' : list Note) :
  map id df' = map id df -> id_room n df -> id_room n df'.
Proof.
  rewrite !id_room_spec. intros E [Hn H]. split; [exact Hn|]. intros r Hr.
  assert (Hin : In (id r) (map id df)) by (rewrite <- E; apply in_map, Hr).
  apply in_map_iff in Hin. destruct Hin as (r0 & E0 & Hr0).
  rewrite <- E0. exact (H r0 Hr0).
Qed.

Lemma id_room_save (n : nat) now title text tags xp0 (df : list Note) :
  id_room (S n) df ->
  id_room n (df ++ [new_note now title text tags xp0 df]).
Proof.
  rewrite !id_room_spec. intros [Hn H]. split; [lia|]. intros r Hr.
  apply in_app_or in Hr. destruct Hr as [Hr|[<-|[]]].
  - specialize (H r Hr). lia.
  - cbn [new_note id]. unfold next_id.
    destruct df as [|a df]; [cbn; lia|].
    change (empty (a :: df)) with false. cbv iota.
    destruct (max_id_In (a :: df) ltac:(discriminate)) as (r & Hr & <-).
    specialize (H r Hr). lia.
Qed.



(** The first row of the sorted frame: every row is in the class [P] or
    older than a row [e] of the frame. *)
Lemma sort_values_desc_head (P : Note -> Prop) (l : list Note) (e : Note) :
  In e l ->
  Forall (fun r => P r \/ String.ltb (datetime r) (datetime e) = true) l ->
  exists a rest, sort_values_desc l = a :: rest /\ In a l /\ P a.
Proof.
  intros He Hall.
  pose proof (sort_values_desc_perm l) as Hperm.
  pose proof (sort_values_desc_sorted l) as Hsorted.
  destruct (sort_values_desc l) as [|a rest] eqn:E.
  { apply Permutation_nil in Hperm. subst l. contradiction. }
  exists a, rest. split; [reflexivity|].
  assert (Ha : In a l) by (apply (Permutation_in _ Hperm); left; reflexivity).
  split; [exact Ha|].
  rewrite List.Forall_forall in Hall.
  destruct (Hall a Ha) as [HP|Hlt]; [exact HP|].
  exfalso. apply ltb_leb_false in Hlt.
  assert (Hea : In e (a :: rest))
    by (apply (Permutation_in _ (Permutation_sym Hperm)); exact He).
  destruct Hea as [<-|Hin].
  - rewrite leb_refl in Hlt. discriminate.
  - inversion Hsorted as [|? ? _ Hfa]; subst.
    rewrite List.Forall_forall in Hfa. specialize (Hfa e Hin).
    unfold newer_or_equal in Hfa. congruence.
Qed.

Lemma head_cons (limit : Z) (a : Note) (l : list Note) :
  1 <= limit -> exists rest, head limit (a :: l) = a :: rest.
Proof.
  intros H. unfold head.
  assert (E : (0 <=? limit) = true) by (apply Z.leb_le; lia). rewrite E.
  destruct (Z.to_nat limit) as [|k] eqn:Ek; [lia|].
  eexists. reflexivity.
Qed.

Lemma default_written (s : string) : default EmptyString (written s) = s.
Proof. destruct s; reflexivity. Qed.


(** X8: on a legible table whose title, text and tags columns hold
    strings, when every row with another id is older than the clock, a
    row that [update_note] has edited is the first that [list_notes]
    returns, with the new title, text and tags. *)
Theorem update_note_lists_first :
  forall (fs : Files) (now : Timestamp.t) (note_id : Z)
         (title text tags : string) (xp0 limit : Z),
    In note_id (map id (rows fs)) ->
    legible (rows fs) -> texted (rows fs) ->
    plain title = true -> plain text = true -> plain_or_blank tags = true ->
    Forall (fun r => id r = note_id
                     \/ String.ltb (datetime r) (Timestamp.isoformat now) = true)
      (rows fs) ->
    1 <= limit ->
    exists (fs1 : Files) (r : Note) (rest : list Note),
      update_note now note_id title text tags xp0 fs = (Returns true, fs1)
      /\ list_notes limit fs1 = (Returns (r :: rest), fs1)
      /\ id r = note_id
      /\ Storage.title r = Some title
      /\ Storage.text r = Some text
      /\ Storage.tags r = Some tags
      /\ datetime r = Timestamp.isoformat now.
Proof.
  intros fs now n title text tags xp0 limit Hin Hleg (Ht & Hx & Hg)
         Hpt Hpx Hpg Hold Hlim.
  rewrite update_note_eq.
  assert (Hisin : isin n (rows fs) = true) by (apply isin_In; exact Hin).
  rewrite Hisin, Ht, Hx, Hg. cbn [andb].
  set (df1 := map reread
                (map (fun r => if id r =? n then edited now title text tags r
                               else r) (rows fs))).
  apply in_map_iff in Hin. destruct Hin as (r0 & Hid & Hr0).
  set (e := normalized (reread (edited now title text tags r0))).
  assert (He : id e = n /\ Storage.title e = Some title
               /\ Storage.text e = Some text /\ Storage.tags e = Some tags
               /\ datetime e = Timestamp.isoformat now).
  { unfold e, normalized, reread, edited.
    cbn [id datetime Storage.title Storage.text Storage.tags xp].
    rewrite (reread_plain_cell (Some title) Hpt),
      (reread_plain_cell (Some text) Hpx), (reread_written _ Hpg).
    cbn [from_option default]. fold (default EmptyString (written tags)).
    rewrite default_written. repeat split; exact Hid. }
  assert (Hhead : exists x rest,
             sort_values_desc (map normalized df1) = x :: rest
             /\ In x (map normalized df1)
             /\ (id x = n /\ Storage.title x = Some title
                 /\ Storage.text x = Some text /\ Storage.tags x = Some tags
                 /\ datetime x = Timestamp.isoformat now)).
  { apply (sort_values_desc_head _ _ e).
    - apply in_map. unfold df1. apply in_map. apply in_map_iff. exists r0.
      split; [|exact Hr0]. apply Z.eqb_eq in Hid. rewrite Hid. reflexivity.
    - apply List.Forall_forall. intros x Hx'.
      apply in_map_iff in Hx'. destruct Hx' as (y & <- & Hy).
      unfold df1 in Hy. apply in_map_iff in Hy. destruct Hy as (w & <- & Hw).
      apply in_map_iff in Hw. destruct Hw as (z & <- & Hz).
      rewrite List.Forall_forall in Hold.
      destruct (Z.eqb_spec (id z) n) as [E|E].
      + left. fold e in He.
        assert (Ez : normalized (reread (edited now title text tags z))
                     = mkNote (id z) (Timestamp.isoformat now) (Some title)
                         (Some text) (Some tags) (xp z)).
        { unfold normalized, reread, edited.
          cbn [id datetime Storage.title Storage.text Storage.tags xp].
          rewrite (reread_plain_cell (Some title) Hpt),
            (reread_plain_cell (Some text) Hpx), (reread_written _ Hpg).
          cbn [from_option default]. fold (default EmptyString (written tags)).
          rewrite default_written. reflexivity. }
        rewrite Ez. cbn. repeat split. exact E.
      + right. destruct (Hold z Hz) as [H|H]; [contradiction|].
        destruct He as (_ & _ & _ & _ & ->). exact H. }
  destruct Hhead as (x & rest & Hsort & _ & Hx').
  destruct (head_cons limit x rest Hlim) as [rest' Hh].
  exists (mkFiles (Some df1) (Some (stats fs))), x, rest'.
  split; [reflexivity|]. split; [|exact Hx'].
  rewrite list_notes_eq.
  change (rows (mkFiles (Some df1) (Some (stats fs)))) with df1.
  change (stats (mkFiles (Some df1) (Some (stats fs)))) with (stats fs).
  rewrite Hsort, Hh. reflexivity.
Qed.

End StoreMore.

(** * The resynchronisation of the statistics *)

Section Resync.
Import Py Storage Spec SyncStats.


End Resync.

(** * Further properties of the scheduler and of the AI helpers *)

Section HelpersMore.
Import Py Reminders AiUtils Spec Ops.

Lemma split_length (c : ascii) (s : string) :
  length (split c s) = S (occurrences c s).
Proof.
  unfold split.
  assert (H : forall s, length (snd (split_aux c s)) = occurrences c s).
  { clear s. induction s as [|d s IH]; [reflexivity|].
    cbn [split_aux occurrences]. destruct (split_aux c s) as [cur rest].
    cbn [snd] in IH. destruct (Ascii.eqb d c); cbn [snd length]; lia. }
  specialize (H s). destruct (split_aux c s) as [cur rest].
  cbn [snd] in H. cbn [length]. lia.
Qed.

(** X11: the keywords that [extract_keywords] returns have no whitespace
    at either end and are at most [max_keywords]; when the model answers
    a text that is not empty, there is one keyword per comma-separated
    field of the stripped answer, up to [max_keywords], so not even an
    answer of blanks gives the empty list. *)
Theorem extract_keywords_fields :
  forall (GENAI_AVAILABLE : bool) (response_text text : string)
         (max_keywords : Z),
    0 <= max_keywords ->
    let keywords :=
      extract_keywords GENAI_AVAILABLE (Some response_text) text max_keywords in
    (forall k, In k keywords -> trimmed k)
    /\ Z.of_nat (length keywords) <= max_keywords
    /\ (GENAI_AVAILABLE = true -> truthy (strip text) = true ->
        truthy response_text = true ->
        length keywords
        = Nat.min (Z.to_nat max_keywords)
            (S (occurrences COMMA (strip response_text)))).
Proof.
  intros avail rt text n Hn keywords.
  set (all := map strip (split COMMA (strip rt))).
  assert (Hall : forall k, In k all -> trimmed k).
  { intros k Hk. apply in_map_iff in Hk. destruct Hk as (x & <- & _).
    apply strip_trimmed. }
  assert (Hcases : keywords = [] \/ keywords = slice_to n all).
  { unfold keywords, extract_keywords.
    destruct (negb (truthy text) || negb (truthy (strip text)));
      [left; reflexivity|].
    destruct (negb avail); [left; reflexivity|].
    destruct (truthy rt); [right; reflexivity|left; reflexivity]. }
  destruct (slice_to_length n all) as [_ Hmax].
  split; [|split].
  - destruct Hcases as [-> | ->]; [intros k []|].
    intros k Hk. apply Hall. eapply slice_to_incl. exact Hk.
  - destruct Hcases as [-> | ->]; [cbn [length]; lia|apply Hmax; exact Hn].
  - intros -> Ht Hrt. unfold keywords, extract_keywords.
    assert (Htext : truthy text = true).
    { destruct text; [discriminate Ht|reflexivity]. }
    rewrite Htext, Ht, Hrt. cbn [negb orb]. fold all.
    unfold slice_to.
    assert (E : (0 <=? n) = true) by (apply Z.leb_le; exact Hn).
    rewrite E, length_firstn. unfold all. rewrite length_map, split_length.
    reflexivity.
Qed.

Lemma prefix_split (p l : string) :
  String.prefix p l = true -> l = (p ++ drop (String.length p) l)%string.
Proof.
  revert l. induction p as [|c p IH]; intros l; [reflexivity|].
  destruct l as [|d l]; cbn [String.prefix]; [discriminate|].
  destruct (ascii_dec c d) as [<-|]; [|discriminate].
  intros H. cbn [String.length drop]. rewrite append_cons.
  f_equal. apply IH. exact H.
Qed.

(** The text after the first colon of a line that starts with a mark
    without a colon of its own. *)
Lemma after_colon_mark (mark l : string) :
  occurrences ":" mark = 0%nat ->
  startswith (mark ++ ":") l = true ->
  after_colon l = Some (strip (drop (S (String.length mark)) l)).
Proof.
  unfold startswith, after_colon. intros Hm.
  revert l. induction mark as [|c mark IH]; intros l H.
  - rewrite append_nil_l in H. destruct l as [|d l]; [discriminate H|].
    cbn [String.prefix] in H.
    destruct (ascii_dec ":" d) as [<-|]; [|discriminate]. reflexivity.
  - rewrite append_cons in H. destruct l as [|d l]; [discriminate H|].
    cbn [String.prefix] in H.
    destruct (ascii_dec c d) as [<-|]; [|discriminate].
    cbn [occurrences] in Hm.
    destruct (Ascii.eqb c ":") eqn:Ec; [discriminate Hm|].
    cbn [after_first String.length drop]. rewrite Ec.
    apply IH; [exact Hm|exact H].
Qed.

Lemma difficulty_fold_level (ls : list string) (st : string * string) :
  Forall (fun l => startswith "Level:" l = false) ls ->
  fst (fold_left difficulty_line ls st) = fst st.
Proof.
  revert st. induction ls as [|l ls IH]; intros st Hno; [reflexivity|].
  inversion Hno as [|? ? Hl Hls]; subst. cbn [fold_left].
  rewrite (IH _ Hls). destruct st as [lv ex]. unfold difficulty_line.
  rewrite Hl. destruct (startswith "Explanation:" l); [|reflexivity].
  destruct (after_colon l); reflexivity.
Qed.

Lemma difficulty_fold_explanation (ls : list string) (st : string * string) :
  Forall (fun l => startswith "Explanation:" l = false) ls ->
  snd (fold_left difficulty_line ls st) = snd st.
Proof.
  revert st. induction ls as [|l ls IH]; intros st Hno; [reflexivity|].
  inversion Hno as [|? ? Hl Hls]; subst. cbn [fold_left].
  rewrite (IH _ Hls). destruct st as [lv ex]. unfold difficulty_line.
  rewrite Hl. destruct (startswith "Level:" l); [|reflexivity].
  destruct (after_colon l); reflexivity.
Qed.

Lemma level_not_explanation (l : string) :
  startswith "Level:" l = true -> startswith "Explanation:" l = false.
Proof.
  unfold startswith. destruct l as [|d l]; [discriminate|].
  cbn [String.prefix].
  destruct (ascii_dec "L" d) as [<-|]; [|discriminate]. intros _.
  destruct (ascii_dec "E" "L"); [discriminate|reflexivity].
Qed.

(** X12: on an answer of the model, the level that [assess_difficulty]
    returns is the stripped text after the mark of the last line that
    starts with [Level:], and ["Medium"] when no line does; the
    explanation is that of the last line that starts with [Explanation:],
    and empty when no line does.  The lines are those of the stripped
    answer, taken as they are: an indented mark is not seen. *)
Theorem assess_difficulty_last_wins :
  forall (response_text text : string),
    truthy (strip text) = true ->
    truthy response_text = true ->
    let lines := split LF (strip response_text) in
    let result := assess_difficulty true (Responded (Some response_text)) text in
    (Forall (fun l => startswith "Level:" l = false) lines ->
     level result = "Medium")
    /\ (forall l1 l l2,
          lines = (l1 ++ l :: l2)%list ->
          startswith "Level:" l = true ->
          Forall (fun l' => startswith "Level:" l' = false) l2 ->
          level result = strip (drop 6 l))
    /\ (Forall (fun l => startswith "Explanation:" l = false) lines ->
        explanation result = EmptyString)
    /\ (forall l1 l l2,
          lines = (l1 ++ l :: l2)%list ->
          startswith "Explanation:" l = true ->
          Forall (fun l' => startswith "Explanation:" l' = false) l2 ->
          explanation result = strip (drop 12 l)).
Proof.
  intros rt text Ht Hrt lines result.
  assert (Htext : truthy text = true).
  { destruct text; [discriminate Ht|reflexivity]. }
  assert (E : result
              = mkAssessment
                  (fst (fold_left difficulty_line lines ("Medium", EmptyString)))
                  (snd (fold_left difficulty_line lines ("Medium", EmptyString)))).
  { unfold result, assess_difficulty. rewrite Htext, Ht, Hrt.
    cbn [negb orb]. fold lines.
    destruct (fold_left difficulty_line lines ("Medium", EmptyString)).
    reflexivity. }
  rewrite E. cbn [level explanation].
  split; [|split; [|split]].
  - intros Hno. rewrite difficulty_fold_level by exact Hno. reflexivity.
  - intros l1 l l2 -> Hl Hno.
    rewrite fold_left_app. cbn [fold_left].
    rewrite difficulty_fold_level by exact Hno.
    destruct (fold_left difficulty_line l1 ("Medium", EmptyString)) as [lv ex].
    unfold difficulty_line. rewrite Hl.
    rewrite (after_colon_mark "Level" l) by (reflexivity || exact Hl).
    reflexivity.
  - intros Hno. rewrite difficulty_fold_explanation by exact Hno. reflexivity.
  - intros l1 l l2 -> Hl Hno.
    rewrite fold_left_app. cbn [fold_left].
    rewrite difficulty_fold_explanation by exact Hno.
    destruct (fold_left difficulty_line l1 ("Medium", EmptyString)) as [lv ex].
    unfold difficulty_line.
    assert (Hlv : startswith "Level:" l = false).
    { destruct (startswith "Level:" l) eqn:E'; [|reflexivity].
      apply level_not_explanation in E'. congruence. }
    rewrite Hlv, Hl.
    rewrite (after_colon_mark "Explanation" l) by (reflexivity || exact Hl).
    reflexivity.
Qed.

(** X13: in every other case [assess_difficulty] returns the level
    ["Unknown"]: a blank text, no API, no model, an exception, whose
    message is the explanation, or a response without text. *)
Theorem assess_difficulty_unknown :
  forall (GENAI_AVAILABLE : bool) (reply : gemini) (text : string),
    truthy (strip text) = false
    \/ GENAI_AVAILABLE = false
    \/ (forall response_text,
          reply = Responded (Some response_text) ->
          truthy response_text = false) ->
    level (assess_difficulty GENAI_AVAILABLE reply text) = "Unknown"
    /\ (truthy (strip text) = true -> GENAI_AVAILABLE = true ->
        forall message, reply = Raised message ->
        explanation (assess_difficulty GENAI_AVAILABLE reply text) = message).
Proof.
  intros avail reply text H. unfold assess_difficulty. split.
  - destruct (truthy text) eqn:Et; [|reflexivity]. cbn [negb orb].
    destruct (truthy (strip text)) eqn:Es; [|reflexivity]. cbn [negb].
    destruct avail; [|reflexivity]. cbn [negb].
    destruct H as [H|[H|H]]; try discriminate.
    destruct reply as [|m|[rt|]]; try reflexivity.
    rewrite (H rt eq_refl). reflexivity.
  - intros Hs -> m ->.
    assert (Htext : truthy text = true).
    { destruct text; [discriminate Hs|reflexivity]. }
    rewrite Htext, Hs. reflexivity.
Qed.

End HelpersMore.

(** * Decimal numerals and generated titles *)

Section Numerals.
Import Py Storage Spec Ops.

(** The store once [ensure_files] has run. *)
Local Abbreviation ensured fs :=
  (mkFiles (Some (rows fs)) (Some (stats fs))).

Lemma is_digit_range (c : ascii) :
  is_digit c = true <-> (48 <= N_of_ascii c <= 57)%N.
Proof.
  unfold is_digit. rewrite andb_true_iff, !N.leb_le. reflexivity.
Qed.

Lemma digit_not_space (c : ascii) : is_digit c = true -> isspace c = false.
Proof.
  intros H. apply is_digit_range in H. unfold isspace.
  apply orb_false_iff. split; [apply orb_false_iff; split|].
  - apply andb_false_iff. right. apply N.leb_gt. lia.
  - apply andb_false_iff. right. apply N.leb_gt. lia.
  - apply N.eqb_neq. lia.
Qed.

Lemma digit_not_c_space (c : ascii) : is_digit c = true -> is_c_space c = false.
Proof.
  intros H. apply is_digit_range in H. unfold is_c_space.
  apply orb_false_iff. split.
  - apply andb_false_iff. right. apply N.leb_gt. lia.
  - apply N.eqb_neq. lia.
Qed.

Lemma digit_char (d : N) :
  (d < 10)%N ->
  is_digit (ascii_of_N (48 + d)) = true
  /\ digit_val (ascii_of_N (48 + d)) = Z.of_N d.
Proof.
  intros Hd. unfold digit_val. rewrite is_digit_range.
  rewrite N_ascii_embedding by lia. split; lia.
Qed.

Lemma all_chars_app (p : ascii -> bool) (a b : string) :
  all_chars p (a ++ b) = all_chars p a && all_chars p b.
Proof.
  induction a as [|c a IH]; [reflexivity|].
  rewrite append_cons. cbn [all_chars]. rewrite IH. apply andb_assoc.
Qed.

Lemma all_chars_impl (p q : ascii -> bool) (s : string) :
  (forall c, p c = true -> q c = true) ->
  all_chars p s = true -> all_chars q s = true.
Proof.
  intros Hpq. induction s as [|c s IH]; [reflexivity|]. cbn [all_chars].
  intros H. apply andb_true_iff in H. destruct H as [Hc Hs].
  rewrite (Hpq _ Hc), (IH Hs). reflexivity.
Qed.

Lemma append_assoc (a b c : string) : ((a ++ b) ++ c = a ++ (b ++ c))%string.
Proof.
  induction a as [|x a IH]; [reflexivity|].
  rewrite !append_cons, IH. reflexivity.
Qed.

Lemma len_app (a b : string) : len (a ++ b) = len a + len b.
Proof.
  unfold len. induction a as [|c a IH]; [rewrite append_nil_l; cbn; lia|].
  rewrite append_cons. cbn [String.length]. lia.
Qed.

Lemma len_cons (c : ascii) (s : string) : len (String c s) = len s + 1.
Proof. unfold len. cbn [String.length]. lia. Qed.

Lemma len_nonneg (s : string) : 0 <= len s.
Proof. unfold len. lia. Qed.

(** The digits that [digits_of] puts before [acc] read back as [n]. *)
Lemma digits_of_reads (fuel : nat) :
  forall (n : N) (acc : string),
    (0 < n < 10 ^ N.of_nat fuel)%N ->
    exists ds,
      digits_of fuel n acc = (ds ++ acc)%string
      /\ all_chars is_digit ds = true
      /\ truthy ds = true
      /\ forall (a : Z) (b : bool) (rest : string),
           exists k, digits_value a b (ds ++ rest)
                     = digits_value (a * 10 ^ k + Z.of_N n) true rest
                     /\ 0 <= k.
Proof.
  induction fuel as [|fuel IH]; intros n acc Hn.
  { cbn in Hn. lia. }
  rewrite Nat2N.inj_succ, N.pow_succ_r in Hn by lia.
  cbn [digits_of]. cbv zeta.
  assert (Hd : (n mod 10 < 10)%N) by (apply N.mod_lt; lia).
  destruct (digit_char _ Hd) as [Hdig Hval].
  pose proof (N.div_mod n 10 ltac:(lia)) as Hdm.
  destruct (N.eqb_spec (n / 10) 0) as [E0|E0].
  - exists (String (ascii_of_N (48 + n mod 10)) EmptyString).
    split; [reflexivity|]. split; [cbn [all_chars]; rewrite Hdig; reflexivity|].
    split; [reflexivity|].
    intros a b rest. exists 1. rewrite append_cons, append_nil_l.
    cbn [digits_value]. rewrite Hdig, Hval. split; [|lia].
    f_equal. lia.
  - assert (Hq : (0 < n / 10 < 10 ^ N.of_nat fuel)%N).
    { split; [lia|]. apply N.Div0.div_lt_upper_bound. lia. }
    destruct (IH (n / 10)%N (String (ascii_of_N (48 + n mod 10)) acc) Hq)
      as (ds & Eds & Hall & Hne & Hread).
    exists (ds ++ String (ascii_of_N (48 + n mod 10)) EmptyString)%string.
    split; [rewrite Eds, append_assoc, append_cons, append_nil_l; reflexivity|].
    split; [rewrite all_chars_app, Hall; cbn [all_chars]; rewrite Hdig;
            reflexivity|].
    split; [destruct ds; [discriminate Hne|reflexivity]|].
    intros a b rest.
    destruct (Hread a b (String (ascii_of_N (48 + n mod 10)) rest))
      as (k & Hk & Hk0).
    exists (k + 1). rewrite append_assoc, append_cons, append_nil_l, Hk.
    cbn [digits_value]. rewrite Hdig, Hval. split; [|lia].
    f_equal. rewrite Z.pow_add_r by lia.
    replace (Z.of_N n) with (10 * Z.of_N (n / 10) + Z.of_N (n mod 10)) by lia.
    lia.
Qed.

Lemma str_N_reads (n : N) :
  (0 < n)%N ->
  all_chars is_digit (str_N n) = true
  /\ truthy (str_N n) = true
  /\ digits_value 0 false (str_N n) = Some (Z.of_N n).
Proof.
  intros Hn. unfold str_N.
  assert (Hfuel : (0 < n < 10 ^ N.of_nat (S (N.to_nat (N.log2 n))))%N).
  { split; [exact Hn|].
    rewrite Nat2N.inj_succ, N2Nat.id.
    destruct (N.log2_spec n Hn) as [_ Hlt].
    eapply N.lt_le_trans; [exact Hlt|].
    apply N.pow_le_mono_l. lia. }
  destruct (digits_of_reads _ n EmptyString Hfuel)
    as (ds & Eds & Hall & Hne & Hread).
  rewrite Eds, append_nil_r.
  split; [exact Hall|]. split; [exact Hne|].
  destruct (Hread 0 false EmptyString) as (k & Hk & _).
  rewrite append_nil_r in Hk. rewrite Hk. cbn [digits_value].
  f_equal; lia.
Qed.

(** A number below [10^k] has at most [k] digits. *)
Lemma digits_of_length (fuel : nat) :
  forall (n : N) (acc : string) (k : nat),
    (0 < n < 10 ^ N.of_nat k)%N ->
    exists ds,
      digits_of fuel n acc = (ds ++ acc)%string
      /\ (String.length ds <= k)%nat.
Proof.
  induction fuel as [|fuel IH]; intros n acc k Hn.
  { exists EmptyString. split; [reflexivity|cbn; lia]. }
  destruct k as [|k]; [cbn in Hn; lia|].
  rewrite Nat2N.inj_succ, N.pow_succ_r in Hn by lia.
  cbn [digits_of]. cbv zeta.
  destruct (N.eqb_spec (n / 10) 0) as [E0|E0].
  - exists (String (ascii_of_N (48 + n mod 10)) EmptyString).
    split; [reflexivity|cbn; lia].
  - pose proof (N.div_mod n 10 ltac:(lia)) as Hdm.
    assert (Hd : (n mod 10 < 10)%N) by (apply N.mod_lt; lia).
    assert (Hq : (0 < n / 10 < 10 ^ N.of_nat k)%N).
    { split; [lia|]. apply N.Div0.div_lt_upper_bound. lia. }
    destruct (IH (n / 10)%N (String (ascii_of_N (48 + n mod 10)) acc) k Hq)
      as (ds & Eds & Hlen).
    exists (ds ++ String (ascii_of_N (48 + n mod 10)) EmptyString)%string.
    split; [rewrite Eds, append_assoc, append_cons, append_nil_l; reflexivity|].
    pose proof (len_app ds (String (ascii_of_N (48 + n mod 10)) EmptyString))
      as Hl.
    unfold len in Hl. cbn [String.length] in Hl. lia.
Qed.

Lemma digit_count_le_len (s : string) : 0 <= digit_count s <= len s.
Proof.
  induction s as [|c s IH]; [unfold len; cbn; lia|].
  cbn [digit_count]. rewrite len_cons. destruct (is_digit c); lia.
Qed.

Lemma numeral_digits (z k : Z) :
  0 < z < 10 ^ k -> 0 <= k -> digit_count (numeral z) <= k.
Proof.
  intros Hz Hk. destruct z as [|q|q]; try lia. cbn [numeral].
  pose proof (digit_count_le_len (str_N (N.pos q))) as Hd.
  assert (Hlen : len (str_N (N.pos q)) <= k); [|lia].
  unfold str_N.
  destruct (digits_of_length (S (N.to_nat (N.log2 (N.pos q)))) (N.pos q)
              EmptyString (Z.to_nat k)) as (ds & Eds & Hl).
  { split; [lia|].
    assert (E : Z.of_N (10 ^ N.of_nat (Z.to_nat k)) = 10 ^ k).
    { rewrite N2Z.inj_pow, nat_N_Z, Z2Nat.id by lia. reflexivity. }
    lia. }
  rewrite Eds, append_nil_r. unfold len. lia.
Qed.

Lemma lstrip_digits (s : string) : all_chars is_digit s = true -> lstrip s = s.
Proof.
  destruct s as [|c s]; [reflexivity|]. cbn [all_chars lstrip].
  intros H. apply andb_true_iff in H. destruct H as [H _].
  rewrite (digit_not_space _ H). reflexivity.
Qed.

Lemma rstrip_digits (s : string) : all_chars is_digit s = true -> rstrip s = s.
Proof.
  induction s as [|c s IH]; [reflexivity|]. cbn [all_chars rstrip].
  intros H. apply andb_true_iff in H. destruct H as [Hc Hs].
  rewrite (IH Hs). destruct s; [|reflexivity].
  rewrite (digit_not_space _ Hc). reflexivity.
Qed.

Lemma int_lstrip_digits (s : string) :
  all_chars is_digit s = true -> int_lstrip s = s.
Proof.
  destruct s as [|c s]; [reflexivity|]. cbn [all_chars int_lstrip].
  intros H. apply andb_true_iff in H. destruct H as [H _].
  rewrite (digit_not_c_space _ H). reflexivity.
Qed.

Lemma int_rstrip_digits (s : string) :
  all_chars is_digit s = true -> int_rstrip s = s.
Proof.
  induction s as [|c s IH]; [reflexivity|]. cbn [all_chars int_rstrip].
  intros H. apply andb_true_iff in H. destruct H as [Hc Hs].
  rewrite (IH Hs). destruct s; [|reflexivity].
  rewrite (digit_not_c_space _ Hc). reflexivity.
Qed.

(** The value of a string of digits is below [10] to their number. *)
Lemma digits_value_digits (s : string) :
  forall (a : Z) (b : bool),
    all_chars is_digit s = true ->
    b = true \/ truthy s = true ->
    exists w,
      0 <= w < 10 ^ len s
      /\ digits_value a b s = Some (a * 10 ^ len s + w).
Proof.
  induction s as [|c s IH]; intros a b Hall Hb.
  - destruct Hb as [->|Hb]; [|discriminate Hb].
    exists 0. change (len EmptyString) with 0. rewrite Z.pow_0_r.
    cbn [digits_value]. split; [lia|]. f_equal. lia.
  - cbn [all_chars] in Hall. apply andb_true_iff in Hall.
    destruct Hall as [Hc Hs]. cbn [digits_value]. rewrite Hc.
    destruct (IH (10 * a + digit_val c) true Hs (or_introl eq_refl))
      as (w & Hw & E).
    rewrite E, len_cons.
    pose proof (len_nonneg s) as Hl.
    rewrite Z.pow_add_r by lia. change (10 ^ 1) with 10.
    apply is_digit_range in Hc.
    assert (Hd : 0 <= digit_val c <= 9) by (unfold digit_val; lia).
    exists (digit_val c * 10 ^ len s + w).
    split; [nia|]. f_equal. lia.
Qed.

(** [int] of a string of digits is the checked [digits_value]. *)
Lemma int_of_digits (s : string) :
  isdigit s = true -> int (PyStr s) = digits_checked s.
Proof.
  unfold isdigit. intros H. apply andb_true_iff in H. destruct H as [Hne Hall].
  cbn [int]. unfold int_of_str.
  rewrite (int_lstrip_digits _ Hall), (int_rstrip_digits _ Hall).
  destruct s as [|c s]; [discriminate Hne|].
  cbn [all_chars] in Hall. apply andb_true_iff in Hall. destruct Hall as [Hc _].
  apply is_digit_range in Hc.
  destruct c as [[] [] [] [] [] [] [] []]; try reflexivity;
    cbn in Hc; lia.
Qed.

(** [int] reads a string of fewer than [MAX_STR_DIGITS] digits. *)
Lemma int_short_digits (d : string) :
  isdigit d = true -> len d < MAX_STR_DIGITS ->
  exists w, int (PyStr d) = Some w /\ 0 <= w < 10 ^ len d.
Proof.
  intros Hd Hlen. rewrite (int_of_digits _ Hd). unfold digits_checked.
  pose proof (digit_count_le_len d) as Hc.
  assert (E : (MAX_STR_DIGITS <? digit_count d) = false)
    by (apply Z.ltb_ge; lia).
  rewrite E. unfold isdigit in Hd. apply andb_true_iff in Hd.
  destruct Hd as [Hne Hall].
  destruct (digits_value_digits d 0 false Hall (or_intror Hne)) as (w & Hw & Ew).
  exists w. rewrite Ew. split; [f_equal; lia|exact Hw].
Qed.

Lemma digits_no_hash (s : string) :
  all_chars is_digit s = true -> occurrences App.HASH s = 0%nat.
Proof.
  induction s as [|c s IH]; [reflexivity|]. cbn [all_chars occurrences].
  intros H. apply andb_true_iff in H. destruct H as [Hc Hs].
  rewrite (IH Hs). apply is_digit_range in Hc.
  destruct (Ascii.eqb_spec c App.HASH) as [->|]; [|reflexivity].
  cbn in Hc. lia.
Qed.

Lemma split_aux_none (c : ascii) (s : string) :
  occurrences c s = 0%nat -> split_aux c s = (s, []).
Proof.
  induction s as [|d s IH]; [reflexivity|]. cbn [occurrences split_aux].
  destruct (Ascii.eqb d c); [discriminate|]. intros H.
  rewrite (IH H). reflexivity.
Qed.

(** The last field of a string is what follows its last separator. *)
Lemma split_aux_last (c : ascii) (s : string) :
  occurrences c s = 0%nat ->
  forall a : string,
    List.last (snd (split_aux c (a ++ String c s))) EmptyString = s
    /\ snd (split_aux c (a ++ String c s)) <> [].
Proof.
  intros Hs. induction a as [|d a [IH1 IH2]].
  - rewrite append_nil_l. cbn [split_aux]. rewrite (split_aux_none _ _ Hs).
    rewrite Ascii.eqb_refl. split; [reflexivity|discriminate].
  - rewrite append_cons. cbn [split_aux].
    destruct (split_aux c (a ++ String c s)) as [cur rest]. cbn [snd] in *.
    destruct (Ascii.eqb d c); cbn [snd].
    + split; [|discriminate].
      destruct rest as [|x rest]; [contradiction|exact IH1].
    + split; assumption.
Qed.

Lemma last_field_split (c : ascii) (a s : string) :
  occurrences c s = 0%nat -> last_field (split c (a ++ String c s)) = s.
Proof.
  intros Hs. destruct (split_aux_last c s Hs a) as [H1 H2].
  unfold last_field, split.
  destruct (split_aux c (a ++ String c s)) as [cur rest]. cbn [snd] in *.
  destruct rest as [|x rest]; [contradiction|exact H1].
Qed.

(** A string with a separator ends with the separator and its last
    field. *)
Lemma split_aux_decomp (c : ascii) (s : string) :
  occurrences c s <> 0%nat ->
  (exists pre,
      s = (pre ++ String c (List.last (snd (split_aux c s)) EmptyString))%string)
  /\ snd (split_aux c s) <> [].
Proof.
  induction s as [|d s IH]; [intros H; contradiction H; reflexivity|].
  cbn [occurrences split_aux]. intros Hocc.
  destruct (Nat.eq_dec (occurrences c s) 0%nat) as [E0|E0].
  - rewrite (split_aux_none _ _ E0).
    destruct (Ascii.eqb_spec d c) as [->|Hne];
      [|rewrite E0 in Hocc; contradiction Hocc; reflexivity].
    cbn [snd List.last]. split; [|discriminate].
    exists EmptyString. reflexivity.
  - destruct (IH E0) as [(pre & Hpre) Hrest].
    destruct (split_aux c s) as [cur rest]. cbn [snd] in *.
    destruct (Ascii.eqb d c) eqn:Edc; cbn [snd].
    + split; [|discriminate]. exists (String d pre).
      rewrite append_cons. f_equal.
      destruct rest as [|x rest]; [contradiction|exact Hpre].
    + split; [|exact Hrest]. exists (String d pre).
      rewrite append_cons. f_equal. exact Hpre.
Qed.

Lemma last_field_decomp (c : ascii) (s : string) :
  occurrences c s <> 0%nat ->
  exists pre, s = (pre ++ String c (last_field (split c s)))%string.
Proof.
  intros H. destruct (split_aux_decomp c s H) as [(pre & Hpre) Hrest].
  exists pre. unfold last_field, split.
  destruct (split_aux c s) as [cur rest]. cbn [snd] in *.
  destruct rest as [|x rest]; [contradiction|exact Hpre].
Qed.

Lemma split_aux_len (c : ascii) (s : string) :
  len (fst (split_aux c s)) <= len s
  /\ Forall (fun x => len x <= len s) (snd (split_aux c s)).
Proof.
  induction s as [|d s [IH1 IH2]]; [split; [cbn; lia|constructor]|].
  cbn [split_aux]. destruct (split_aux c s) as [cur rest]. cbn [fst snd] in *.
  rewrite len_cons.
  assert (Hrest : Forall (fun x => len x <= len s + 1) rest).
  { eapply List.Forall_impl; [|exact IH2]. cbn. intros x Hx. lia. }
  destruct (Ascii.eqb d c); cbn [fst snd].
  - split; [pose proof (len_nonneg s); change (len EmptyString) with 0; lia|].
    constructor; [lia|exact Hrest].
  - split; [rewrite len_cons; lia|exact Hrest].
Qed.

Lemma last_field_len (c : ascii) (s : string) :
  len (last_field (split c s)) <= len s.
Proof.
  destruct (split_aux_len c s) as [H1 H2].
  unfold last_field, split.
  destruct (split_aux c s) as [cur rest]. cbn [fst snd] in *.
  assert (H : Forall (fun x => len x <= len s) (cur :: rest))
    by (constructor; assumption).
  clear H1 H2. revert H. generalize (cur :: rest). intros l Hl.
  induction Hl as [|x l Hx Hl IH]; [cbn; apply len_nonneg|].
  cbn [List.last]. destruct l; [exact Hx|exact IH].
Qed.

Lemma prefix_occurrences (c : ascii) (p s : string) :
  String.prefix p s = true -> (occurrences c p <= occurrences c s)%nat.
Proof.
  revert s. induction p as [|a p IH]; intros s; [cbn; lia|].
  destruct s as [|b s]; [discriminate|]. cbn [String.prefix occurrences].
  destruct (ascii_dec a b) as [->|]; [|discriminate].
  intros H. specialize (IH _ H). lia.
Qed.

Lemma startswith_app (p s : string) : startswith p (p ++ s) = true.
Proof.
  unfold startswith. induction p as [|c p IH]; [destruct s; reflexivity|].
  rewrite append_cons. cbn [String.prefix].
  destruct (ascii_dec c c) as [_|N]; [exact IH|contradiction].
Qed.

(** ** The numbers of the titles *)

(** On a title of fewer than [MAX_STR_DIGITS] characters, [untitled_num]
    returns the number of the note, if it has one. *)
Lemma untitled_num_spec (r : Note) :
  len (default EmptyString (title r)) < MAX_STR_DIGITS ->
  exists v,
    App.untitled_num r = Some v
    /\ (forall m, In m v <-> numbered r m)
    /\ (forall m, In m v -> 0 <= m < 10 ^ (MAX_STR_DIGITS - 1)).
Proof.
  intros Hshort. unfold App.untitled_num, numbered. cbv zeta.
  set (t := default EmptyString (title r)) in *.
  pose proof (last_field_len App.HASH t) as Hlen.
  destruct (startswith "Untitled note #" t) eqn:Es.
  2:{ exists []. split; [reflexivity|]. split; [|intros m []].
      intros m. split; [intros []|].
      intros (pre & d & _ & H & _). discriminate H. }
  assert (Hocc : occurrences App.HASH t <> 0%nat).
  { pose proof (prefix_occurrences App.HASH _ _ Es) as H.
    change (occurrences App.HASH "Untitled note #") with 1%nat in H. lia. }
  destruct (last_field_decomp App.HASH t Hocc) as (pre & Hpre).
  destruct (isdigit (last_field (split App.HASH t))) eqn:Ed.
  - destruct (int_short_digits _ Ed ltac:(lia)) as (w & Ew & Hw).
    rewrite Ew. exists [w]. split; [reflexivity|]. split.
    + intros m. split.
      * intros [<-|[]]. exists pre, (last_field (split App.HASH t)).
        split; [exact Hpre|]. split; [reflexivity|]. split; assumption.
      * intros (pre' & d & Ht & _ & Hd & Hm). left.
        assert (E : last_field (split App.HASH t) = d).
        { rewrite Ht. apply last_field_split, digits_no_hash.
          unfold isdigit in Hd. apply andb_true_iff in Hd. apply Hd. }
        rewrite E in Ew. congruence.
    + intros m [<-|[]]. split; [lia|].
      eapply Z.lt_le_trans; [apply Hw|].
      apply Z.pow_le_mono_r; lia.
  - exists []. split; [reflexivity|]. split; [|intros m []].
    intros m. split; [intros []|].
    intros (pre' & d & Ht & _ & Hd & _).
    assert (E : last_field (split App.HASH t) = d).
    { rewrite Ht. apply last_field_split, digits_no_hash.
      unfold isdigit in Hd. apply andb_true_iff in Hd. apply Hd. }
    rewrite E in Ed. congruence.
Qed.

Lemma untitled_nums_spec (l : list Note) :
  short_titles l ->
  exists nums,
    App.untitled_nums l = Some nums
    /\ (forall m, In m nums <-> in_use l m)
    /\ (forall m, In m nums -> 0 <= m < 10 ^ (MAX_STR_DIGITS - 1)).
Proof.
  unfold short_titles, in_use.
  induction 1 as [|r l Hr _ (nums & E & Hin & Hb)].
  - exists []. split; [reflexivity|]. split; [|intros m []].
    intros m. split; [intros []|intros (r & [] & _)].
  - destruct (untitled_num_spec r Hr) as (v & Ev & Hv & Hvb).
    exists (v ++ nums)%list. cbn [App.untitled_nums]. rewrite Ev, E.
    split; [reflexivity|]. split.
    + intros m. rewrite in_app_iff, Hv, Hin. split.
      * intros [H|(r' & Hr' & H)]; [exists r|exists r'];
          (split; [|exact H]); [left; reflexivity|right; exact Hr'].
      * intros (r' & [<-|Hr'] & H); [left; exact H|right; exists r'].
        split; assumption.
    + intros m Hm. apply in_app_or in Hm.
      destruct Hm as [Hm|Hm]; [exact (Hvb m Hm)|exact (Hb m Hm)].
Qed.

Lemma max_of_bounds (v : list Z) :
  forall x,
    (forall y, In y (x :: v) -> y <= App.max_of x v)
    /\ In (App.max_of x v) (x :: v).
Proof.
  unfold App.max_of.
  induction v as [|z v IH]; intros x; cbn [fold_left].
  - split; [intros y [<-|[]]; lia|left; reflexivity].
  - destruct (IH (Z.max x z)) as [H1 H2]. split.
    + intros y [<-|[<-|Hy]].
      * specialize (H1 (Z.max x z) (or_introl eq_refl)). lia.
      * specialize (H1 (Z.max x z) (or_introl eq_refl)). lia.
      * apply H1. right. exact Hy.
    + destruct H2 as [H2|H2]; [|right; right; exact H2].
      rewrite <- H2. destruct (Z.max_spec x z) as [[_ ->]|[_ ->]];
        [right; left|left]; reflexivity.
Qed.

(** [next_idx] is 1 on no number, one above the greatest otherwise. *)
Lemma next_idx_spec (nums : list Z) :
  (forall m, In m nums -> m < App.next_idx nums)
  /\ (nums = [] /\ App.next_idx nums = 1 \/ In (App.next_idx nums - 1) nums).
Proof.
  destruct nums as [|x v]; [split; [intros m []|left; split; reflexivity]|].
  cbn [App.next_idx]. destruct (max_of_bounds v x) as [H1 H2]. split.
  - intros m Hm. specialize (H1 m Hm). lia.
  - right. replace (App.max_of x v + 1 - 1) with (App.max_of x v) by lia.
    exact H2.
Qed.

(** The title of a note of number [n]. *)
Lemma numbered_numeral (r : Note) (n : Z) :
  0 < n ->
  title r = Some ("Untitled note #" ++ numeral n)%string ->
  len (default EmptyString (title r)) < MAX_STR_DIGITS ->
  numbered r n.
Proof.
  intros Hn Ht Hb. destruct n as [|q|q]; try lia.
  destruct (str_N_reads (Npos q) ltac:(lia)) as (Hall & Hne & Hval).
  exists "Untitled note ", (str_N (N.pos q)).
  rewrite Ht in *. cbn [default from_option numeral] in *.
  unfold Datatypes.id in *.
  split; [reflexivity|]. split; [apply startswith_app|].
  assert (Hd : isdigit (str_N (N.pos q)) = true).
  { unfold isdigit. rewrite Hne, Hall. reflexivity. }
  split; [exact Hd|].
  rewrite (int_of_digits _ Hd). unfold digits_checked.
  rewrite len_app in Hb.
  pose proof (len_nonneg "Untitled note #") as Hp.
  pose proof (digit_count_le_len (str_N (N.pos q))) as Hc.
  assert (E : (MAX_STR_DIGITS <? digit_count (str_N (N.pos q))) = false)
    by (apply Z.ltb_ge; lia).
  rewrite E. exact Hval.
Qed.

Lemma numbered_normalized (r : Note) (m : Z) :
  numbered (normalized r) m <-> numbered r m.
Proof.
  unfold numbered.
  assert (E : default EmptyString (title (normalized r))
              = default EmptyString (title r))
    by (destruct r as [i dt [t|] x g q]; reflexivity).
  rewrite E. reflexivity.
Qed.

Lemma listed_all (fs : Files) :
  Z.of_nat (length (rows fs)) <= 9999 ->
  listed fs = sort_values_desc (map normalized (rows fs)).
Proof.
  intros Hlen. unfold listed. rewrite head_nonneg by lia.
  apply firstn_all2.
  rewrite (Permutation_length (sort_values_desc_perm _)), length_map. lia.
Qed.

Lemma in_use_listed (fs : Files) (m : Z) :
  Z.of_nat (length (rows fs)) <= 9999 ->
  in_use (listed fs) m <-> in_use (rows fs) m.
Proof.
  intros Hlen. rewrite (listed_all fs Hlen). unfold in_use. split.
  - intros (r & Hr & Hm).
    apply (Permutation_in _ (sort_values_desc_perm _)) in Hr.
    apply in_map_iff in Hr. destruct Hr as (r0 & <- & Hr0).
    exists r0. split; [exact Hr0|]. apply numbered_normalized. exact Hm.
  - intros (r & Hr & Hm). exists (normalized r). split.
    + apply (Permutation_in _ (Permutation_sym (sort_values_desc_perm _))).
      apply in_map. exact Hr.
    + apply numbered_normalized. exact Hm.
Qed.

Lemma short_titles_listed (fs : Files) :
  Z.of_nat (length (rows fs)) <= 9999 ->
  short_titles (rows fs) -> short_titles (listed fs).
Proof.
  intros Hlen Hs. rewrite (listed_all fs Hlen). unfold short_titles in *.
  apply List.Forall_forall. intros r Hr.
  apply (Permutation_in _ (sort_values_desc_perm _)) in Hr.
  apply in_map_iff in Hr. destruct Hr as (r0 & <- & Hr0).
  rewrite List.Forall_forall in Hs. specialize (Hs r0 Hr0).
  destruct r0 as [i dt [t|] x g q]; exact Hs.
Qed.

(** The generated title, on a table of short titles. *)
Lemma next_title_spec (fs : Files) :
  short_titles (rows fs) ->
  Z.of_nat (length (rows fs)) <= 9999 ->
  exists n,
    App.next_title (listed fs) = Some ("Untitled note #" ++ numeral n)%string
    /\ 1 <= n
    /\ (forall m, in_use (rows fs) m -> m < n)
    /\ ((forall m, ~ in_use (rows fs) m) /\ n = 1 \/ in_use (rows fs) (n - 1))
    /\ (forall r, In r (rows fs) ->
          title r <> Some ("Untitled note #" ++ numeral n)%string).
Proof.
  intros Hshort Hlen.
  destruct (untitled_nums_spec _ (short_titles_listed fs Hlen Hshort))
    as (nums & E & Hin & Hb).
  destruct (next_idx_spec nums) as [Hnew Hmax].
  set (n := App.next_idx nums) in *.
  assert (Hn : 1 <= n <= 10 ^ (MAX_STR_DIGITS - 1)).
  { destruct Hmax as [[_ ->]|Hm].
    - split; [lia|].
      assert (0 < 10 ^ (MAX_STR_DIGITS - 1))
        by (apply Z.pow_pos_nonneg; unfold MAX_STR_DIGITS; lia).
      lia.
    - specialize (Hb _ Hm). lia. }
  assert (Huse : forall m, in_use (rows fs) m -> m < n).
  { intros m Hm. apply Hnew, Hin, (in_use_listed fs m Hlen). exact Hm. }
  exists n. split; [|split; [lia|split; [exact Huse|split]]].
  - unfold App.next_title. rewrite E. fold n. unfold str.
    assert (Hc : digit_count (numeral n) <= MAX_STR_DIGITS).
    { apply numeral_digits; [|unfold MAX_STR_DIGITS; lia].
      split; [lia|]. eapply Z.le_lt_trans; [apply Hn|].
      apply Z.pow_lt_mono_r; unfold MAX_STR_DIGITS; lia. }
    assert (Ec : (MAX_STR_DIGITS <? digit_count (numeral n)) = false)
      by (apply Z.ltb_ge; exact Hc).
    rewrite Ec. reflexivity.
  - destruct Hmax as [[-> Hn1]|Hm].
    + left. split; [|exact Hn1]. intros m Hm.
      apply (in_use_listed fs m Hlen), Hin in Hm. exact Hm.
    + right. apply (in_use_listed fs _ Hlen), Hin. exact Hm.
  - intros r Hr Ht.
    unfold short_titles in Hshort. rewrite List.Forall_forall in Hshort.
    assert (Hnum : numbered r n)
      by (apply numbered_numeral; [lia|exact Ht|exact (Hshort r Hr)]).
    assert (Hu : in_use (rows fs) n) by (exists r; split; assumption).
    specialize (Huse n Hu). lia.
Qed.

Lemma digits_value_nonneg (s : string) :
  forall (a : Z) (b : bool) (v : Z),
    0 <= a -> digits_value a b s = Some v -> 0 <= v.
Proof.
  induction s as [|c s IH]; intros a b v Ha; cbn [digits_value].
  - destruct b; [|discriminate]. intros [= <-]. exact Ha.
  - destruct (is_digit c) eqn:Ec.
    + apply IH. apply is_digit_range in Ec. unfold digit_val. lia.
    + destruct (Ascii.eqb c "_"); [|discriminate].
      destruct b; [|discriminate]. apply IH. exact Ha.
Qed.

Lemma untitled_num_nonneg (r : Note) (w : list Z) (v : Z) :
  App.untitled_num r = Some w -> In v w -> 0 <= v.
Proof.
  unfold App.untitled_num. cbv zeta.
  destruct (startswith _ _); [|intros [= <-] []].
  destruct (isdigit _) eqn:Hd; [|intros [= <-] []].
  rewrite (int_of_digits _ Hd). unfold digits_checked.
  destruct (MAX_STR_DIGITS <? _); [discriminate|].
  destruct (digits_value 0 false _) as [x|] eqn:Ex; [|discriminate].
  intros [= <-] [<-|[]]. eapply digits_value_nonneg; [|exact Ex]. lia.
Qed.

Lemma untitled_nums_nonneg (l : list Note) :
  forall (nums : list Z) (v : Z),
    App.untitled_nums l = Some nums -> In v nums -> 0 <= v.
Proof.
  induction l as [|r l IH]; intros nums v; cbn [App.untitled_nums].
  - intros [= <-] [].
  - destruct (App.untitled_num r) as [w|] eqn:Ew; [|discriminate].
    destruct (App.untitled_nums l) as [ws|]; [|discriminate].
    intros [= <-] Hv. apply in_app_or in Hv. destruct Hv as [Hv|Hv].
    + exact (untitled_num_nonneg r w v Ew Hv).
    + exact (IH ws v eq_refl Hv).
Qed.

Lemma rstrip_app_digits (p d : string) :
  all_chars is_digit d = true -> truthy d = true ->
  rstrip (p ++ d) = (p ++ d)%string.
Proof.
  intros Hall Hne. induction p as [|c p IH].
  - rewrite append_nil_l. apply rstrip_digits. exact Hall.
  - rewrite append_cons. cbn [rstrip]. rewrite IH.
    destruct (p ++ d)%string eqn:E; [|reflexivity].
    destruct p; [rewrite append_nil_l in E; subst d; discriminate Hne|].
    rewrite append_cons in E. discriminate E.
Qed.

Lemma digit_clean (c : ascii) : is_digit c = true -> clean_char c = true.
Proof.
  intros H. apply is_digit_range in H. unfold clean_char.
  apply orb_true_iff. left. apply orb_true_iff. left.
  apply andb_true_iff. split; apply N.leb_le; lia.
Qed.

(** A generated title is plain. *)
Lemma plain_auto_title (n : Z) :
  1 <= n -> plain ("Untitled note #" ++ numeral n) = true.
Proof.
  intros Hn. destruct n as [|q|q]; try lia. cbn [numeral].
  destruct (str_N_reads (Npos q) ltac:(lia)) as (Hall & Hne & _).
  set (d := str_N (N.pos q)) in *. unfold plain.
  apply andb_true_iff. split; [apply andb_true_iff; split|].
  - rewrite all_chars_app.
    rewrite (all_chars_impl _ _ d digit_clean Hall). reflexivity.
  - change ("Untitled note #" ++ d)%string
      with (String "U" ("ntitled note #" ++ d)).
    reflexivity.
  - unfold strip.
    change ("Untitled note #" ++ d)%string
      with (String "U" ("ntitled note #" ++ d)).
    change (lstrip (String "U" ("ntitled note #" ++ d)))
      with (String "U" ("ntitled note #" ++ d)).
    change (String "U" ("ntitled note #" ++ d))
      with ("Untitled note #" ++ d)%string.
    rewrite (rstrip_app_digits _ _ Hall Hne).
    change ("Untitled note #" ++ d)%string
      with (String "U" ("ntitled note #" ++ d)).
    reflexivity.
Qed.

Lemma next_title_plain (l : list Note) (t : string) :
  App.next_title l = Some t -> plain t = true.
Proof.
  unfold App.next_title.
  destruct (App.untitled_nums l) as [nums|] eqn:E; [|discriminate].
  unfold str. destruct (MAX_STR_DIGITS <? _); [discriminate|].
  intros [= <-]. apply plain_auto_title.
  destruct (next_idx_spec nums) as [_ [[_ ->]|Hin]]; [lia|].
  pose proof (untitled_nums_nonneg l nums _ E Hin). lia.
Qed.

(** X18: on a legible table of at most 9999 rows whose titles have fewer
    than 4300 characters, the generation of a title returns
    [Untitled note #n], where [n] is 1 when no number is in use and one
    above the greatest number in use otherwise; that title is the title
    of no row of the table. *)
Theorem auto_title_is_new (fs : Files) :
  legible (rows fs) ->
  short_titles (rows fs) ->
  Z.of_nat (length (rows fs)) <= 9999 ->
  exists n,
    App.auto_title fs
    = (Returns ("Untitled note #" ++ numeral n)%string,
       mkFiles (Some (rows fs)) (Some (stats fs)))
    /\ 1 <= n
    /\ (forall m, in_use (rows fs) m -> m < n)
    /\ ((forall m, ~ in_use (rows fs) m) /\ n = 1 \/ in_use (rows fs) (n - 1))
    /\ (forall r, In r (rows fs) ->
          title r <> Some ("Untitled note #" ++ numeral n)%string).
Proof.
  intros _ Hshort Hlen.
  destruct (next_title_spec fs Hshort Hlen) as (n & E & H).
  exists n. split; [|exact H].
  unfold App.auto_title, bind. rewrite list_notes_eq.
  fold (listed fs). rewrite E. reflexivity.
Qed.

End Numerals.

(** * The save paths of the application *)

Section AppSaves.
Import Py Storage Spec Ops.

(** The store once [ensure_files] has run. *)
Local Abbreviation ensured fs :=
  (mkFiles (Some (rows fs)) (Some (stats fs))).

Lemma xp_for_range (text : string) : 5 <= App.xp_for text <= 55.
Proof.
  unfold App.xp_for, len.
  assert (0 <= Z.of_nat (String.length text) / 20)
    by (apply Z.div_pos; lia).
  lia.
Qed.

Lemma int64_small (x : Z) : 5 <= x <= 55 -> int64 x = true.
Proof.
  intros H. unfold int64. apply andb_true_iff.
  split; [apply Z.leb_le|apply Z.ltb_lt]; lia.
Qed.

Lemma sum_xp_map_same (f : Note -> Note) (df : list Note) :
  (forall r, xp (f r) = xp r) -> sum_xp (map f df) = sum_xp df.
Proof.
  intros Hf. induction df as [|r df IH]; [reflexivity|].
  cbn [map sum_xp fold_right]. rewrite Hf. unfold sum_xp in IH. rewrite IH.
  reflexivity.
Qed.

Lemma bind_eq {A B : Type} (m : M A) (k : A -> M B) (fs : Files) :
  bind m k fs
  = match m fs with
    | (Returns a, fs') => k a fs'
    | (Raises e, fs') => (Raises e, fs')
    end.
Proof. reflexivity. Qed.

Lemma plain_not_empty (s : string) : plain s = true -> s <> EmptyString.
Proof. intros H ->. discriminate (plain_truthy _ H). Qed.

Lemma plain_of_truthy (s : string) :
  plain_or_blank s = true -> truthy s = true -> plain s = true.
Proof.
  unfold plain_or_blank. intros H Ht. rewrite Ht in H. cbn [negb] in H.
  rewrite orb_false_r in H. exact H.
Qed.

Lemma steady_less (k : nat) (fs : Files) : steady (S k) fs -> steady k fs.
Proof.
  intros (Hh & Hl & Hr). split; [exact Hh|]. split; [exact Hl|].
  exact (proj1 (id_room_less _ _ Hr)).
Qed.

(** ** [update_note] on a steady store *)

Lemma update_rows_legible now n title text tags (df : list Note) :
  legible df ->
  plain title = true -> plain text = true -> plain_or_blank tags = true ->
  map reread
    (map (fun r => if id r =? n then edited now title text tags r else r) df)
  = map (fun r => if id r =? n then edited_row now title text tags r else r)
      df.
Proof.
  intros Hleg Ht Hx Hg. rewrite map_map. apply map_ext_in. intros r Hr.
  destruct (id r =? n).
  - unfold reread, edited, edited_row.
    cbn [id datetime Storage.title Storage.text Storage.tags xp].
    rewrite (reread_plain_cell (Some title) Ht),
      (reread_plain_cell (Some text) Hx), (reread_written _ Hg).
    reflexivity.
  - apply reread_legible_row. exact (legible_In _ _ Hleg Hr).
Qed.

Lemma legible_row_parts (r : Note) :
  legible_row r = true ->
  int64 (id r) = true
  /\ match xp r with Some x => int64 x | None => false end = true.
Proof.
  unfold legible_row. intros H.
  do 5 (apply andb_true_iff in H; destruct H as [H ?]).
  split; assumption.
Qed.

Lemma plain_written (s : string) :
  plain_or_blank s = true -> plain_cell (written s) = true.
Proof.
  intros H. unfold written. destruct (truthy s) eqn:E; [|reflexivity].
  exact (plain_of_truthy _ H E).
Qed.

Lemma legible_edited now n title text tags (df : list Note) :
  legible df -> Timestamp.valid now ->
  plain title = true -> plain text = true -> plain_or_blank tags = true ->
  legible
    (map (fun r => if id r =? n then edited_row now title text tags r else r)
       df).
Proof.
  intros Hleg Hv Ht Hx Hg. unfold legible. apply forallb_forall.
  intros r Hr. apply in_map_iff in Hr. destruct Hr as (r0 & <- & Hr0).
  pose proof (legible_In _ _ Hleg Hr0) as H0.
  destruct (id r0 =? n); [|exact H0].
  destruct (legible_row_parts _ H0) as [Hi Hq].
  unfold legible_row, edited_row.
  cbn [id datetime Storage.title Storage.text Storage.tags xp plain_cell].
  rewrite Hi, (iso_isoformat _ Hv), Ht, Hx, (plain_written _ Hg), Hq.
  reflexivity.
Qed.

Lemma healthy_edited now n title text tags fs :
  title <> EmptyString -> text <> EmptyString ->
  healthy fs ->
  healthy
    (mkFiles
       (Some (map (fun r => if id r =? n
                            then edited_row now title text tags r else r)
                (rows fs)))
       (Some (stats fs))).
Proof.
  intros Ht Hx ((Hnd & Hxp & Htot & Hn) & Hwf).
  set (f := fun r => if id r =? n then edited_row now title text tags r
                     else r).
  assert (Hid : forall r, id (f r) = id r)
    by (intros r; unfold f; destruct (id r =? n); reflexivity).
  assert (Hfx : forall r, xp (f r) = xp r)
    by (intros r; unfold f; destruct (id r =? n); reflexivity).
  unfold healthy, in_sync. rewrite rows_mk, stats_mk.
  rewrite map_map, (map_ext _ id Hid), sum_xp_map_same by exact Hfx.
  rewrite length_map.
  assert (Hxp' : Forall (fun r => exists x, xp r = Some x /\ 0 <= x)
                   (map f (rows fs))).
  { apply List.Forall_forall. intros r Hr.
    apply in_map_iff in Hr. destruct Hr as (r0 & <- & Hr0).
    rewrite Hfx. rewrite List.Forall_forall in Hxp. exact (Hxp r0 Hr0). }
  split; [exact (conj Hnd (conj Hxp' (conj Htot Hn)))|].
  apply List.Forall_forall. intros r Hr.
  apply in_map_iff in Hr. destruct Hr as (r0 & <- & Hr0).
  rewrite List.Forall_forall in Hwf.
  destruct (Hwf r0 Hr0) as (t & x & q & H1 & H2 & H3 & H4 & H5 & H6).
  unfold f. destruct (id r0 =? n).
  - exists title, text, q. cbn [edited_row Storage.title Storage.text xp].
    auto 10.
  - exists t, x, q. auto 10.
Qed.

(** On a store in good order every row has a title and a text, so that
    these columns hold strings once there is a row. *)
Lemma holds_str_healthy (n : Z) (df : list Note) :
  Forall well_formed df -> isin n df = true ->
  holds_str title df = true /\ holds_str text df = true.
Proof.
  intros Hwf Hin. apply isin_In, in_map_iff in Hin.
  destruct Hin as (r & _ & Hr).
  rewrite List.Forall_forall in Hwf.
  destruct (Hwf r Hr) as (t & x & q & Ht & _ & Hx & _).
  unfold holds_str. split; apply existsb_exists; exists r;
    (split; [exact Hr|]); [rewrite Ht|rewrite Hx]; reflexivity.
Qed.

Lemma steady_update now n title text tags xp0 fs (k : nat) :
  steady k fs -> Timestamp.valid now ->
  plain title = true -> plain text = true -> plain_or_blank tags = true ->
  steady k (snd (update_note now n title text tags xp0 fs))
  /\ (isin n (rows fs) = true -> holds_str Storage.tags (rows fs) = true ->
      update_note now n title text tags xp0 fs
      = (Returns true,
         mkFiles
           (Some (map (fun r => if id r =? n
                                then edited_row now title text tags r else r)
                    (rows fs)))
           (Some (stats fs)))).
Proof.
  intros (Hh & Hleg & Hroom) Hv Ht Hx Hg.
  rewrite update_note_eq.
  destruct (isin n (rows fs)) eqn:Ein.
  2:{ split; [|discriminate]. split; [exact Hh|]. split; assumption. }
  destruct (holds_str_healthy n _ (proj2 Hh) Ein) as [-> ->]. cbn [andb].
  rewrite (update_rows_legible now n title text tags _ Hleg Ht Hx Hg).
  assert (Hst : steady k
                  (mkFiles
                     (Some (map (fun r => if id r =? n
                                          then edited_row now title text tags r
                                          else r) (rows fs)))
                     (Some (stats fs)))).
  { split; [|split].
    - apply healthy_edited; [apply plain_not_empty..|]; assumption.
    - rewrite rows_mk. apply legible_edited; assumption.
    - rewrite rows_mk. apply (id_room_ids k (rows fs)); [|exact Hroom].
      rewrite map_map. apply map_ext. intros r.
      destruct (id r =? n); reflexivity. }
  destruct (holds_str Storage.tags (rows fs)).
  - split; [exact Hst|]. intros _ _. reflexivity.
  - split; [|intros _; discriminate].
    split; [exact Hh|]. split; assumption.
Qed.

(** ** [save_note] and [delete_note] on a steady store *)

Lemma steady_save now title text tags xp0 fs (k : nat) :
  steady (S k) fs -> Timestamp.valid now ->
  plain title = true -> plain text = true -> plain_or_blank tags = true ->
  5 <= xp0 <= 55 ->
  exists fs',
    save_note now title text tags xp0 fs = (Returns (next_id (rows fs)), fs')
    /\ rows fs'
       = (rows fs
          ++ [saved_row (next_id (rows fs)) now title text tags xp0])%list
    /\ steady k fs'.
Proof.
  intros ([Hs Hwf] & Hleg & Hroom) Hv Ht Hx Hg Hq.
  destruct (id_room_less _ _ Hroom) as [_ Hroom1].
  assert (Hsav : savable now title text tags xp0).
  { split; [exact Hv|]. split; [exact Ht|]. split; [exact Hx|].
    split; [exact Hg|]. apply int64_small. exact Hq. }
  destruct (save_note_legible now title text tags xp0 _ Hleg Hroom1 Hsav)
    as [E Hleg'].
  assert (Hstep := in_sync_step (Create now title text tags xp0) fs Hs).
  cbn [nonneg_xp step] in Hstep.
  destruct Hstep as [Hs' _]; [lia|].
  destruct Hs as (_ & _ & Htot & Hn).
  rewrite save_note_eq, Htot, Hn in *. cbv zeta in *. cbn [snd] in Hs'.
  rewrite E in *.
  eexists. split; [reflexivity|]. rewrite rows_mk. split; [reflexivity|].
  split; [split; [exact Hs'|]|split; [exact Hleg'|]].
  - rewrite rows_mk. apply List.Forall_app. split; [exact Hwf|].
    constructor; [|constructor].
    exists title, text, xp0. unfold saved_row.
    cbn [Storage.title Storage.text xp].
    repeat split; try lia; apply plain_not_empty; assumption.
  - rewrite rows_mk.
    apply (id_room_ids k (rows fs ++ [new_note now title text tags xp0
                                        (rows fs)])).
    + rewrite !map_app. reflexivity.
    + apply id_room_save. exact Hroom.
Qed.

Lemma steady_delete (v : pyval) (fs : Files) (k : nat) :
  steady k fs -> steady k (snd (delete_note v fs)).
Proof.
  intros ([Hs Hwf] & Hleg & Hroom).
  destruct (in_sync_step (Delete v) fs Hs I) as [Hs' _].
  cbn [step] in Hs'.
  assert (E : snd (let (o, fs') := delete_note v fs in
                   match o with
                   | Returns b => (Deleted b, fs')
                   | Raises e => (Failed e, fs')
                   end) = snd (delete_note v fs)).
  { destruct (delete_note v fs) as [[b|e] fs']; reflexivity. }
  rewrite E in Hs'. clear E.
  assert (Hrows : rows (snd (delete_note v fs)) = rows fs
                  \/ exists nid,
                       rows (snd (delete_note v fs))
                       = List.filter (fun r => negb (id r =? nid)) (rows fs)).
  { rewrite delete_note_eq.
    destruct (int v) as [nid|]; [|left; reflexivity].
    destruct (isin nid (rows fs)); [|left; reflexivity].
    right. exists nid. cbn [snd]. rewrite rows_mk.
    apply reread_legible, legible_filter. exact Hleg. }
  split; [split; [exact Hs'|]|].
  - destruct Hrows as [->|(nid & ->)]; [exact Hwf|].
    apply List.Forall_forall. intros r Hr. apply filter_In in Hr.
    rewrite List.Forall_forall in Hwf. apply Hwf, Hr.
  - destruct Hrows as [->|(nid & ->)]; [split; assumption|].
    split; [apply legible_filter|apply id_room_filter]; assumption.
Qed.

(** ** The save paths *)

Lemma update_or_create_steady ed now title text tags xp0 fs (k : nat) :
  steady (S k) fs -> Timestamp.valid now ->
  plain title = true -> plain text = true -> plain_or_blank tags = true ->
  5 <= xp0 <= 55 ->
  steady k (snd (App.update_or_create ed now title text tags xp0 fs))
  /\ (updatable ed (rows fs) ->
      exists ed' fs',
        App.update_or_create ed now title text tags xp0 fs = (Returns ed', fs')
        /\ shown ed' title text tags fs'
        /\ App.entry_title ed' = App.entry_title ed
        /\ App.txt_content ed' = App.txt_content ed
        /\ App.entry_tags ed' = App.entry_tags ed
        /\ App.is_modified ed' = App.is_modified ed
        /\ length (rows fs')
           = (length (rows fs)
              + match App.current_note_id ed with
                | Some cid => if isin cid (rows fs) then 0 else 1
                | None => 1
                end)%nat).
Proof.
  intros Hst Hv Ht Hx Hg Hq.
  assert (Hcreate : forall fs0 : Files,
             steady (S k) fs0 ->
             exists fs',
               bind (Storage.save_note now title text tags xp0)
                 (fun nid =>
                    ret (App.mkEditor (App.entry_title ed) (App.txt_content ed)
                           (App.entry_tags ed) (Some nid) (App.is_modified ed)))
                 fs0
               = (Returns
                    (App.mkEditor (App.entry_title ed) (App.txt_content ed)
                       (App.entry_tags ed) (Some (next_id (rows fs0)))
                       (App.is_modified ed)), fs')
               /\ steady k fs'
               /\ shown (App.mkEditor (App.entry_title ed) (App.txt_content ed)
                           (App.entry_tags ed) (Some (next_id (rows fs0)))
                           (App.is_modified ed)) title text tags fs'
               /\ length (rows fs') = (length (rows fs0) + 1)%nat).
  { intros fs0 Hst0.
    destruct (steady_save now title text tags xp0 fs0 k Hst0 Hv Ht Hx Hg Hq)
      as (fs' & Hsave & Hrows & Hst').
    exists fs'. unfold bind. rewrite Hsave. split; [reflexivity|].
    split; [exact Hst'|]. split.
    - exists (next_id (rows fs0)),
             (saved_row (next_id (rows fs0)) now title text tags xp0).
      rewrite Hrows. repeat split.
      apply in_or_app. right. left. reflexivity.
    - rewrite Hrows, length_app. reflexivity. }
  unfold App.update_or_create.
  destruct (App.current_note_id ed) as [cid|] eqn:Ecid.
  - rewrite !bind_eq.
    destruct (isin cid (rows fs)) eqn:Ein.
    + destruct (steady_update now cid title text tags xp0 fs k
                  (steady_less _ _ Hst) Hv Ht Hx Hg) as [Hu Hok].
      specialize (Hok Ein).
      destruct (update_note now cid title text tags xp0 fs)
        as [[b|e] fs1] eqn:Eu; cbn [snd] in Hu.
      * destruct b.
        -- split; [exact Hu|]. intros Hup.
           specialize (Hok (Hup cid Ecid Ein)). injection Hok as ->.
           eexists _, _. split; [reflexivity|].
           rewrite rows_mk, length_map. split; [|repeat split; lia].
           apply isin_In, in_map_iff in Ein. destruct Ein as (r0 & Hid & Hr0).
           exists cid, (edited_row now title text tags r0).
           split; [exact Ecid|]. split; [|repeat split; exact Hid].
           apply in_map_iff. exists r0. split; [|exact Hr0].
           apply Z.eqb_eq in Hid. rewrite Hid. reflexivity.
        -- rewrite update_note_eq, Ein in Eu.
           destruct (_ && _) in Eu; discriminate Eu.
      * split; [exact Hu|]. intros Hup.
        specialize (Hok (Hup cid Ecid Ein)). discriminate Hok.
    + rewrite update_note_eq, Ein. cbv beta iota.
      destruct (Hcreate (ensured fs) Hst) as (fs' & E & Hst' & Hs & Hl).
      rewrite E. split; [exact Hst'|]. intros _.
      eexists _, fs'. split; [reflexivity|].
      split; [exact Hs|]. repeat split. exact Hl.
  - destruct (Hcreate _ Hst) as (fs' & E & Hst' & Hs & Hl).
    rewrite E. split; [exact Hst'|]. intros _.
    eexists _, fs'. split; [reflexivity|].
    split; [exact Hs|]. repeat split. exact Hl.
Qed.

Lemma auto_title_eq (fs : Files) :
  App.auto_title fs
  = match App.next_title (listed fs) with
    | Some t => (Returns t, ensured fs)
    | None => (Raises ValueError, ensured fs)
    end.
Proof.
  unfold App.auto_title, bind. rewrite list_notes_eq. fold (listed fs).
  destruct (App.next_title (listed fs)); reflexivity.
Qed.

Lemma first_title_eq (ed : App.editor) (fs : Files) :
  (if negb (truthy (strip (App.entry_title ed)))
   then App.auto_title else ret (strip (App.entry_title ed))) fs
  = match filed_title ed fs with
    | Some t =>
        (Returns t, if truthy (strip (App.entry_title ed)) then fs
                    else ensured fs)
    | None => (Raises ValueError, ensured fs)
    end.
Proof.
  unfold filed_title. destruct (truthy (strip (App.entry_title ed))).
  - reflexivity.
  - cbn [negb]. apply auto_title_eq.
Qed.

Lemma filed_title_plain (ed : App.editor) (fs : Files) (t : string) :
  tidy ed -> filed_title ed fs = Some t -> plain t = true.
Proof.
  intros (Ht & _) E. unfold filed_title in E.
  destruct (truthy (strip (App.entry_title ed))) eqn:Et.
  - injection E as <-. exact (plain_of_truthy _ Ht Et).
  - exact (next_title_plain _ _ E).
Qed.

Lemma steady_first (ed : App.editor) (fs : Files) (k : nat) :
  steady k fs ->
  steady k (if truthy (strip (App.entry_title ed)) then fs else ensured fs).
Proof. intros H. destruct (truthy _); exact H. Qed.

Lemma rows_first (ed : App.editor) (fs : Files) :
  rows (if truthy (strip (App.entry_title ed)) then fs else ensured fs)
  = rows fs.
Proof. destruct (truthy _); reflexivity. Qed.

Lemma save_note_shows_row :
  forall (ed : App.editor) (now : Timestamp.t) (fs : Files) (title : string),
    healthy fs -> legible (rows fs) -> id_room 1 (rows fs) ->
    Timestamp.valid now -> tidy ed -> updatable ed (rows fs) ->
    truthy (strip (App.txt_content ed)) = true ->
    filed_title ed fs = Some title ->
    exists ed' fs',
      App.save_note ed now fs = (Returns ed', fs')
      /\ healthy fs' /\ legible (rows fs')
      /\ App.is_modified ed' = false
      /\ shown ed' title (strip (App.txt_content ed))
           (strip (App.entry_tags ed)) fs'
      /\ length (rows fs')
         = (length (rows fs)
            + match App.current_note_id ed with
              | Some cid => if isin cid (rows fs) then 0 else 1
              | None => 1
              end)%nat.
Proof.
  intros ed now fs title Hh Hleg Hroom Hv Htidy Hup Htext Etitle.
  pose proof (filed_title_plain ed fs title Htidy Etitle) as Ht.
  destruct Htidy as (_ & Hx & Hg).
  pose proof (plain_of_truthy _ Hx Htext) as Hpx.
  set (fs0 := if truthy (strip (App.entry_title ed)) then fs else ensured fs).
  assert (Hst0 : steady 1 fs0)
    by (apply steady_first; split; [exact Hh|split; assumption]).
  assert (Hup0 : updatable ed (rows fs0))
    by (unfold fs0; rewrite rows_first; exact Hup).
  destruct (update_or_create_steady ed now title
              (strip (App.txt_content ed)) (strip (App.entry_tags ed))
              (App.xp_for (strip (App.txt_content ed))) fs0 0 Hst0 Hv Ht Hpx Hg
              (xp_for_range _)) as [_ Hok].
  destruct (Hok Hup0)
    as (ed1 & fs1 & E1 & (cid & r & Hc & Hr & Hid & Hrt) & _ & _ & _ & _ & Hl).
  pose proof (update_or_create_steady ed now title
                (strip (App.txt_content ed)) (strip (App.entry_tags ed))
                (App.xp_for (strip (App.txt_content ed))) fs0 0 Hst0 Hv Ht Hpx
                Hg (xp_for_range _)) as [(Hh1 & Hleg1 & _) _].
  rewrite E1 in Hh1, Hleg1. cbn [snd] in Hh1, Hleg1.
  exists (App.saved ed1), (ensured fs1).
  split.
  { unfold App.save_note. unfold bind at 1. rewrite first_title_eq, Etitle.
    fold fs0. rewrite Htext. cbn [negb]. unfold bind at 1. rewrite E1.
    unfold bind at 1. rewrite list_notes_eq.
    unfold bind at 1. rewrite list_notes_eq. reflexivity. }
  split; [exact Hh1|]. split; [exact Hleg1|]. split; [reflexivity|]. split.
  - exists cid, r. repeat split; try apply Hrt; assumption.
  - rewrite rows_mk, Hl. unfold fs0. rewrite rows_first. reflexivity.
Qed.

(** X14: on a store in good order that is read as it was written, with
    room for one more id, a save from a tidy editor with a text that is
    not blank, at a calendar time and under a title that the editor gives
    or that the generation returns, returns when the note that the editor
    holds can be updated; afterwards the editor is not modified and holds
    the id of a row of the store that carries that title and the stripped
    text and tags of the editor; the store has one row more when the
    editor held no id, or the id of no row, and as many rows otherwise;
    and it is in good order and read as it was written again. *)
Theorem app_save_note_shows :
  forall (ed : App.editor) (now : Timestamp.t) (fs : Files) (title : string),
    healthy fs -> legible (rows fs) -> id_room 1 (rows fs) ->
    Timestamp.valid now -> tidy ed -> updatable ed (rows fs) ->
    truthy (strip (App.txt_content ed)) = true ->
    filed_title ed fs = Some title ->
    exists ed' fs',
      App.save_note ed now fs = (Returns ed', fs')
      /\ healthy fs' /\ legible (rows fs')
      /\ App.is_modified ed' = false
      /\ shown ed' title (strip (App.txt_content ed))
           (strip (App.entry_tags ed)) fs'
      /\ length (rows fs')
         = (length (rows fs)
            + match App.current_note_id ed with
              | Some cid => if isin cid (rows fs) then 0 else 1
              | None => 1
              end)%nat.
Proof. exact save_note_shows_row. Qed.

Lemma len_lt_3_blank (s : string) : truthy s = false -> (len s <? 3) = true.
Proof. destruct s; [reflexivity|discriminate]. Qed.

Lemma long_truthy (s : string) : 3 <= len s -> truthy s = true.
Proof.
  intros H. destruct s; [|reflexivity]. unfold len in H. cbn in H. lia.
Qed.

(** The autosave once its text is long enough. *)
Lemma save_note_silent_long (ed : App.editor) (now : Timestamp.t) (fs : Files) :
  3 <= len (strip (App.txt_content ed)) ->
  App.save_note_silent ed now fs
  = App.swallow ed
      (bind (if negb (truthy (strip (App.entry_title ed)))
             then App.auto_title else ret (strip (App.entry_title ed)))
         (fun title =>
            bind (App.update_or_create ed now title
                    (strip (App.txt_content ed)) (strip (App.entry_tags ed))
                    (App.xp_for (strip (App.txt_content ed))))
              (fun ed' => ret (App.saved ed'))))
      fs.
Proof.
  intros Hlong.
  assert (E : (len (strip (App.txt_content ed)) <? 3) = false)
    by (apply Z.ltb_ge; exact Hlong).
  unfold App.save_note_silent, App.swallow.
  rewrite (long_truthy _ Hlong), E. cbn [negb orb andb].
  rewrite andb_false_r. reflexivity.
Qed.

Lemma save_note_silent_cases :
  forall (ed : App.editor) (now : Timestamp.t) (fs : Files),
    (len (strip (App.txt_content ed)) < 3 ->
     App.save_note_silent ed now fs = (Returns ed, fs))
    /\ (forall title : string,
          3 <= len (strip (App.txt_content ed)) ->
          healthy fs -> legible (rows fs) -> id_room 1 (rows fs) ->
          Timestamp.valid now -> tidy ed -> updatable ed (rows fs) ->
          filed_title ed fs = Some title ->
          exists ed' fs',
            App.save_note_silent ed now fs = (Returns ed', fs')
            /\ healthy fs' /\ legible (rows fs')
            /\ App.is_modified ed' = false
            /\ shown ed' title (strip (App.txt_content ed))
                 (strip (App.entry_tags ed)) fs').
Proof.
  intros ed now fs. split.
  - intros Hshort. unfold App.save_note_silent, App.swallow.
    assert (E : (len (strip (App.txt_content ed)) <? 3) = true)
      by (apply Z.ltb_lt; exact Hshort).
    rewrite E, orb_true_r. reflexivity.
  - intros title Hlong Hh Hleg Hroom Hv Htidy Hup Etitle.
    pose proof (long_truthy _ Hlong) as Htext.
    pose proof (filed_title_plain ed fs title Htidy Etitle) as Ht.
    destruct Htidy as (_ & Hx & Hg).
    pose proof (plain_of_truthy _ Hx Htext) as Hpx.
    set (fs0 := if truthy (strip (App.entry_title ed)) then fs
                else ensured fs).
    assert (Hst0 : steady 1 fs0)
      by (apply steady_first; split; [exact Hh|split; assumption]).
    assert (Hup0 : updatable ed (rows fs0))
      by (unfold fs0; rewrite rows_first; exact Hup).
    destruct (update_or_create_steady ed now title
                (strip (App.txt_content ed)) (strip (App.entry_tags ed))
                (App.xp_for (strip (App.txt_content ed))) fs0 0 Hst0 Hv Ht Hpx
                Hg (xp_for_range _)) as [Hst1 Hok].
    destruct (Hok Hup0) as (ed1 & fs1 & E1 & Hshown & _).
    rewrite E1 in Hst1. cbn [snd] in Hst1.
    destruct Hst1 as (Hh1 & Hleg1 & _).
    exists (App.saved ed1), fs1. split.
    { rewrite (save_note_silent_long _ _ _ Hlong). unfold App.swallow.
      unfold bind at 1. rewrite first_title_eq, Etitle. fold fs0.
      unfold bind at 1. rewrite E1. reflexivity. }
    split; [exact Hh1|]. split; [exact Hleg1|]. split; [reflexivity|].
    destruct Hshown as (cid & r & H). exists cid, r. exact H.
Qed.

(** X15: the autosave does nothing, to the store or to the editor, when
    the stripped text has fewer than 3 characters; with 3 or more, under
    the conditions of the manual save, it saves as the manual save does:
    the editor is then not modified and holds the id of a row with its
    title, stripped text and tags, and the store is in good order and
    read as it was written. *)
Theorem autosave_threshold :
  forall (ed : App.editor) (now : Timestamp.t) (fs : Files),
    (len (strip (App.txt_content ed)) < 3 ->
     App.save_note_silent ed now fs = (Returns ed, fs))
    /\ (forall title : string,
          3 <= len (strip (App.txt_content ed)) ->
          healthy fs -> legible (rows fs) -> id_room 1 (rows fs) ->
          Timestamp.valid now -> tidy ed -> updatable ed (rows fs) ->
          filed_title ed fs = Some title ->
          exists ed' fs',
            App.save_note_silent ed now fs = (Returns ed', fs')
            /\ healthy fs' /\ legible (rows fs')
            /\ App.is_modified ed' = false
            /\ shown ed' title (strip (App.txt_content ed))
                 (strip (App.entry_tags ed)) fs').
Proof. exact save_note_silent_cases. Qed.

(** Whatever a save path does, the store stays steady. *)
Lemma steady_saving (ed : App.editor) (now : Timestamp.t) (fs : Files)
    (k : nat) :
  steady (S k) fs -> Timestamp.valid now -> tidy ed ->
  truthy (strip (App.txt_content ed)) = true ->
  forall (A : Type) (rest : App.editor -> M A),
    (forall ed' fs', steady k fs' -> steady k (snd (rest ed' fs'))) ->
    steady k
      (snd (bind (if negb (truthy (strip (App.entry_title ed)))
                  then App.auto_title else ret (strip (App.entry_title ed)))
              (fun title =>
                 bind (App.update_or_create ed now title
                         (strip (App.txt_content ed))
                         (strip (App.entry_tags ed))
                         (App.xp_for (strip (App.txt_content ed))))
                   rest)
              fs)).
Proof.
  intros Hst Hv Htidy Htext A rest Hrest.
  unfold bind at 1. rewrite first_title_eq.
  destruct (filed_title ed fs) as [title|] eqn:Etitle.
  2:{ cbn [snd]. exact (steady_less _ _ Hst). }
  pose proof (filed_title_plain ed fs title Htidy Etitle) as Ht.
  destruct Htidy as (_ & Hx & Hg).
  pose proof (plain_of_truthy _ Hx Htext) as Hpx.
  destruct (update_or_create_steady ed now title
              (strip (App.txt_content ed)) (strip (App.entry_tags ed))
              (App.xp_for (strip (App.txt_content ed))) _ k
              (steady_first ed fs _ Hst) Hv Ht Hpx Hg (xp_for_range _))
    as [Hst1 _].
  unfold bind.
  destruct (App.update_or_create ed now title _ _ _ _) as [[ed1|e] fs1];
    cbn [snd] in Hst1 |- *; [|exact Hst1].
  apply Hrest. exact Hst1.
Qed.

Lemma steady_react (e : event) (fs : Files) (k : nat) :
  tidy_event e -> steady (S k) fs -> steady k (react e fs).
Proof.
  intros He Hst. destruct e as [ed now|ed now|nid]; cbn [react tidy_event] in *.
  - destruct He as [Hv Htidy].
    destruct (truthy (strip (App.txt_content ed))) eqn:Et.
    + assert (E : App.save_note ed now fs
                  = bind (if negb (truthy (strip (App.entry_title ed)))
                          then App.auto_title
                          else ret (strip (App.entry_title ed)))
                      (fun title =>
                         bind (App.update_or_create ed now title
                                 (strip (App.txt_content ed))
                                 (strip (App.entry_tags ed))
                                 (App.xp_for (strip (App.txt_content ed))))
                           (fun ed' =>
                              bind (list_notes 200)
                                (fun _ => bind (list_notes 8)
                                            (fun _ => ret (App.saved ed')))))
                      fs).
      { unfold App.save_note. rewrite Et. reflexivity. }
      rewrite E. apply steady_saving; try assumption.
      intros ed' fs' Hst'. unfold bind. rewrite !list_notes_eq.
      cbn [snd ret]. exact Hst'.
    + unfold App.save_note. unfold bind at 1. rewrite first_title_eq, Et.
      destruct (filed_title ed fs); cbn [negb snd ret];
        [apply steady_first|]; exact (steady_less _ _ Hst).
  - destruct He as [Hv Htidy].
    destruct (Z.lt_ge_cases (len (strip (App.txt_content ed))) 3) as [Hs|Hl].
    + rewrite (proj1 (save_note_silent_cases ed now fs) Hs).
      exact (steady_less _ _ Hst).
    + rewrite (save_note_silent_long _ _ _ Hl).
      pose proof (steady_saving ed now fs k Hst Hv Htidy (long_truthy _ Hl)
                    App.editor (fun ed' => ret (App.saved ed'))
                    (fun ed' fs' H => H)) as H.
      unfold App.swallow.
      destruct (bind _ _ fs) as [[ed1|e1] fs1]; exact H.
  - apply steady_delete. exact (steady_less _ _ Hst).
Qed.

Lemma healthy_initial : healthy initial.
Proof. split; [apply in_sync_initial|constructor]. Qed.

Lemma well_formed_sum (df : list Note) :
  Forall well_formed df ->
  5 * Z.of_nat (length df) <= sum_xp df <= 55 * Z.of_nat (length df).
Proof.
  induction 1 as [|r df (t & x & q & _ & _ & _ & _ & Hq & Hr) _ IH].
  - cbn. lia.
  - change (sum_xp (r :: df)) with (default 0 (xp r) + sum_xp df).
    rewrite Hq. cbn [default from_option length]. unfold Datatypes.id. lia.
Qed.

(** X16: whatever the user saves, lets the autosave save and deletes, in
    whatever order, from the initial store, with tidy editors at calendar
    times, and whether or not a call raises: [total_xp] is the sum of the
    [xp] of the notes and [notes_created] their number, no two notes share
    an id, every note has a title and a text that are not empty and an
    [xp] from 5 to 55, so that [total_xp] lies between 5 and 55 times the
    number of notes, and the table is read as it was written. *)
Theorem app_keeps_store_in_order :
  forall es : list event,
    Forall tidy_event es ->
    Z.of_nat (length es) < 2 ^ 63 ->
    let fs := react_all es initial in
    total_xp (stats fs) = Some (sum_xp (rows fs))
    /\ notes_created (stats fs) = Some (Z.of_nat (length (rows fs)))
    /\ unique_ids fs
    /\ Forall well_formed (rows fs)
    /\ 5 * Z.of_nat (length (rows fs)) <= sum_xp (rows fs)
       <= 55 * Z.of_nat (length (rows fs))
    /\ legible (rows fs).
Proof.
  intros es Hes Hlen.
  assert (H : forall fs0, steady (length es) fs0 ->
                          steady 0 (react_all es fs0)).
  { clear Hlen. induction Hes as [|e es He _ IH]; intros fs0 H0; [exact H0|].
    cbn [react_all fold_left]. apply IH. apply steady_react; assumption. }
  assert (H0 : steady (length es) initial).
  { split; [exact healthy_initial|]. split; [reflexivity|].
    apply id_room_spec. split; [exact Hlen|intros r []]. }
  destruct (H initial H0) as (((Hnd & _ & Ht & Hn) & Hwf) & Hleg & _).
  cbv zeta. split; [exact Ht|]. split; [exact Hn|]. split; [exact Hnd|].
  split; [exact Hwf|]. split; [apply well_formed_sum; exact Hwf|exact Hleg].
Qed.

Lemma save_note_silent_raising (ed : App.editor) (now : Timestamp.t)
    (fs : Files) :
  total_xp (stats fs) = None \/ notes_created (stats fs) = None ->
  App.current_note_id ed = None ->
  3 <= len (strip (App.txt_content ed)) ->
  tidy ed -> truthy (strip (App.entry_title ed)) = true ->
  legible (rows fs) -> id_room 1 (rows fs) -> Timestamp.valid now ->
  exists fs',
    App.save_note_silent ed now fs = (Returns ed, fs')
    /\ rows fs'
       = (rows fs
          ++ [saved_row (next_id (rows fs)) now (strip (App.entry_title ed))
                (strip (App.txt_content ed)) (strip (App.entry_tags ed))
                (App.xp_for (strip (App.txt_content ed)))])%list
    /\ stats fs' = stats fs
    /\ legible (rows fs').
Proof.
  intros Hmiss Hnone Hlong (Ht & Hx & Hg) Htitle Hleg Hroom Hv.
  assert (Hsav : savable now (strip (App.entry_title ed))
                   (strip (App.txt_content ed)) (strip (App.entry_tags ed))
                   (App.xp_for (strip (App.txt_content ed)))).
  { split; [exact Hv|]. split; [exact (plain_of_truthy _ Ht Htitle)|].
    split; [exact (plain_of_truthy _ Hx (long_truthy _ Hlong))|].
    split; [exact Hg|]. apply int64_small, xp_for_range. }
  destruct (save_note_raises fs now _ _ _ _ Hleg Hroom Hsav Hmiss)
    as (fs' & Eraise & Hrows & Hst & Hleg').
  exists fs'. split.
  { rewrite (save_note_silent_long _ _ _ Hlong). unfold App.swallow.
    unfold bind at 1. rewrite Htitle. cbn [negb ret].
    unfold App.update_or_create. rewrite Hnone.
    unfold bind at 1. unfold bind at 1. rewrite Eraise. reflexivity. }
  split; [exact Hrows|]. split; [exact Hst|exact Hleg'].
Qed.

(** X17: while a counter is missing from [stats.json], an autosave of a
    note that a tidy editor with a title has not saved yet writes the
    row, fails on the statistics and gives the editor back as it was,
    without an id: on a table that is read as it was written, with room
    for the ids, every further run at a calendar time writes the note
    once more, so that the table grows by one row at each run, each with
    the title, text and tags of the editor, and the statistics stay as
    they were. *)
Theorem autosave_repeats_on_key_error :
  forall (ed : App.editor) (nows : list Timestamp.t) (fs : Files),
    total_xp (stats fs) = None \/ notes_created (stats fs) = None ->
    App.current_note_id ed = None ->
    3 <= len (strip (App.txt_content ed)) ->
    tidy ed -> truthy (strip (App.entry_title ed)) = true ->
    legible (rows fs) -> id_room (length nows) (rows fs) ->
    Forall Timestamp.valid nows ->
    (forall now, In now nows ->
                 fst (App.save_note_silent ed now fs) = Returns ed)
    /\ length (rows (ticks ed nows fs)) = (length (rows fs) + length nows)%nat
    /\ (exists added,
          rows (ticks ed nows fs) = (rows fs ++ added)%list
          /\ Forall (fun r =>
                       Storage.title r = Some (strip (App.entry_title ed))
                       /\ Storage.text r = Some (strip (App.txt_content ed))
                       /\ Storage.tags r = written (strip (App.entry_tags ed)))
               added)
    /\ stats (ticks ed nows fs) = stats fs
    /\ legible (rows (ticks ed nows fs)).
Proof.
  intros ed nows fs Hmiss Hnone Hlong Htidy Htitle Hleg Hroom Hvs. split.
  { intros now Hnow.
    assert (Hv : Timestamp.valid now)
      by (rewrite List.Forall_forall in Hvs; exact (Hvs now Hnow)).
    assert (Hroom1 : id_room 1 (rows fs)).
    { destruct nows as [|x nows]; [contradiction|].
      exact (proj2 (id_room_less _ _ Hroom)). }
    destruct (save_note_silent_raising ed now fs Hmiss Hnone Hlong Htidy
                Htitle Hleg Hroom1 Hv) as (fs' & E & _).
    rewrite E. reflexivity. }
  revert fs Hmiss Hleg Hroom.
  induction Hvs as [|now nows Hv _ IH]; intros fs Hmiss Hleg Hroom.
  - cbn [ticks fold_left length]. split; [lia|]. split; [|split; trivial].
    exists []. split; [symmetry; apply app_nil_r|constructor].
  - cbn [length] in Hroom. destruct (id_room_less _ _ Hroom) as [_ Hroom1].
    destruct (save_note_silent_raising ed now fs Hmiss Hnone Hlong Htidy
                Htitle Hleg Hroom1 Hv)
      as (fs' & E & Hrows & Hst & Hleg').
    cbn [ticks fold_left]. rewrite E. cbn [snd].
    assert (Hmiss' : total_xp (stats fs') = None
                     \/ notes_created (stats fs') = None)
      by (rewrite Hst; exact Hmiss).
    assert (Hroom' : id_room (length nows) (rows fs')).
    { rewrite Hrows.
      apply (id_room_ids _ (rows fs
                            ++ [new_note now (strip (App.entry_title ed))
                                  (strip (App.txt_content ed))
                                  (strip (App.entry_tags ed))
                                  (App.xp_for (strip (App.txt_content ed)))
                                  (rows fs)])).
      - rewrite !map_app. reflexivity.
      - apply id_room_save. exact Hroom. }
    destruct (IH fs' Hmiss' Hleg' Hroom') as (Hlen & (added & Hadd & Hall)
                                              & Hstats & Hlegt).
    unfold ticks in *. rewrite Hlen, Hstats, Hrows, length_app, Hst.
    cbn [length]. split; [lia|]. split; [|split; [reflexivity|exact Hlegt]].
    exists (saved_row (next_id (rows fs)) now (strip (App.entry_title ed))
              (strip (App.txt_content ed)) (strip (App.entry_tags ed))
              (App.xp_for (strip (App.txt_content ed))) :: added).
    split.
    + rewrite Hadd, Hrows, <- app_assoc. reflexivity.
    + constructor; [|exact Hall]. repeat split.
Qed.

End AppSaves.

(** * Chunks of a long text *)

Section Chunks.
Import Py Storage Spec Ops.

Lemma join_snoc (sep : string) (v : list string) (p : string) :
  v <> [] -> join sep (v ++ [p]) = (join sep v ++ sep ++ p)%string.
Proof.
  induction v as [|x v IH]; [contradiction|]. intros _.
  destruct v as [|y v]; [reflexivity|].
  change (join sep ((x :: y :: v) ++ [p]))
    with (x ++ sep ++ join sep ((y :: v) ++ [p]))%string.
  rewrite IH by discriminate.
  change (join sep (x :: y :: v)) with (x ++ sep ++ join sep (y :: v))%string.
  rewrite !append_assoc. reflexivity.
Qed.

Lemma join_last (sep : string) (v : list string) (c x : string) :
  join sep (v ++ [(c ++ x)%string]) = (join sep (v ++ [c]) ++ x)%string.
Proof.
  induction v as [|y v IH]; [reflexivity|].
  change (join sep ((y :: v) ++ [(c ++ x)%string]))
    with (join sep (y :: (v ++ [(c ++ x)%string]))).
  change (join sep ((y :: v) ++ [c])) with (join sep (y :: (v ++ [c]))).
  destruct v as [|z v].
  - cbn [app join]. rewrite !append_assoc. reflexivity.
  - cbn [app join] in *. rewrite IH, !append_assoc. reflexivity.
Qed.

Lemma paras_truthy (text p : string) :
  In p (App.paras text) -> truthy p = true.
Proof.
  unfold App.paras. intros H. apply List.filter_In in H. destruct H as [_ H].
  destruct p; [discriminate H|reflexivity].
Qed.

Lemma chunk_step_inv (max_chars : Z) (ps read : list string)
    (st : list string * string) (p : string) :
  truthy p = true -> In p ps ->
  chunk_inv max_chars ps read st ->
  chunk_inv max_chars ps (read ++ [p]) (App.chunk_step max_chars st p).
Proof.
  intros Hp Hin [HA HB]. destruct st as [chunks cur]. cbn [fst snd] in *.
  assert (Hnew : chunk_ok max_chars ps p) by (split; [exact Hp|left; exact Hin]).
  assert (Hread : (read ++ [p])%list <> []) by (destruct read; discriminate).
  unfold App.chunk_step.
  destruct HB as [(-> & -> & ->)|(Hne & [Hcur Hsize] & Hjoin)].
  - destruct (_ <? _); cbn [truthy fst snd];
      (split; [constructor|right; auto]).
  - rewrite Hcur. destruct (len cur + len p + 2 <? max_chars) eqn:Hfit.
    + apply Z.ltb_lt in Hfit. split; [exact HA|right]. cbn [fst snd].
      split; [exact Hread|]. split.
      * split; [destruct cur; [discriminate Hcur|reflexivity]|right].
        rewrite !len_app. change (len App.BLANK) with 2. lia.
      * rewrite join_last, Hjoin, join_snoc by exact Hne. reflexivity.
    + split; cbn [fst snd].
      * apply List.Forall_app. split; [exact HA|].
        constructor; [split; assumption|constructor].
      * right. split; [exact Hread|]. split; [exact Hnew|].
        rewrite join_snoc by (destruct chunks; discriminate).
        rewrite Hjoin, join_snoc by exact Hne. reflexivity.
Qed.

Lemma chunk_loop_inv (max_chars : Z) (ps : list string) :
  forall (todo read : list string) (st : list string * string),
    (forall p, In p todo -> truthy p = true /\ In p ps) ->
    chunk_inv max_chars ps read st ->
    chunk_inv max_chars ps (read ++ todo)
      (fold_left (App.chunk_step max_chars) todo st).
Proof.
  induction todo as [|p todo IH]; intros read st Htodo Hinv.
  - rewrite app_nil_r. exact Hinv.
  - cbn [fold_left].
    replace (read ++ p :: todo)%list with ((read ++ [p]) ++ todo)%list
      by (rewrite <- app_assoc; reflexivity).
    apply IH; [intros q Hq; apply Htodo; right; exact Hq|].
    destruct (Htodo p (or_introl eq_refl)) as [Hp Hin].
    apply chunk_step_inv; assumption.
Qed.

Lemma chunk_text_inv (text : string) (max_chars : Z) :
  chunk_inv max_chars (App.paras text) (App.paras text)
    (fold_left (App.chunk_step max_chars) (App.paras text)
       ([], EmptyString)).
Proof.
  apply (chunk_loop_inv max_chars (App.paras text) (App.paras text) []).
  - intros p Hp. split; [exact (paras_truthy _ _ Hp)|exact Hp].
  - split; [constructor|left; auto].
Qed.

(** X19: the chunks of [_chunk_text], joined by blank lines, are the
    paragraphs of the text joined by blank lines: no paragraph is lost,
    cut or moved. *)
Theorem chunk_text_joins (text : string) (max_chars : Z) :
  join App.BLANK (App._chunk_text text max_chars)
  = join App.BLANK (App.paras text).
Proof.
  unfold App._chunk_text. pose proof (chunk_text_inv text max_chars) as [_ HB].
  destruct (fold_left _ _ _) as [chunks cur]. cbn [fst snd] in HB.
  destruct HB as [(-> & -> & ->)|(_ & [Hcur _] & Hjoin)]; [reflexivity|].
  rewrite Hcur. exact Hjoin.
Qed.

(** X20: a chunk of [_chunk_text] is never empty, and it is shorter than
    [max_chars] unless it is a single paragraph of the text. *)
Theorem chunk_text_sizes (text : string) (max_chars : Z) (c : string) :
  In c (App._chunk_text text max_chars) ->
  c <> EmptyString /\ (In c (App.paras text) \/ len c < max_chars).
Proof.
  unfold App._chunk_text. pose proof (chunk_text_inv text max_chars) as [HA HB].
  destruct (fold_left _ _ _) as [chunks cur]. cbn [fst snd] in HA, HB.
  assert (Hok : forall d, chunk_ok max_chars (App.paras text) d ->
                  d <> EmptyString
                  /\ (In d (App.paras text) \/ len d < max_chars)).
  { intros d [Hd Hs]. split; [intros ->; discriminate Hd|exact Hs]. }
  rewrite List.Forall_forall in HA.
  destruct HB as [(_ & -> & ->)|(_ & Hcur & _)]; [intros []|].
  destruct Hcur as [Hcur Hs]. rewrite Hcur. intros Hc.
  apply in_app_or in Hc. destruct Hc as [Hc|[<-|[]]].
  - apply Hok, HA, Hc.
  - apply Hok. split; assumption.
Qed.

End Chunks.

(** * Keywords by frequency *)

Section Keywords.
Import Py QuizGen Ops.

Lemma dict_get_set (w k : string) (v : Z) (freq : dict) :
  dict_get k (dict_set w v freq)
  = if String.eqb w k then Some v else dict_get k freq.
Proof.
  induction freq as [|[k' c] f IH]; cbn [dict_set dict_get].
  - destruct (String.eqb w k); reflexivity.
  - destruct (String.eqb_spec k' w) as [->|Hne]; cbn [dict_get].
    + destruct (String.eqb w k); reflexivity.
    + destruct (String.eqb_spec k' k) as [->|Hk].
      * destruct (String.eqb_spec w k) as [->|_]; [contradiction|reflexivity].
      * exact IH.
Qed.

Lemma dict_set_keys (w : string) (v : Z) (freq : dict) (x : string) :
  In x (map fst (dict_set w v freq)) -> x = w \/ In x (map fst freq).
Proof.
  induction freq as [|[k' c] f IH]; cbn [dict_set map fst In].
  - intros [<-|[]]. left. reflexivity.
  - destruct (String.eqb k' w); cbn [map fst In]; [tauto|].
    intros [H|H]; [tauto|]. destruct (IH H); tauto.
Qed.

Lemma dict_set_NoDup (w : string) (v : Z) (freq : dict) :
  List.NoDup (map fst freq) -> List.NoDup (map fst (dict_set w v freq)).
Proof.
  induction freq as [|[k' c] f IH]; cbn [dict_set map fst]; intros H.
  - constructor; [intros []|constructor].
  - inversion H as [|? ? Hk Hf]; subst.
    destruct (String.eqb_spec k' w) as [->|Hne]; cbn [map fst].
    + constructor; assumption.
    + constructor; [|exact (IH Hf)]. intros Hin.
      apply dict_set_keys in Hin. destruct Hin as [->|Hin]; contradiction.
Qed.

Lemma dict_get_keys (k : string) (freq : dict) :
  In k (map fst freq) <-> dict_get k freq <> None.
Proof.
  induction freq as [|[k' c] f IH]; cbn [map fst In dict_get].
  - split; [intros []|intros H; apply H; reflexivity].
  - destruct (String.eqb_spec k' k) as [->|Hne].
    + split; [discriminate|left; reflexivity].
    + rewrite <- IH. split; [intros [H|H]; [contradiction|exact H]|tauto].
Qed.

Lemma dict_get_In (k : string) (c : Z) (freq : dict) :
  List.NoDup (map fst freq) -> In (k, c) freq -> dict_get k freq = Some c.
Proof.
  induction freq as [|[k' c'] f IH]; cbn [map fst In dict_get]; [intros _ []|].
  intros H [E|Hin]; inversion H as [|? ? Hk Hf]; subst.
  - injection E as -> ->. rewrite String.eqb_refl. reflexivity.
  - destruct (String.eqb_spec k' k) as [->|_]; [|exact (IH Hf Hin)].
    exfalso. apply Hk. apply (in_map fst) in Hin. exact Hin.
Qed.

Lemma times_nonneg (w : string) (l : list string) : 0 <= times w l.
Proof. unfold times. lia. Qed.

Lemma times_snoc (k w : string) (l : list string) :
  times k (l ++ [w]) = times k l + (if String.eqb w k then 1 else 0).
Proof.
  unfold times. rewrite count_occ_app. cbn [count_occ].
  destruct (string_dec w k) as [->|Hne].
  - rewrite String.eqb_refl. lia.
  - apply String.eqb_neq in Hne. rewrite Hne. lia.
Qed.

Lemma times_pos (k : string) (l : list string) : 0 < times k l <-> In k l.
Proof.
  unfold times. rewrite (count_occ_In string_dec). lia.
Qed.

Lemma mem_In (w : string) (stop : list string) :
  mem w stop = true <-> In w stop.
Proof.
  unfold mem. rewrite existsb_exists. split.
  - intros (x & Hx & E). apply String.eqb_eq in E. subst. exact Hx.
  - intros H. exists w. split; [exact H|apply String.eqb_refl].
Qed.

Lemma times_kept (stop : list string) (k : string) (l : list string) :
  mem k stop = false -> times k (kept stop l) = times k l.
Proof.
  intros Hk. unfold times, kept. f_equal.
  induction l as [|w l IH]; [reflexivity|]. cbn [List.filter count_occ].
  destruct (string_dec w k) as [->|Hne].
  - rewrite Hk. cbn [negb count_occ].
    destruct (string_dec k k); [|contradiction]. rewrite IH. reflexivity.
  - destruct (negb (mem w stop)); [cbn [count_occ]|exact IH].
    destruct (string_dec w k); [contradiction|exact IH].
Qed.

Lemma count_word_counted (stop read : list string) (freq : dict)
    (w : string) :
  counted stop read freq ->
  counted stop (read ++ [w]) (count_word stop freq w).
Proof.
  intros [Hnd Hget]. unfold counted, count_word.
  assert (Hk : kept stop (read ++ [w])
               = if mem w stop then kept stop read
                 else (kept stop read ++ [w])%list).
  { unfold kept. rewrite List.filter_app. cbn [List.filter].
    destruct (mem w stop); cbn [negb]; rewrite ?app_nil_r; reflexivity. }
  rewrite Hk. destruct (mem w stop) eqn:Hw.
  - split; assumption.
  - split; [apply dict_set_NoDup; exact Hnd|].
    intros k. rewrite dict_get_set, times_snoc.
    pose proof (times_nonneg k (kept stop read)) as Hk0.
    destruct (String.eqb_spec w k) as [->|Hne].
    + rewrite Hget.
      destruct (Z.ltb_spec 0 (times k (kept stop read)));
        destruct (Z.ltb_spec 0 (times k (kept stop read) + 1));
        cbn [default]; unfold Datatypes.id; try lia; f_equal; lia.
    + rewrite Hget, Z.add_0_r. reflexivity.
Qed.

Lemma count_loop_counted (stop : list string) :
  forall (todo read : list string) (freq : dict),
    counted stop read freq ->
    counted stop (read ++ todo) (fold_left (count_word stop) todo freq).
Proof.
  induction todo as [|w todo IH]; intros read freq H.
  - rewrite app_nil_r. exact H.
  - cbn [fold_left].
    replace (read ++ w :: todo)%list with ((read ++ [w]) ++ todo)%list
      by (rewrite <- app_assoc; reflexivity).
    apply IH, count_word_counted, H.
Qed.

Lemma count_words_counted (stop words : list string) :
  counted stop words (fold_left (count_word stop) words []).
Proof.
  apply (count_loop_counted stop words [] []).
  split; [constructor|]. intros k. reflexivity.
Qed.

Lemma insert_item_perm (x : string * Z) (l : list (string * Z)) :
  Permutation (insert_item x l) (x :: l).
Proof.
  induction l as [|y l IH]; cbn [insert_item]; [reflexivity|].
  destruct (key_lt y x); [|reflexivity].
  rewrite IH. apply perm_swap.
Qed.

Lemma sorted_perm (l : list (string * Z)) : Permutation (sorted l) l.
Proof.
  induction l as [|x l IH]; cbn [sorted fold_right]; [reflexivity|].
  fold (sorted l). rewrite insert_item_perm. constructor. exact IH.
Qed.

Lemma key_lt_counts (a b : string * Z) :
  (key_lt a b = true -> snd b <= snd a)
  /\ (key_lt a b = false -> snd a <= snd b).
Proof.
  unfold key_lt. split; intros H.
  - apply orb_true_iff in H. destruct H as [H|H].
    + apply Z.ltb_lt in H. lia.
    + apply andb_true_iff in H. destruct H as [H _]. apply Z.eqb_eq in H. lia.
  - apply orb_false_iff in H. destruct H as [H _]. apply Z.ltb_ge in H. lia.
Qed.

Lemma insert_item_sorted (x : string * Z) (l : list (string * Z)) :
  StronglySorted (fun a b => snd b <= snd a) l ->
  StronglySorted (fun a b => snd b <= snd a) (insert_item x l).
Proof.
  induction l as [|y l IH]; cbn [insert_item]; intros H.
  - constructor; constructor.
  - inversion H as [|? ? Hl Hy]; subst.
    destruct (key_lt y x) eqn:E.
    + constructor; [exact (IH Hl)|].
      apply List.Forall_forall. intros z Hz.
      apply (Permutation_in _ (insert_item_perm x l)) in Hz.
      destruct Hz as [<-|Hz].
      * apply (proj1 (key_lt_counts y x) E).
      * rewrite List.Forall_forall in Hy. exact (Hy z Hz).
    + constructor; [exact H|].
      pose proof (proj2 (key_lt_counts y x) E) as Hyx.
      constructor; [exact Hyx|].
      rewrite List.Forall_forall in Hy |- *. intros z Hz.
      specialize (Hy z Hz). cbn beta in *. lia.
Qed.

Lemma sorted_sorted (l : list (string * Z)) :
  StronglySorted (fun a b => snd b <= snd a) (sorted l).
Proof.
  induction l as [|x l IH]; cbn [sorted fold_right]; [constructor|].
  apply insert_item_sorted. exact IH.
Qed.

Lemma StronglySorted_map_in {A B} (R : A -> A -> Prop) (R' : B -> B -> Prop)
    (f : A -> B) (l : list A) :
  (forall a b, In a l -> In b l -> R a b -> R' (f a) (f b)) ->
  StronglySorted R l -> StronglySorted R' (map f l).
Proof.
  induction l as [|x l IH]; intros HR H; cbn [map]; [constructor|].
  inversion H as [|? ? Hl Hx]; subst. constructor.
  - apply IH; [|exact Hl]. intros a b Ha Hb. apply HR; right; assumption.
  - rewrite List.Forall_forall in Hx |- *. intros y Hy.
    apply in_map_iff in Hy. destruct Hy as (z & <- & Hz).
    apply HR; [left; reflexivity|right; exact Hz|exact (Hx z Hz)].
Qed.

Lemma StronglySorted_app_inv {A} (R : A -> A -> Prop) (l1 l2 : list A) :
  StronglySorted R (l1 ++ l2) ->
  StronglySorted R l1 /\ forall a b, In a l1 -> In b l2 -> R a b.
Proof.
  induction l1 as [|x l1 IH]; cbn [app]; intros H.
  - split; [constructor|intros a b []].
  - inversion H as [|? ? Hl Hx]; subst. destruct (IH Hl) as [H1 H2].
    rewrite List.Forall_forall in Hx. split.
    + constructor; [exact H1|]. apply List.Forall_forall. intros y Hy.
      apply Hx. apply in_or_app. left. exact Hy.
    + intros a b [<-|Ha] Hb; [|exact (H2 a b Ha Hb)].
      apply Hx. apply in_or_app. right. exact Hb.
Qed.

Lemma slice_to_firstn {A} (n : Z) (v : list A) :
  exists k, AiUtils.slice_to n v = firstn k v.
Proof.
  unfold AiUtils.slice_to. destruct (0 <=? n); eexists; reflexivity.
Qed.

(** The items that [extract_keywords] cuts its answer from. *)
Lemma ranking (lib : option nltk) (text : string) :
  let words := _tokenize_words lib (lower text) in
  let full :=
    map fst (sorted (fold_left (count_word (stop_words lib)) words [])) in
  List.NoDup full
  /\ (forall k, In k full <-> In k words /\ ~ In k (stop_words lib))
  /\ StronglySorted (fun a b => times b words <= times a words) full.
Proof.
  intros words full. subst full.
  set (stop := stop_words lib).
  destruct (count_words_counted stop words) as [Hnd Hget].
  set (freq := fold_left (count_word stop) words []) in *.
  assert (Hperm : Permutation (map fst (sorted freq)) (map fst freq))
    by (apply Permutation_map, sorted_perm).
  assert (Hin : forall k, In k (map fst freq)
                          <-> In k words /\ ~ In k stop).
  { intros k. rewrite dict_get_keys, Hget.
    pose proof (times_pos k (kept stop words)) as Hp.
    unfold kept in Hp at 2. rewrite List.filter_In, negb_true_iff in Hp.
    rewrite <- (mem_In k stop).
    destruct (Z.ltb_spec 0 (times k (kept stop words))) as [H|H].
    - split; [intros _|discriminate].
      destruct (proj1 Hp H) as [H1 H2]. split; [exact H1|congruence].
    - split; [intros N; contradiction N; reflexivity|].
      intros [H1 H2]. apply not_true_is_false in H2.
      pose proof (proj2 Hp (conj H1 H2)). lia. }
  split; [|split].
  - apply (Permutation_NoDup (Permutation_sym Hperm)). exact Hnd.
  - intros k. rewrite <- Hin. split; apply Permutation_in;
      [exact Hperm|exact (Permutation_sym Hperm)].
  - apply (StronglySorted_map_in (fun a b => snd b <= snd a));
      [|apply sorted_sorted].
    assert (Hc : forall a, In a (sorted freq) -> snd a = times (fst a) words).
    { intros [k c] Ha. cbn [fst snd].
      apply (Permutation_in _ (sorted_perm freq)) in Ha.
      pose proof (dict_get_In k c freq Hnd Ha) as Hk. rewrite Hget in Hk.
      assert (Hkin : In k (map fst freq)) by (apply (in_map fst) in Ha; exact Ha).
      apply Hin in Hkin. destruct Hkin as [_ Hs].
      rewrite <- mem_In in Hs. apply not_true_is_false in Hs.
      rewrite (times_kept stop k words Hs) in Hk.
      destruct (0 <? times k words); congruence. }
    intros a b Ha Hb. rewrite (Hc a Ha), (Hc b Hb). tauto.
Qed.

Lemma slice_to_In {A} (n : Z) (v : list A) (a : A) :
  In a (AiUtils.slice_to n v) -> In a v.
Proof.
  destruct (slice_to_firstn n v) as [m ->]. intros H.
  rewrite <- (firstn_skipn m). apply in_or_app. left. exact H.
Qed.

Lemma keywords_sound_aux (lib : option nltk) (text : string) (n : Z)
    (k : string) :
  In k (extract_keywords lib text n) ->
  In k (_tokenize_words lib (lower text)) /\ ~ In k (stop_words lib).
Proof.
  destruct (ranking lib text) as (_ & Hin & _). cbv zeta in *.
  unfold extract_keywords. intros Hk. apply Hin.
  exact (slice_to_In _ _ _ Hk).
Qed.

(** X21: the keywords of [extract_keywords] are distinct words of the
    text that are no stop words, whatever NLTK gives. *)
Theorem keywords_sound (lib : option nltk) (text : string) (n : Z) :
  List.NoDup (extract_keywords lib text n)
  /\ forall k, In k (extract_keywords lib text n) ->
       In k (_tokenize_words lib (lower text)) /\ ~ In k (stop_words lib).
Proof.
  destruct (ranking lib text) as (Hnd & Hin & _). cbv zeta in *.
  unfold extract_keywords.
  destruct (slice_to_firstn n
              (map fst (sorted (fold_left (count_word (stop_words lib))
                                  (_tokenize_words lib (lower text)) []))))
    as [m ->].
  split.
  - rewrite <- (firstn_skipn m) in Hnd. apply List.NoDup_app_remove_r in Hnd.
    exact Hnd.
  - intros k Hk. apply Hin.
    rewrite <- (firstn_skipn m). apply in_or_app. left. exact Hk.
Qed.

(** X22: the keywords come in the order of their frequency in the text,
    the most frequent word first. *)
Theorem keywords_ranked (lib : option nltk) (text : string) (n : Z) :
  StronglySorted
    (fun a b => times b (_tokenize_words lib (lower text))
                <= times a (_tokenize_words lib (lower text)))
    (extract_keywords lib text n).
Proof.
  destruct (ranking lib text) as (_ & _ & Hs). cbv zeta in *.
  unfold extract_keywords.
  destruct (slice_to_firstn n
              (map fst (sorted (fold_left (count_word (stop_words lib))
                                  (_tokenize_words lib (lower text)) []))))
    as [m ->].
  rewrite <- (firstn_skipn m) in Hs.
  exact (proj1 (StronglySorted_app_inv _ _ _ Hs)).
Qed.

(** X23: a word of the text that is no stop word and no keyword is at
    most as frequent as every keyword. *)
Theorem keywords_top (lib : option nltk) (text : string) (n : Z)
    (w k : string) :
  In w (_tokenize_words lib (lower text)) ->
  ~ In w (stop_words lib) ->
  ~ In w (extract_keywords lib text n) ->
  In k (extract_keywords lib text n) ->
  times w (_tokenize_words lib (lower text))
  <= times k (_tokenize_words lib (lower text)).
Proof.
  destruct (ranking lib text) as (_ & Hin & Hs). cbv zeta in *.
  unfold extract_keywords.
  destruct (slice_to_firstn n
              (map fst (sorted (fold_left (count_word (stop_words lib))
                                  (_tokenize_words lib (lower text)) []))))
    as [m ->].
  intros Hw Hstop Hout Hk.
  assert (Hfull := proj2 (Hin w) (conj Hw Hstop)).
  rewrite <- (firstn_skipn m) in Hs, Hfull.
  apply in_app_or in Hfull. destruct Hfull as [Hfull|Hfull]; [contradiction|].
  exact (proj2 (StronglySorted_app_inv _ _ _ Hs) k w Hk Hfull).
Qed.

End Keywords.

(** * Quiz from the stored notes *)

Section Quiz.
Import Py Storage QuizGen Spec Ops.

Lemma alpha_not_space (c : ascii) :
  is_upper c || is_lower c = true -> isspace c = false.
Proof.
  unfold is_upper, is_lower, isspace. cbv zeta.
  rewrite orb_true_iff, !andb_true_iff, !N.leb_le. intros H.
  apply orb_false_iff. split; [apply orb_false_iff; split|].
  - apply andb_false_iff. right. apply N.leb_gt. lia.
  - apply andb_false_iff. right. apply N.leb_gt. lia.
  - apply N.eqb_neq. lia.
Qed.

Lemma lower_char_alpha (c : ascii) :
  is_upper c || is_lower c = true ->
  let c' := if is_upper c then ascii_of_N (N_of_ascii c + 32) else c in
  is_upper c' || is_lower c' = true.
Proof.
  intros H. cbv zeta. destruct (is_upper c) eqn:Eu; [|rewrite Eu; exact H].
  apply orb_true_iff. right. unfold is_upper in Eu. unfold is_lower.
  cbv zeta in *. apply andb_true_iff in Eu. rewrite !N.leb_le in Eu.
  rewrite N_ascii_embedding by lia.
  apply andb_true_iff. rewrite !N.leb_le. lia.
Qed.

Lemma lower_alpha (w : string) : isalpha w = true -> isalpha (lower w) = true.
Proof.
  unfold isalpha. intros H. apply andb_true_iff in H. destruct H as [Hne Hall].
  apply andb_true_iff. split; [destruct w; [discriminate Hne|reflexivity]|].
  clear Hne. induction w as [|c w IH]; [reflexivity|].
  cbn [all_chars lower] in *. apply andb_true_iff in Hall.
  destruct Hall as [Hc Hw]. apply andb_true_iff. split; [|exact (IH Hw)].
  exact (lower_char_alpha c Hc).
Qed.

Lemma tokens_alpha (lib : option nltk) (text w : string) :
  In w (_tokenize_words lib text) -> isalpha w = true.
Proof.
  assert (H : forall ws, In w (map lower (List.filter isalpha ws)) ->
                         isalpha w = true).
  { intros ws Hw. apply in_map_iff in Hw. destruct Hw as (x & <- & Hx).
    apply List.filter_In in Hx. apply lower_alpha, Hx. }
  unfold _tokenize_words. destruct lib as [l|]; [|apply H].
  destruct (word_tokenize l text); apply H.
Qed.

Lemma strip_alpha (w : string) : isalpha w = true -> strip w = w.
Proof.
  unfold isalpha. intros H. apply andb_true_iff in H. destruct H as [_ Hall].
  assert (Hr : rstrip w = w).
  { induction w as [|c w IH]; [reflexivity|]. cbn [all_chars rstrip] in *.
    apply andb_true_iff in Hall. destruct Hall as [Hc Hw].
    rewrite (IH Hw). destruct w; [|reflexivity].
    rewrite (alpha_not_space _ Hc). reflexivity. }
  unfold strip. destruct w as [|c w]; [reflexivity|].
  cbn [all_chars] in Hall. apply andb_true_iff in Hall. destruct Hall as [Hc _].
  cbn [lstrip]. rewrite (alpha_not_space _ Hc). exact Hr.
Qed.

Lemma head_In (limit : Z) (df : list Note) (r : Note) :
  In r (head limit df) -> In r df.
Proof.
  assert (Hk : forall k, In r (firstn k df) -> In r df).
  { intros k H. rewrite <- (firstn_skipn k df). apply in_or_app. left.
    exact H. }
  unfold head. destruct (0 <=? limit); apply Hk.
Qed.

(** What a question of the quiz is made of, with [notes] the notes that
    the loop reads. *)
Lemma questions_of_from (lib : option nltk) (max_q : Z) (P : item -> Prop) :
  forall (notes : list Note) (questions : list item),
    (forall note kw rest,
       In note notes ->
       10 <= len (strip (default EmptyString (Storage.text note))) ->
       extract_keywords lib (default EmptyString (Storage.text note)) 2
       = kw :: rest ->
       P (mkItem (strip (sub_first kw "_____"
                           (default EmptyString (Storage.text note))))
            (strip kw))) ->
    (forall q, In q questions -> P q) ->
    forall q, In q (questions_of lib max_q notes questions) -> P q.
Proof.
  induction notes as [|note notes IH]; intros questions Hstep Hqs;
    cbn [questions_of]; [exact Hqs|].
  assert (Hrest : forall qs', (forall q, In q qs' -> P q) ->
            forall q, In q (questions_of lib max_q notes qs') -> P q).
  { intros qs' Hqs'. apply IH; [|exact Hqs'].
    intros n kw rest Hn. apply Hstep. right. exact Hn. }
  cbv zeta.
  destruct (Z.ltb_spec (len (strip (default EmptyString (Storage.text note))))
              10) as [Hshort|Hlong]; [apply Hrest, Hqs|].
  destruct (extract_keywords lib _ 2) as [|kw rest] eqn:Ekw;
    [apply Hrest, Hqs|].
  unfold _make_question_from_text.
  destruct (negb (truthy kw)); [apply Hrest, Hqs|].
  destruct (sub_first kw "_____" _) as [|c qt] eqn:Eq; [apply Hrest, Hqs|].
  assert (Hnew : forall q,
            In q (questions ++ [mkItem (strip (String c qt)) (strip kw)]) ->
            P q).
  { intros q Hq. apply in_app_or in Hq. destruct Hq as [Hq|[<-|[]]];
      [exact (Hqs q Hq)|].
    rewrite <- Eq. apply (Hstep note kw rest); [left; reflexivity|lia|].
    exact Ekw. }
  destruct (_ >=? max_q); [exact Hnew|apply Hrest, Hnew].
Qed.

Lemma questions_of_length (lib : option nltk) (max_q : Z) :
  forall (notes : list Note) (questions : list item),
    Z.of_nat (length questions) < Z.max 1 max_q ->
    Z.of_nat (length (questions_of lib max_q notes questions))
    <= Z.max 1 max_q.
Proof.
  induction notes as [|note notes IH]; intros questions Hlen;
    cbn [questions_of]; [lia|].
  cbv zeta. destruct (_ <? 10); [exact (IH _ Hlen)|].
  destruct (extract_keywords lib _ 2) as [|kw rest]; [exact (IH _ Hlen)|].
  destruct (_make_question_from_text _ kw) as [[|c qt]|];
    try exact (IH _ Hlen).
  destruct (Z.geb_spec
              (Z.of_nat (length (questions
                                 ++ [mkItem (strip (String c qt)) (strip kw)])))
              max_q) as [Hge|Hlt].
  - rewrite length_app in *. cbn [length] in *. lia.
  - apply IH. lia.
Qed.

(** X24: on a table that is read as it was written, [generate_quiz]
    returns at most [max_q] questions, and one question at most when
    [max_q] is below one; it leaves the notes and the counters as they
    are. *)
Theorem generate_quiz_bounded (lib : option nltk)
    (shuffle : list Note -> list Note) (max_q : Z) (fs : Files) :
  legible (rows fs) ->
  exists qs,
    generate_quiz lib shuffle max_q fs
    = (Returns qs, mkFiles (Some (rows fs)) (Some (stats fs)))
    /\ Z.of_nat (length qs) <= Z.max 1 max_q.
Proof.
  intros _. unfold generate_quiz, bind. rewrite list_notes_eq.
  destruct (head 200 _) as [|note notes].
  - exists []. split; [reflexivity|cbn; lia].
  - eexists. split; [reflexivity|].
    apply questions_of_length. cbn [length]. lia.
Qed.

(** X25: when the shuffle only reorders the notes, every question of
    the quiz is made from a stored note whose text has ten characters or
    more: the answer is a word of that text and no stop word, and the
    question is the text with its first occurrence of the answer
    blanked. *)
Theorem generate_quiz_answers (lib : option nltk)
    (shuffle : list Note -> list Note) (max_q : Z) (fs : Files)
    (qs : list item) (q : item) :
  (forall l, Permutation (shuffle l) l) ->
  fst (generate_quiz lib shuffle max_q fs) = Returns qs ->
  In q qs ->
  exists r,
    In r (rows fs)
    /\ 10 <= len (strip (default EmptyString (Storage.text r)))
    /\ In (answer q)
         (_tokenize_words lib (lower (default EmptyString (Storage.text r))))
    /\ ~ In (answer q) (stop_words lib)
    /\ question q
       = strip (sub_first (answer q) "_____"
                  (default EmptyString (Storage.text r))).
Proof.
  intros Hperm Hrun Hq.
  unfold generate_quiz, bind in Hrun. rewrite list_notes_eq in Hrun.
  set (listed := head 200 (sort_values_desc (map normalized (rows fs)))) in *.
  assert (Hlisted : forall note, In note (shuffle listed) ->
            exists r, In r (rows fs)
                      /\ default EmptyString (Storage.text note)
                         = default EmptyString (Storage.text r)).
  { intros note Hn. apply (Permutation_in _ (Hperm listed)) in Hn.
    assert (Hs : In note (sort_values_desc (map normalized (rows fs)))).
    { exact (head_In _ _ _ Hn). }
    apply (Permutation_in _ (sort_values_desc_perm _)) in Hs.
    apply in_map_iff in Hs. destruct Hs as (r & <- & Hr).
    exists r. split; [exact Hr|reflexivity]. }
  destruct listed as [|n0 l0] eqn:El.
  { cbn in Hrun. injection Hrun as <-. destruct Hq. }
  cbn [fst ret] in Hrun. injection Hrun as <-.
  revert q Hq. apply questions_of_from; [|intros q []].
  intros note kw rest Hn Hlen Hkw.
  destruct (Hlisted note Hn) as (r & Hr & Et). rewrite Et in *.
  exists r. cbn [answer question].
  pose proof (keywords_sound_aux lib (default EmptyString (Storage.text r)) 2
                kw) as Hk.
  rewrite Hkw in Hk. destruct (Hk (or_introl eq_refl)) as [Hw Hs].
  rewrite (strip_alpha kw (tokens_alpha _ _ _ Hw)).
  repeat split; assumption || reflexivity.
Qed.

End Quiz.

(** * The further properties on sample data *)

Section SamplesMore.
Import Py Storage Spec Ops.


Lemma savable_evening : savable evening "T" "X" EmptyString 9.
Proof.
  split; [vm_compute; repeat split; discriminate|].
  repeat split; vm_compute; reflexivity.
Defined.


Lemma save_note_key_error_witness :
  legible (rows no_total_xp) /\ id_room 1 (rows no_total_xp)
  /\ savable evening "T" "X" EmptyString 9
  /\ (total_xp (stats no_total_xp) = None
      \/ notes_created (stats no_total_xp) = None)
  /\ exists fs',
       save_note evening "T" "X" EmptyString 9 no_total_xp
       = (Raises KeyError, fs')
       /\ rows fs'
          = (rows no_total_xp
             ++ [saved_row (next_id (rows no_total_xp)) evening "T" "X"
                   EmptyString 9])%list
       /\ stats fs' = stats no_total_xp
       /\ legible (rows fs').
Proof.
  assert (H1 : legible (rows no_total_xp)) by (vm_compute; reflexivity).
  assert (H2 : id_room 1 (rows no_total_xp)) by (vm_compute; reflexivity).
  assert (H : total_xp (stats no_total_xp) = None
              \/ notes_created (stats no_total_xp) = None)
    by (left; reflexivity).
  split; [exact H1|]. split; [exact H2|]. split; [exact savable_evening|].
  split; [exact H|].
  exact (save_note_key_error no_total_xp evening "T" "X" EmptyString 9
           H1 H2 savable_evening H).
Defined.




Lemma update_note_lists_first_witness :
  In 5 (map id (rows two_notes))
  /\ legible (rows two_notes) /\ texted (rows two_notes)
  /\ plain "T" = true /\ plain "X" = true /\ plain_or_blank "g" = true
  /\ Forall (fun r => id r = 5
                      \/ String.ltb (datetime r) (Timestamp.isoformat evening)
                         = true)
       (rows two_notes)
  /\ 1 <= 3
  /\ exists (fs1 : Files) (r : Note) (rest : list Note),
       update_note evening 5 "T" "X" "g" 9 two_notes = (Returns true, fs1)
       /\ list_notes 3 fs1 = (Returns (r :: rest), fs1)
       /\ id r = 5
       /\ Storage.title r = Some "T"
       /\ Storage.text r = Some "X"
       /\ Storage.tags r = Some "g"
       /\ datetime r = Timestamp.isoformat evening.
Proof.
  assert (H1 : In 5 (map id (rows two_notes))) by (simpl; lia).
  assert (L1 : legible (rows two_notes)) by (vm_compute; reflexivity).
  assert (L2 : texted (rows two_notes))
    by (repeat split; vm_compute; reflexivity).
  assert (P1 : plain "T" = true) by (vm_compute; reflexivity).
  assert (P2 : plain "X" = true) by (vm_compute; reflexivity).
  assert (P3 : plain_or_blank "g" = true) by (vm_compute; reflexivity).
  assert (H2 : Forall (fun r => id r = 5
                                \/ String.ltb (datetime r)
                                     (Timestamp.isoformat evening) = true)
                 (rows two_notes)).
  { cbn. constructor; [right; vm_compute; reflexivity|].
    constructor; [left; reflexivity|]. constructor. }
  assert (H3 : 1 <= 3) by lia.
  split; [exact H1|]. split; [exact L1|]. split; [exact L2|].
  split; [exact P1|]. split; [exact P2|]. split; [exact P3|].
  split; [exact H2|]. split; [exact H3|].
  exact (update_note_lists_first two_notes evening 5 "T" "X" "g" 9 3
           H1 L1 L2 P1 P2 P3 H2 H3).
Defined.


Lemma extract_keywords_fields_witness :
  0 <= 2
  /\ true = true /\ truthy (strip "t") = true
  /\ truthy " alpha, beta ,gamma" = true
  /\ length (AiUtils.extract_keywords true (Some " alpha, beta ,gamma") "t" 2)
     = Nat.min (Z.to_nat 2)
         (S (occurrences AiUtils.COMMA (strip " alpha, beta ,gamma"))).
Proof.
  assert (H0 : 0 <= 2) by lia.
  assert (H1 : truthy (strip "t") = true) by reflexivity.
  assert (H2 : truthy " alpha, beta ,gamma" = true) by reflexivity.
  split; [exact H0|]. split; [reflexivity|]. split; [exact H1|].
  split; [exact H2|].
  exact (proj2 (proj2 (extract_keywords_fields true " alpha, beta ,gamma"
                         "t" 2 H0))
           eq_refl H1 H2).
Defined.

Lemma assess_difficulty_last_wins_witness :
  truthy (strip "t") = true
  /\ truthy sample_assessment = true
  /\ AiUtils.level
       (AiUtils.assess_difficulty true
          (AiUtils.Responded (Some sample_assessment)) "t")
     = strip (drop 6 "Level: Easy").
Proof.
  assert (H1 : truthy (strip "t") = true) by reflexivity.
  assert (H2 : truthy sample_assessment = true) by reflexivity.
  split; [exact H1|]. split; [exact H2|].
  destruct (assess_difficulty_last_wins sample_assessment "t" H1 H2)
    as (_ & H & _).
  apply (H ["Level: Hard"] "Level: Easy" ["Explanation: short words"]).
  - vm_compute. reflexivity.
  - vm_compute. reflexivity.
  - constructor; [vm_compute; reflexivity|constructor].
Defined.

Lemma assess_difficulty_unknown_witness :
  (truthy (strip "t") = false
   \/ false = false
   \/ (forall response_text,
         AiUtils.NoModel = AiUtils.Responded (Some response_text) ->
         truthy response_text = false))
  /\ AiUtils.level (AiUtils.assess_difficulty false AiUtils.NoModel "t")
     = "Unknown".
Proof.
  assert (H : truthy (strip "t") = false
              \/ false = false
              \/ (forall response_text,
                    AiUtils.NoModel = AiUtils.Responded (Some response_text) ->
                    truthy response_text = false))
    by (right; left; reflexivity).
  split; [exact H|].
  exact (proj1 (assess_difficulty_unknown false AiUtils.NoModel "t" H)).
Defined.

Lemma tidy_draft : tidy draft.
Proof. repeat split; vm_compute; reflexivity. Defined.

Lemma updatable_draft (df : list Note) : updatable draft df.
Proof. intros cid H. discriminate H. Defined.

Lemma valid_morning : Timestamp.valid morning.
Proof. vm_compute. repeat split; discriminate. Defined.

Lemma app_save_note_shows_witness :
  healthy initial /\ legible (rows initial) /\ id_room 1 (rows initial)
  /\ Timestamp.valid morning /\ tidy draft /\ updatable draft (rows initial)
  /\ truthy (strip (App.txt_content draft)) = true
  /\ filed_title draft initial = Some "Untitled note #1"
  /\ exists ed' fs',
       App.save_note draft morning initial = (Returns ed', fs')
       /\ healthy fs' /\ legible (rows fs')
       /\ App.is_modified ed' = false
       /\ shown ed' "Untitled note #1"
            (strip (App.txt_content draft)) (strip (App.entry_tags draft)) fs'
       /\ length (rows fs')
          = (length (rows initial)
             + match App.current_note_id draft with
               | Some cid => if isin cid (rows initial) then 0 else 1
               | None => 1
               end)%nat.
Proof.
  assert (H1 : healthy initial).
  { split; [repeat split; simpl; constructor|constructor]. }
  assert (H2 : legible (rows initial)) by reflexivity.
  assert (H3 : id_room 1 (rows initial)) by reflexivity.
  assert (H4 : truthy (strip (App.txt_content draft)) = true) by reflexivity.
  assert (H5 : filed_title draft initial = Some "Untitled note #1")
    by (vm_compute; reflexivity).
  split; [exact H1|]. split; [exact H2|]. split; [exact H3|].
  split; [exact valid_morning|]. split; [exact tidy_draft|].
  split; [exact (updatable_draft _)|]. split; [exact H4|]. split; [exact H5|].
  exact (app_save_note_shows draft morning initial "Untitled note #1"
           H1 H2 H3 valid_morning tidy_draft (updatable_draft _) H4 H5).
Defined.

Lemma autosave_threshold_witness :
  len (strip (App.txt_content (App.mkEditor "t" " ab " "g" None true))) < 3
  /\ App.save_note_silent (App.mkEditor "t" " ab " "g" None true) morning
       two_notes
     = (Returns (App.mkEditor "t" " ab " "g" None true), two_notes)
  /\ 3 <= len (strip (App.txt_content draft))
  /\ healthy initial /\ legible (rows initial) /\ id_room 1 (rows initial)
  /\ Timestamp.valid morning /\ tidy draft /\ updatable draft (rows initial)
  /\ filed_title draft initial = Some "Untitled note #1"
  /\ exists ed' fs',
       App.save_note_silent draft morning initial = (Returns ed', fs')
       /\ healthy fs' /\ legible (rows fs')
       /\ App.is_modified ed' = false
       /\ shown ed' "Untitled note #1"
            (strip (App.txt_content draft)) (strip (App.entry_tags draft)) fs'.
Proof.
  assert (H1 : len (strip (App.txt_content
                             (App.mkEditor "t" " ab " "g" None true))) < 3)
    by (vm_compute; reflexivity).
  assert (H2 : 3 <= len (strip (App.txt_content draft)))
    by (vm_compute; discriminate).
  assert (H3 : healthy initial).
  { split; [repeat split; simpl; constructor|constructor]. }
  assert (H4 : legible (rows initial)) by reflexivity.
  assert (H5 : id_room 1 (rows initial)) by reflexivity.
  assert (H6 : filed_title draft initial = Some "Untitled note #1")
    by (vm_compute; reflexivity).
  split; [exact H1|].
  split; [exact (proj1 (autosave_threshold _ morning two_notes) H1)|].
  split; [exact H2|]. split; [exact H3|]. split; [exact H4|].
  split; [exact H5|]. split; [exact valid_morning|].
  split; [exact tidy_draft|]. split; [exact (updatable_draft _)|].
  split; [exact H6|].
  exact (proj2 (autosave_threshold draft morning initial) "Untitled note #1"
           H2 H3 H4 H5 valid_morning tidy_draft (updatable_draft _) H6).
Defined.

Lemma app_keeps_store_in_order_witness :
  Forall tidy_event session
  /\ Z.of_nat (length session) < 2 ^ 63
  /\ (let fs := react_all session initial in
      total_xp (stats fs) = Some (sum_xp (rows fs))
      /\ notes_created (stats fs) = Some (Z.of_nat (length (rows fs)))
      /\ unique_ids fs
      /\ Forall well_formed (rows fs)
      /\ 5 * Z.of_nat (length (rows fs)) <= sum_xp (rows fs)
         <= 55 * Z.of_nat (length (rows fs))
      /\ legible (rows fs)).
Proof.
  assert (Hn : Timestamp.valid noon)
    by (vm_compute; repeat split; discriminate).
  assert (He : Timestamp.valid evening)
    by (vm_compute; repeat split; discriminate).
  assert (Ht : tidy named_draft) by (repeat split; vm_compute; reflexivity).
  assert (H1 : Forall tidy_event session).
  { unfold session.
    constructor; [exact (conj valid_morning tidy_draft)|].
    constructor; [exact (conj Hn Ht)|].
    constructor; [exact I|].
    constructor; [exact (conj He tidy_draft)|]. constructor. }
  assert (H2 : Z.of_nat (length session) < 2 ^ 63) by (vm_compute; reflexivity).
  split; [exact H1|]. split; [exact H2|].
  exact (app_keeps_store_in_order session H1 H2).
Defined.

Lemma autosave_repeats_on_key_error_witness :
  (total_xp (stats no_total_xp) = None
   \/ notes_created (stats no_total_xp) = None)
  /\ App.current_note_id named_draft = None
  /\ 3 <= len (strip (App.txt_content named_draft))
  /\ tidy named_draft
  /\ truthy (strip (App.entry_title named_draft)) = true
  /\ legible (rows no_total_xp)
  /\ id_room (length [morning; noon; evening]) (rows no_total_xp)
  /\ Forall Timestamp.valid [morning; noon; evening]
  /\ (forall now, In now [morning; noon; evening] ->
        fst (App.save_note_silent named_draft now no_total_xp)
        = Returns named_draft)
  /\ length (rows (ticks named_draft [morning; noon; evening] no_total_xp))
     = (length (rows no_total_xp) + length [morning; noon; evening])%nat
  /\ (exists added,
        rows (ticks named_draft [morning; noon; evening] no_total_xp)
        = (rows no_total_xp ++ added)%list
        /\ Forall (fun r =>
                     Storage.title r = Some "My note"
                     /\ Storage.text r = Some "some text"
                     /\ Storage.tags r = None)
             added)
  /\ stats (ticks named_draft [morning; noon; evening] no_total_xp)
     = stats no_total_xp
  /\ legible (rows (ticks named_draft [morning; noon; evening] no_total_xp)).
Proof.
  assert (H1 : total_xp (stats no_total_xp) = None
               \/ notes_created (stats no_total_xp) = None)
    by (left; reflexivity).
  assert (H2 : App.current_note_id named_draft = None) by reflexivity.
  assert (H3 : 3 <= len (strip (App.txt_content named_draft)))
    by (vm_compute; discriminate).
  assert (H4 : tidy named_draft) by (repeat split; vm_compute; reflexivity).
  assert (H5 : truthy (strip (App.entry_title named_draft)) = true)
    by reflexivity.
  assert (H6 : legible (rows no_total_xp)) by reflexivity.
  assert (H7 : id_room (length [morning; noon; evening]) (rows no_total_xp))
    by reflexivity.
  assert (H8 : Forall Timestamp.valid [morning; noon; evening]).
  { constructor; [exact valid_morning|].
    constructor; [vm_compute; repeat split; discriminate|].
    constructor; [vm_compute; repeat split; discriminate|]. constructor. }
  split; [exact H1|]. split; [exact H2|]. split; [exact H3|].
  split; [exact H4|]. split; [exact H5|]. split; [exact H6|].
  split; [exact H7|]. split; [exact H8|].
  exact (autosave_repeats_on_key_error named_draft
           [morning; noon; evening] no_total_xp H1 H2 H3 H4 H5 H6 H7 H8).
Defined.

Lemma auto_title_is_new_witness :
  legible (rows untitled_store)
  /\ short_titles (rows untitled_store)
  /\ Z.of_nat (length (rows untitled_store)) <= 9999
  /\ exists n,
       App.auto_title untitled_store
       = (Returns ("Untitled note #" ++ numeral n)%string,
          mkFiles (Some (rows untitled_store)) (Some (stats untitled_store)))
       /\ 1 <= n
       /\ (forall m, in_use (rows untitled_store) m -> m < n)
       /\ ((forall m, ~ in_use (rows untitled_store) m) /\ n = 1
           \/ in_use (rows untitled_store) (n - 1))
       /\ (forall r, In r (rows untitled_store) ->
             title r <> Some ("Untitled note #" ++ numeral n)%string).
Proof.
  assert (H1 : legible (rows untitled_store)) by (vm_compute; reflexivity).
  assert (H2 : short_titles (rows untitled_store)).
  { unfold short_titles, untitled_store. cbn [rows notes_csv].
    constructor; [vm_compute; reflexivity|].
    constructor; [vm_compute; reflexivity|]. constructor. }
  assert (H3 : Z.of_nat (length (rows untitled_store)) <= 9999)
    by (vm_compute; discriminate).
  split; [exact H1|]. split; [exact H2|]. split; [exact H3|].
  exact (auto_title_is_new untitled_store H1 H2 H3).
Defined.

Lemma chunk_text_sizes_witness :
  In "second part" (App._chunk_text two_paragraphs 20)
  /\ "second part" <> EmptyString
  /\ (In "second part" (App.paras two_paragraphs)
      \/ len "second part" < 20).
Proof.
  assert (H : In "second part" (App._chunk_text two_paragraphs 20))
    by (vm_compute; right; left; reflexivity).
  split; [exact H|].
  exact (chunk_text_sizes two_paragraphs 20 "second part" H).
Defined.

Lemma keywords_sound_witness :
  In "dog" (QuizGen.extract_keywords None "dog cat the cat Bird dog cat" 2)
  /\ In "dog" (QuizGen._tokenize_words None
                 (QuizGen.lower "dog cat the cat Bird dog cat"))
  /\ ~ In "dog" (QuizGen.stop_words None).
Proof.
  assert (H : In "dog" (QuizGen.extract_keywords None
                          "dog cat the cat Bird dog cat" 2))
    by (vm_compute; tauto).
  split; [exact H|].
  exact (proj2 (keywords_sound None "dog cat the cat Bird dog cat" 2) "dog" H).
Defined.

Lemma keywords_top_witness :
  In "bird" (QuizGen._tokenize_words None
               (QuizGen.lower "dog cat the cat Bird dog cat"))
  /\ ~ In "bird" (QuizGen.stop_words None)
  /\ ~ In "bird" (QuizGen.extract_keywords None
                    "dog cat the cat Bird dog cat" 2)
  /\ In "dog" (QuizGen.extract_keywords None
                 "dog cat the cat Bird dog cat" 2)
  /\ times "bird" (QuizGen._tokenize_words None
                     (QuizGen.lower "dog cat the cat Bird dog cat"))
     <= times "dog" (QuizGen._tokenize_words None
                       (QuizGen.lower "dog cat the cat Bird dog cat")).
Proof.
  assert (H1 : In "bird" (QuizGen._tokenize_words None
                            (QuizGen.lower "dog cat the cat Bird dog cat")))
    by (vm_compute; tauto).
  assert (H2 : ~ In "bird" (QuizGen.stop_words None)).
  { intros Hin. apply (proj2 (mem_In _ _)) in Hin. vm_compute in Hin.
    discriminate Hin. }
  assert (H3 : ~ In "bird" (QuizGen.extract_keywords None
                              "dog cat the cat Bird dog cat" 2)).
  { vm_compute. intros [H|[H|[]]]; discriminate H. }
  assert (H4 : In "dog" (QuizGen.extract_keywords None
                           "dog cat the cat Bird dog cat" 2))
    by (vm_compute; tauto).
  split; [exact H1|]. split; [exact H2|]. split; [exact H3|].
  split; [exact H4|].
  exact (keywords_top None "dog cat the cat Bird dog cat" 2 "bird" "dog"
           H1 H2 H3 H4).
Defined.

Lemma generate_quiz_bounded_witness :
  legible (rows quiz_store)
  /\ exists qs,
       QuizGen.generate_quiz None (@rev Note) 5 quiz_store
       = (Returns qs, mkFiles (Some (rows quiz_store)) (Some (stats quiz_store)))
       /\ Z.of_nat (length qs) <= Z.max 1 5.
Proof.
  assert (H : legible (rows quiz_store)) by (vm_compute; reflexivity).
  split; [exact H|].
  exact (generate_quiz_bounded None (@rev Note) 5 quiz_store H).
Defined.

Lemma generate_quiz_answers_witness :
  (forall l : list Note, Permutation (rev l) l)
  /\ fst (QuizGen.generate_quiz None (@rev Note) 5 quiz_store)
     = Returns [QuizGen.mkItem "The _____ sat; a Cat is a cat" "cat"]
  /\ In (QuizGen.mkItem "The _____ sat; a Cat is a cat" "cat")
       [QuizGen.mkItem "The _____ sat; a Cat is a cat" "cat"]
  /\ exists r,
       In r (rows quiz_store)
       /\ 10 <= len (strip (default EmptyString (Storage.text r)))
       /\ In "cat"
            (QuizGen._tokenize_words None
               (QuizGen.lower (default EmptyString (Storage.text r))))
       /\ ~ In "cat" (QuizGen.stop_words None)
       /\ "The _____ sat; a Cat is a cat"
          = strip (QuizGen.sub_first "cat" "_____"
                     (default EmptyString (Storage.text r))).
Proof.
  assert (H1 : forall l : list Note, Permutation (rev l) l)
    by (intros l; apply Permutation_sym, Permutation_rev).
  assert (H2 : fst (QuizGen.generate_quiz None (@rev Note) 5 quiz_store)
               = Returns [QuizGen.mkItem "The _____ sat; a Cat is a cat"
                            "cat"])
    by (vm_compute; reflexivity).
  assert (H3 : In (QuizGen.mkItem "The _____ sat; a Cat is a cat" "cat")
                 [QuizGen.mkItem "The _____ sat; a Cat is a cat" "cat"])
    by (left; reflexivity).
  split; [exact H1|]. split; [exact H2|]. split; [exact H3|].
  exact (generate_quiz_answers None (@rev Note) 5 quiz_store _ _ H1 H2 H3).
Defined.

End SamplesMore.
